(** * pt-qbit-web: the precision upload-rate governor and the auto-remove engine

    A shallow embedding of [backend/precision_limit_engine.py] and
    [backend/auto_remove_engine.py], and the properties of the
    specification checked against it.

    Conventions of the embedding.
    - Python [float]s are modelled as exact rationals [Q]; rounding error of
      binary floating point is outside the model, and so are its overflow
      to [inf] and the [OverflowError] of [int(inf)].  Python [int]s are [Z].
    - A [str] is a [string] with one [ascii] per character; text outside
      ASCII is outside the model.
    - A dict used as a table is a stdpp [gmap]; a dict used as a record of an
      external interface is a [Record] whose optional keys are [option]
      fields, read with the default the code passes to [.get].
    - Objects mutated in place ([TorrentLimitState], its PID and Kalman
      filter, the engine) are passed and returned explicitly.
    - A call into an external collaborator (client driver, site scraper,
      store) either returns or raises: [ext A]. *)

From Stdlib Require Import ZArith QArith Qround Qminmax Qabs Lqa String List.
From Stdlib Require Import Ascii.
From stdpp Require Import gmap strings pretty.

Local Open Scope Z_scope.
Local Open Scope Q_scope.

(* ================================================================== *)
(** ** Python numerics *)

Module Py.

(** [a < b], [a <= b] on floats, as booleans. *)
Definition ltb (a b : Q) : bool := negb (Qle_bool b a).
Definition leb (a b : Q) : bool := Qle_bool a b.

(** [max(a, b)]: the first argument unless the second is strictly larger. *)
Definition max (a b : Q) : Q := if ltb a b then b else a.

(** [min(a, b)]: the first argument unless the second is strictly smaller. *)
Definition min (a b : Q) : Q := if ltb b a then b else a.

(** [max], [min] on ints. *)
Definition zmax (a b : Z) : Z := if (a <? b)%Z then b else a.
Definition zmin (a b : Z) : Z := if (b <? a)%Z then b else a.

(** [abs(x)]. *)
Definition abs (x : Q) : Q := Qabs x.

(** [int(x)] of a float: truncation towards zero. *)
Definition int (x : Q) : Z := Z.quot (Qnum x) (Zpos (Qden x)).

(** An int used where a float is expected. *)
Definition float (z : Z) : Q := inject_Z z.

End Py.

Infix "<?" := Py.ltb : Q_scope.
Infix "<=?" := Py.leb : Q_scope.

(** Outcome of a call into an external collaborator. *)
Inductive ext (A : Type) : Type :=
| Returns (a : A)
| Raises.
Arguments Returns {A} a.
Arguments Raises {A}.

(* ================================================================== *)
(** ** Constants: [class LimitConfig] *)

Inductive Phase : Type := warmup | catch | steady | finish.

Definition Phase_eqb (p q : Phase) : bool :=
  match p, q with
  | warmup, warmup | catch, catch | steady, steady | finish, finish => true
  | _, _ => false
  end.

Record PidParams : Type := {
  kp : Q;
  ki : Q;
  kd : Q;
  headroom : Q
}.

Module LimitConfig.

Definition FINISH_TIME : Q := 30.
Definition STEADY_TIME : Q := 120.
Definition WARMUP_TIME : Q := 300.

(** [PID_PARAMS]; the phases are the four keys of the table, so the
    fall-back [PID_PARAMS['catch']] of [.get(phase, ...)] is never taken. *)
Definition PID_PARAMS (p : Phase) : PidParams :=
  match p with
  | warmup => {| kp := 0.3; ki := 0.05; kd := 0.02; headroom := 1.03 |}
  | catch  => {| kp := 0.5; ki := 0.10; kd := 0.05; headroom := 1.02 |}
  | steady => {| kp := 0.6; ki := 0.15; kd := 0.08; headroom := 1.005 |}
  | finish => {| kp := 0.8; ki := 0.20; kd := 0.12; headroom := 1.001 |}
  end.

Definition MIN_LIMIT : Z := 4096.
Definition MAX_LIMIT : Z := 500 * 1024 * 1024.

Definition LOG_INTERVAL : Q := 20.

End LimitConfig.

(* ================================================================== *)
(** ** Utility functions *)

Module Util.

(** [safe_div(a, b, default)]. *)
Definition safe_div (a b default : Q) : Q :=
  if Qeq_bool b 0 || (Py.abs b <? 1e-10) then default else a / b.

(** [clamp(value, min_val, max_val)]. *)
Definition clamp (value min_val max_val : Q) : Q :=
  Py.max min_val (Py.min max_val value).

(** The module-level [get_phase(time_left, cycle_synced)]. *)
Definition get_phase (time_left : Q) (cycle_synced : bool) : Phase :=
  if negb cycle_synced then warmup
  else if time_left <=? LimitConfig.FINISH_TIME then finish
  else if time_left <=? LimitConfig.STEADY_TIME then steady
  else catch.

End Util.

Import Util.

(* ================================================================== *)
(** ** [class PIDController] *)

Module PIDController.

Record t : Type := {
  integral : Q;
  last_error : Q;
  last_time : Q;
  phase : Phase
}.

(** [__init__]. *)
Definition init : t :=
  {| integral := 0; last_error := 0; last_time := 0; phase := warmup |}.

(** [set_phase(phase)]. *)
Definition set_phase (self : t) (p : Phase) : t :=
  if negb (Phase_eqb p (phase self)) then
    {| integral := integral self * 0.5;
       last_error := last_error self;
       last_time := last_time self;
       phase := p |}
  else self.

(** The [dt] of [update]: [now - self.last_time if self.last_time > 0 else 1]. *)
Definition dt_of (self : t) (now : Q) : Q :=
  if 0 <? last_time self then now - last_time self else 1.

(** [update(target, actual, now)]: the controller after the call and the
    returned gain. *)
Definition update (self : t) (target actual now : Q) : t * Q :=
  let params := LimitConfig.PID_PARAMS (phase self) in
  let error := safe_div (target - actual) (Py.max target 1) 0 in
  let dt := dt_of self now in
  let integral' := clamp (integral self + error * dt) (-0.5) 0.5 in
  let derivative := if 0 <? dt then (error - last_error self) / dt else 0 in
  let output := 1.0 + kp params * error + ki params * integral'
                + kd params * derivative in
  ({| integral := integral';
      last_error := error;
      last_time := now;
      phase := phase self |},
   clamp output 0.3 3.0).

(** [reset()]. *)
Definition reset (self : t) : t :=
  {| integral := 0; last_error := 0; last_time := 0; phase := phase self |}.

End PIDController.

(* ================================================================== *)
(** ** [class KalmanFilter] *)

Module KalmanFilter.

Record t : Type := {
  speed : Q;
  acceleration : Q;
  p_speed : Q;
  p_accel : Q;
  last_time : Q
}.

Definition q_speed : Q := 0.1.
Definition q_accel : Q := 0.05.
Definition r : Q := 0.5.

(** [__init__]. *)
Definition init : t :=
  {| speed := 0; acceleration := 0; p_speed := 1; p_accel := 1;
     last_time := 0 |}.

(** [update(measured_speed, now)].  The only division that is not guarded
    is [p_speed / (p_speed + r)]: when the divisor is zero Python raises
    [ZeroDivisionError] after [last_time], [p_speed] and [p_accel] have
    been written; the filter at that point is returned, with the
    flag [true] for "raised" ([false] when the call returns). *)
Definition update (self : t) (measured_speed now : Q) : t * bool :=
  if last_time self <=? 0 then
    ({| speed := measured_speed; acceleration := acceleration self;
        p_speed := p_speed self; p_accel := p_accel self;
        last_time := now |}, false)
  else
    let dt := now - last_time self in
    if dt <=? 0 then (self, false)
    else
      let predicted_speed := speed self + acceleration self * dt in
      let p_speed1 := p_speed self + (q_speed + p_accel self * dt * dt) in
      let p_accel1 := p_accel self + q_accel in
      let innovation := measured_speed - predicted_speed in
      if Qeq_bool (p_speed1 + r) 0 then
        ({| speed := speed self; acceleration := acceleration self;
            p_speed := p_speed1; p_accel := p_accel1;
            last_time := now |}, true)
      else
        let k := p_speed1 / (p_speed1 + r) in
        ({| speed := predicted_speed + k * innovation;
            acceleration := acceleration self + 0.1 * innovation / dt;
            p_speed := p_speed1 * (1 - k);
            p_accel := p_accel1;
            last_time := now |}, false).

(** [predict_upload(time_left)]. *)
Definition predict_upload (self : t) (time_left : Q) : Q :=
  speed self * time_left + 0.5 * acceleration self * time_left * time_left.

(** [reset()]. *)
Definition reset (self : t) : t := init.

End KalmanFilter.

(* ================================================================== *)
(** ** [class TorrentLimitState] *)

(** The [reannounce_source] tag. *)
Inductive Source : Type :=
| src_unknown     (* "unknown" *)
| src_site        (* "site" *)
| src_qb_api      (* "qb_api" *)
| src_estimated   (* "estimated" *)
| src_cached.     (* "cached" *)

(** The short reason tag returned with a limit, kept structured: each
    constructor stands for one of the format strings of
    [_calculate_limit], with the formatted integer and the source whose
    emoji ends the tag. *)
Inductive Reason : Type :=
| reason_none                                (* "" *)
| reason_announcing                          (* "汇报中" *)
| reason_finish (kib : Z) (s : Source)       (* "F:{kib}K{src}" *)
| reason_steady (kib : Z) (s : Source)       (* "S:{kib}K{src}" *)
| reason_catch_behind (s : Source)           (* "C:欠速{src}" *)
| reason_catch (kib : Z) (s : Source)        (* "C:{kib}K{src}" *)
| reason_warmup_over (pct : Z) (s : Source)  (* "W:超{pct}%{src}" *)
| reason_warmup_fine (s : Source)            (* "W:精控{src}" *)
| reason_warmup_mid (s : Source)             (* "W:温控{src}" *)
| reason_warmup_idle (s : Source).           (* "W:预热{src}" *)

Module TorrentLimitState.

Record t : Type := {
  hash : string;
  name : string;
  tracker : string;
  instance_id : Z;
  cycle_start : Q;
  cycle_uploaded_start : Z;
  cycle_index : Z;
  cycle_synced : bool;
  reannounce_time : Q;
  cached_time_left : Q;
  reannounce_source : Source;
  target_speed : Z;
  last_limit : Z;
  last_limit_reason : Reason;
  site_id : option Z;
  tid : option Z;
  pid : PIDController.t;
  kalman : KalmanFilter.t;
  last_log_time : Q
}.

(** The dataclass defaults: [TorrentLimitState(hash=h)]. *)
Definition make (h : string) : t :=
  {| hash := h; name := ""; tracker := ""; instance_id := 0;
     cycle_start := 0; cycle_uploaded_start := 0; cycle_index := 0;
     cycle_synced := false;
     reannounce_time := 0; cached_time_left := 1800;
     reannounce_source := src_unknown;
     target_speed := 50 * 1024 * 1024; last_limit := -1;
     last_limit_reason := reason_none;
     site_id := None; tid := None;
     pid := PIDController.init; kalman := KalmanFilter.init;
     last_log_time := 0 |}.

(** Attribute assignments [self.f = v]. *)
Definition set_name (v : string) (s : t) : t :=
  {| hash := hash s; name := v; tracker := tracker s;
     instance_id := instance_id s; cycle_start := cycle_start s;
     cycle_uploaded_start := cycle_uploaded_start s;
     cycle_index := cycle_index s; cycle_synced := cycle_synced s;
     reannounce_time := reannounce_time s;
     cached_time_left := cached_time_left s;
     reannounce_source := reannounce_source s;
     target_speed := target_speed s; last_limit := last_limit s;
     last_limit_reason := last_limit_reason s;
     site_id := site_id s; tid := tid s; pid := pid s;
     kalman := kalman s; last_log_time := last_log_time s |}.

Definition set_tracker (v : string) (s : t) : t :=
  {| hash := hash s; name := name s; tracker := v;
     instance_id := instance_id s; cycle_start := cycle_start s;
     cycle_uploaded_start := cycle_uploaded_start s;
     cycle_index := cycle_index s; cycle_synced := cycle_synced s;
     reannounce_time := reannounce_time s;
     cached_time_left := cached_time_left s;
     reannounce_source := reannounce_source s;
     target_speed := target_speed s; last_limit := last_limit s;
     last_limit_reason := last_limit_reason s;
     site_id := site_id s; tid := tid s; pid := pid s;
     kalman := kalman s; last_log_time := last_log_time s |}.

Definition set_instance_id (v : Z) (s : t) : t :=
  {| hash := hash s; name := name s; tracker := tracker s;
     instance_id := v; cycle_start := cycle_start s;
     cycle_uploaded_start := cycle_uploaded_start s;
     cycle_index := cycle_index s; cycle_synced := cycle_synced s;
     reannounce_time := reannounce_time s;
     cached_time_left := cached_time_left s;
     reannounce_source := reannounce_source s;
     target_speed := target_speed s; last_limit := last_limit s;
     last_limit_reason := last_limit_reason s;
     site_id := site_id s; tid := tid s; pid := pid s;
     kalman := kalman s; last_log_time := last_log_time s |}.

Definition set_cycle_start (v : Q) (s : t) : t :=
  {| hash := hash s; name := name s; tracker := tracker s;
     instance_id := instance_id s; cycle_start := v;
     cycle_uploaded_start := cycle_uploaded_start s;
     cycle_index := cycle_index s; cycle_synced := cycle_synced s;
     reannounce_time := reannounce_time s;
     cached_time_left := cached_time_left s;
     reannounce_source := reannounce_source s;
     target_speed := target_speed s; last_limit := last_limit s;
     last_limit_reason := last_limit_reason s;
     site_id := site_id s; tid := tid s; pid := pid s;
     kalman := kalman s; last_log_time := last_log_time s |}.

Definition set_cycle_uploaded_start (v : Z) (s : t) : t :=
  {| hash := hash s; name := name s; tracker := tracker s;
     instance_id := instance_id s; cycle_start := cycle_start s;
     cycle_uploaded_start := v;
     cycle_index := cycle_index s; cycle_synced := cycle_synced s;
     reannounce_time := reannounce_time s;
     cached_time_left := cached_time_left s;
     reannounce_source := reannounce_source s;
     target_speed := target_speed s; last_limit := last_limit s;
     last_limit_reason := last_limit_reason s;
     site_id := site_id s; tid := tid s; pid := pid s;
     kalman := kalman s; last_log_time := last_log_time s |}.

Definition set_cycle_index (v : Z) (s : t) : t :=
  {| hash := hash s; name := name s; tracker := tracker s;
     instance_id := instance_id s; cycle_start := cycle_start s;
     cycle_uploaded_start := cycle_uploaded_start s;
     cycle_index := v; cycle_synced := cycle_synced s;
     reannounce_time := reannounce_time s;
     cached_time_left := cached_time_left s;
     reannounce_source := reannounce_source s;
     target_speed := target_speed s; last_limit := last_limit s;
     last_limit_reason := last_limit_reason s;
     site_id := site_id s; tid := tid s; pid := pid s;
     kalman := kalman s; last_log_time := last_log_time s |}.

Definition set_cycle_synced (v : bool) (s : t) : t :=
  {| hash := hash s; name := name s; tracker := tracker s;
     instance_id := instance_id s; cycle_start := cycle_start s;
     cycle_uploaded_start := cycle_uploaded_start s;
     cycle_index := cycle_index s; cycle_synced := v;
     reannounce_time := reannounce_time s;
     cached_time_left := cached_time_left s;
     reannounce_source := reannounce_source s;
     target_speed := target_speed s; last_limit := last_limit s;
     last_limit_reason := last_limit_reason s;
     site_id := site_id s; tid := tid s; pid := pid s;
     kalman := kalman s; last_log_time := last_log_time s |}.

Definition set_reannounce_time (v : Q) (s : t) : t :=
  {| hash := hash s; name := name s; tracker := tracker s;
     instance_id := instance_id s; cycle_start := cycle_start s;
     cycle_uploaded_start := cycle_uploaded_start s;
     cycle_index := cycle_index s; cycle_synced := cycle_synced s;
     reannounce_time := v;
     cached_time_left := cached_time_left s;
     reannounce_source := reannounce_source s;
     target_speed := target_speed s; last_limit := last_limit s;
     last_limit_reason := last_limit_reason s;
     site_id := site_id s; tid := tid s; pid := pid s;
     kalman := kalman s; last_log_time := last_log_time s |}.

Definition set_cached_time_left (v : Q) (s : t) : t :=
  {| hash := hash s; name := name s; tracker := tracker s;
     instance_id := instance_id s; cycle_start := cycle_start s;
     cycle_uploaded_start := cycle_uploaded_start s;
     cycle_index := cycle_index s; cycle_synced := cycle_synced s;
     reannounce_time := reannounce_time s;
     cached_time_left := v;
     reannounce_source := reannounce_source s;
     target_speed := target_speed s; last_limit := last_limit s;
     last_limit_reason := last_limit_reason s;
     site_id := site_id s; tid := tid s; pid := pid s;
     kalman := kalman s; last_log_time := last_log_time s |}.

Definition set_reannounce_source (v : Source) (s : t) : t :=
  {| hash := hash s; name := name s; tracker := tracker s;
     instance_id := instance_id s; cycle_start := cycle_start s;
     cycle_uploaded_start := cycle_uploaded_start s;
     cycle_index := cycle_index s; cycle_synced := cycle_synced s;
     reannounce_time := reannounce_time s;
     cached_time_left := cached_time_left s;
     reannounce_source := v;
     target_speed := target_speed s; last_limit := last_limit s;
     last_limit_reason := last_limit_reason s;
     site_id := site_id s; tid := tid s; pid := pid s;
     kalman := kalman s; last_log_time := last_log_time s |}.

Definition set_target_speed (v : Z) (s : t) : t :=
  {| hash := hash s; name := name s; tracker := tracker s;
     instance_id := instance_id s; cycle_start := cycle_start s;
     cycle_uploaded_start := cycle_uploaded_start s;
     cycle_index := cycle_index s; cycle_synced := cycle_synced s;
     reannounce_time := reannounce_time s;
     cached_time_left := cached_time_left s;
     reannounce_source := reannounce_source s;
     target_speed := v; last_limit := last_limit s;
     last_limit_reason := last_limit_reason s;
     site_id := site_id s; tid := tid s; pid := pid s;
     kalman := kalman s; last_log_time := last_log_time s |}.

Definition set_last_limit (v : Z) (s : t) : t :=
  {| hash := hash s; name := name s; tracker := tracker s;
     instance_id := instance_id s; cycle_start := cycle_start s;
     cycle_uploaded_start := cycle_uploaded_start s;
     cycle_index := cycle_index s; cycle_synced := cycle_synced s;
     reannounce_time := reannounce_time s;
     cached_time_left := cached_time_left s;
     reannounce_source := reannounce_source s;
     target_speed := target_speed s; last_limit := v;
     last_limit_reason := last_limit_reason s;
     site_id := site_id s; tid := tid s; pid := pid s;
     kalman := kalman s; last_log_time := last_log_time s |}.

Definition set_last_limit_reason (v : Reason) (s : t) : t :=
  {| hash := hash s; name := name s; tracker := tracker s;
     instance_id := instance_id s; cycle_start := cycle_start s;
     cycle_uploaded_start := cycle_uploaded_start s;
     cycle_index := cycle_index s; cycle_synced := cycle_synced s;
     reannounce_time := reannounce_time s;
     cached_time_left := cached_time_left s;
     reannounce_source := reannounce_source s;
     target_speed := target_speed s; last_limit := last_limit s;
     last_limit_reason := v;
     site_id := site_id s; tid := tid s; pid := pid s;
     kalman := kalman s; last_log_time := last_log_time s |}.

Definition set_site_id (v : option Z) (s : t) : t :=
  {| hash := hash s; name := name s; tracker := tracker s;
     instance_id := instance_id s; cycle_start := cycle_start s;
     cycle_uploaded_start := cycle_uploaded_start s;
     cycle_index := cycle_index s; cycle_synced := cycle_synced s;
     reannounce_time := reannounce_time s;
     cached_time_left := cached_time_left s;
     reannounce_source := reannounce_source s;
     target_speed := target_speed s; last_limit := last_limit s;
     last_limit_reason := last_limit_reason s;
     site_id := v; tid := tid s; pid := pid s;
     kalman := kalman s; last_log_time := last_log_time s |}.

Definition set_tid (v : option Z) (s : t) : t :=
  {| hash := hash s; name := name s; tracker := tracker s;
     instance_id := instance_id s; cycle_start := cycle_start s;
     cycle_uploaded_start := cycle_uploaded_start s;
     cycle_index := cycle_index s; cycle_synced := cycle_synced s;
     reannounce_time := reannounce_time s;
     cached_time_left := cached_time_left s;
     reannounce_source := reannounce_source s;
     target_speed := target_speed s; last_limit := last_limit s;
     last_limit_reason := last_limit_reason s;
     site_id := site_id s; tid := v; pid := pid s;
     kalman := kalman s; last_log_time := last_log_time s |}.

Definition set_pid (v : PIDController.t) (s : t) : t :=
  {| hash := hash s; name := name s; tracker := tracker s;
     instance_id := instance_id s; cycle_start := cycle_start s;
     cycle_uploaded_start := cycle_uploaded_start s;
     cycle_index := cycle_index s; cycle_synced := cycle_synced s;
     reannounce_time := reannounce_time s;
     cached_time_left := cached_time_left s;
     reannounce_source := reannounce_source s;
     target_speed := target_speed s; last_limit := last_limit s;
     last_limit_reason := last_limit_reason s;
     site_id := site_id s; tid := tid s; pid := v;
     kalman := kalman s; last_log_time := last_log_time s |}.

Definition set_kalman (v : KalmanFilter.t) (s : t) : t :=
  {| hash := hash s; name := name s; tracker := tracker s;
     instance_id := instance_id s; cycle_start := cycle_start s;
     cycle_uploaded_start := cycle_uploaded_start s;
     cycle_index := cycle_index s; cycle_synced := cycle_synced s;
     reannounce_time := reannounce_time s;
     cached_time_left := cached_time_left s;
     reannounce_source := reannounce_source s;
     target_speed := target_speed s; last_limit := last_limit s;
     last_limit_reason := last_limit_reason s;
     site_id := site_id s; tid := tid s; pid := pid s;
     kalman := v; last_log_time := last_log_time s |}.

Definition set_last_log_time (v : Q) (s : t) : t :=
  {| hash := hash s; name := name s; tracker := tracker s;
     instance_id := instance_id s; cycle_start := cycle_start s;
     cycle_uploaded_start := cycle_uploaded_start s;
     cycle_index := cycle_index s; cycle_synced := cycle_synced s;
     reannounce_time := reannounce_time s;
     cached_time_left := cached_time_left s;
     reannounce_source := reannounce_source s;
     target_speed := target_speed s; last_limit := last_limit s;
     last_limit_reason := last_limit_reason s;
     site_id := site_id s; tid := tid s; pid := pid s;
     kalman := kalman s; last_log_time := v |}.

(** [get_phase(now)]. *)
Definition get_phase (self : t) (now : Q) : Phase :=
  if negb (cycle_synced self) then warmup
  else
    let time_left :=
      if 0 <? reannounce_time self
      then Py.max 0 (reannounce_time self - now)
      else cached_time_left self in
    Util.get_phase time_left (cycle_synced self).

(** [get_cycle_uploaded(current_uploaded)]. *)
Definition get_cycle_uploaded (self : t) (current_uploaded : Z) : Z :=
  Py.zmax 0 (current_uploaded - cycle_uploaded_start self).

(** [new_cycle(now, current_uploaded, time_left)]. *)
Definition new_cycle (self : t) (now : Q) (current_uploaded : Z)
    (time_left : Q) : t :=
  let s1 := set_cycle_start now self in
  let s2 := set_cycle_uploaded_start current_uploaded s1 in
  let s3 := set_cycle_index (cycle_index s2 + 1) s2 in
  let s4 := set_pid (PIDController.reset (pid s3)) s3 in
  let s5 := set_reannounce_time (now + time_left) s4 in
  set_cached_time_left time_left s5.

End TorrentLimitState.

(* ================================================================== *)
(** ** External collaborators of the governor *)

(** A torrent as [qb_manager.get_torrents] lists it; every key but [hash]
    is read with [.get] and may be absent. *)
Record Torrent : Type := {
  t_hash : string;
  t_name : option string;
  t_state : option string;
  t_tracker : option string;
  t_size : option Z;
  t_uploaded : option Z;
  t_upspeed : option Z;
  t_progress : option Q;
  t_ratio : option Q;
  t_seeding_time : option Z;
  t_last_activity : option Z
}.

(** A site speed rule as [db.get_speed_rules] lists it. *)
Record SpeedRule : Type := {
  rule_enabled : bool;
  rule_site_id : option Z;
  target_speed_kib : option Z;
  safety_margin : option Q
}.

(** The result of [helper.search_tid_by_hash]. *)
Record TidInfo : Type := {
  info_tid : option Z;
  info_site_id : option Z
}.

(** A site helper: [enabled], [search_tid_by_hash(hash)],
    [get_reannounce_time(tid)]. *)
Record Helper : Type := {
  helper_enabled : bool;
  search_tid_by_hash : string -> ext (option TidInfo);
  get_reannounce_time : Z -> ext (option Q)
}.

(** The helper manager: [get_helper_by_tracker(tracker)]. *)
Record SiteHelperManager : Type := {
  get_helper_by_tracker : string -> ext (option Helper)
}.

(** A client handle: [torrents_properties(hash)], reduced to the
    ['reannounce'] entry of the returned properties ([None] when the key is
    absent or its value is [None]). *)
Record Client : Type := {
  torrents_properties : string -> ext (option Q)
}.

(** One issued [qb_manager.set_upload_limit(instance_id, hash, limit)]. *)
Record LimitCall : Type := {
  call_instance : Z;
  call_hash : string;
  call_limit : Z
}.

(** The client driver. *)
Record QbManager : Type := {
  get_client : Z -> ext (option Client);
  get_torrents : Z -> ext (list Torrent);
  set_upload_limit : Z -> string -> Z -> ext unit
}.

(** The engine's [_stats] counters. *)
Record Stats : Type := {
  site_success : Z;
  qb_api_success : Z;
  fallback_count : Z;
  torrents_controlled : Z
}.

Definition incr_site_success (s : Stats) : Stats :=
  {| site_success := site_success s + 1;
     qb_api_success := qb_api_success s;
     fallback_count := fallback_count s;
     torrents_controlled := torrents_controlled s |}.

Definition incr_qb_api_success (s : Stats) : Stats :=
  {| site_success := site_success s;
     qb_api_success := qb_api_success s + 1;
     fallback_count := fallback_count s;
     torrents_controlled := torrents_controlled s |}.

Definition incr_fallback_count (s : Stats) : Stats :=
  {| site_success := site_success s;
     qb_api_success := qb_api_success s;
     fallback_count := fallback_count s + 1;
     torrents_controlled := torrents_controlled s |}.

Definition set_torrents_controlled (n : Z) (s : Stats) : Stats :=
  {| site_success := site_success s;
     qb_api_success := qb_api_success s;
     fallback_count := fallback_count s;
     torrents_controlled := n |}.

(** Truthiness of an [Optional[int]]: neither [None] nor [0]. *)
Definition truthy (o : option Z) : bool :=
  match o with
  | Some z => negb (z =? 0)%Z
  | None => false
  end.

(** A PT site as [db.get_pt_sites] lists it. *)
Record Site : Type := {
  site_ident : option Z;              (* 'id' *)
  site_tracker_keyword : option string;
  site_url : option string
}.

(** A client instance as [db.get_qb_instances] lists it. *)
Record Instance : Type := {
  inst_enabled : bool;
  inst_id : Z
}.

(** The reads of the store made by the governor loop. *)
Record Db : Type := {
  get_speed_rules : ext (list SpeedRule);
  get_pt_sites : ext (list Site);
  get_qb_instances : ext (list Instance)
}.

(** What the engine holds of its collaborators during one call:
    the [PT_HELPER_AVAILABLE] flag of the module, [self.site_helper_manager],
    [self.qb_manager] and [self.db]. *)
Record Env : Type := {
  PT_HELPER_AVAILABLE : bool;
  site_helper_manager : option SiteHelperManager;
  qb_manager : QbManager;
  db : Db
}.

(* ================================================================== *)
(** ** The reannounce oracle: [_get_reannounce_time] *)

Import TorrentLimitState.

(** Method 1 of [_get_reannounce_time], the body of its first [try]: the
    state after the assignments to [tid] and [site_id], and [Some v] when
    the method returns [(float(v), "site")].  An exception raised by the
    helper is caught by the [except] and the method falls through with the
    assignments made so far kept. *)
Definition site_method (env : Env) (hash tracker : string)
    (state : TorrentLimitState.t) : TorrentLimitState.t * option Q :=
  match site_helper_manager env with
  | Some mgr =>
    if PT_HELPER_AVAILABLE env then
      match get_helper_by_tracker mgr tracker with
      | Returns (Some helper) =>
        if helper_enabled helper then
          let searched : ext TorrentLimitState.t :=
            match tid state with
            | None =>
              match search_tid_by_hash helper hash with
              | Returns (Some info) =>
                if truthy (info_tid info)
                then Returns (set_site_id (info_site_id info)
                                (set_tid (info_tid info) state))
                else Returns state
              | Returns None => Returns state
              | Raises => Raises
              end
            | Some _ => Returns state
            end in
          match searched with
          | Returns state1 =>
            match tid state1 with
            | Some the_tid =>
              if truthy (tid state1) then
                match get_reannounce_time helper the_tid with
                | Returns (Some reannounce) =>
                  if 0 <? reannounce then (state1, Some reannounce)
                  else (state1, None)
                | Returns None => (state1, None)
                | Raises => (state1, None)
                end
              else (state1, None)
            | None => (state1, None)
            end
          | Raises => (state, None)
          end
        else (state, None)
      | Returns None => (state, None)
      | Raises => (state, None)
      end
    else (state, None)
  | None => (state, None)
  end.

(** Method 2, the body of the second [try]: [Some v] when the client's
    ['reannounce'] property is accepted. *)
Definition qb_method (client : Client) (hash : string) : option Q :=
  match torrents_properties client hash with
  | Returns props =>
    let reannounce := default 0 props in
    if (0 <? reannounce) && (reannounce <? 86400) then Some reannounce
    else None
  | Raises => None
  end.

(** [_get_reannounce_time(client, hash, tracker, state, now)]: the state
    and the counters after the call, and the returned pair. *)
Definition _get_reannounce_time (env : Env) (client : Client)
    (hash tracker : string) (state : TorrentLimitState.t) (stats : Stats)
    (now : Q) : TorrentLimitState.t * Stats * (Q * Source) :=
  let time_left := cached_time_left state in
  let '(state1, site) := site_method env hash tracker state in
  match site with
  | Some reannounce =>
    (state1, incr_site_success stats, (reannounce, src_site))
  | None =>
    match qb_method client hash with
    | Some reannounce =>
      (set_reannounce_time (now + reannounce) state1,
       incr_qb_api_success stats, (reannounce, src_qb_api))
    | None =>
      if 0 <? reannounce_time state1 then
        let estimated := Py.max 0 (reannounce_time state1 - now) in
        (state1, incr_fallback_count stats, (estimated, src_estimated))
      else
        (state1, incr_fallback_count stats, (time_left, src_cached))
    end
  end.

(* ================================================================== *)
(** ** Rate computation: [_calculate_limit] *)

(** The last step of [_calculate_limit]: a positive limit is clamped to
    [MIN_LIMIT .. MAX_LIMIT] and then rounded to the step of the phase;
    any other value is returned as it is. *)
Definition limit_step (phase : Phase) : Z :=
  match phase with finish => 1024 | _ => 4096 end.

Definition quantize_limit (phase : Phase) (limit : Z) : Z :=
  if (0 <? limit)%Z then
    let limit1 :=
      Py.zmax LimitConfig.MIN_LIMIT (Py.zmin LimitConfig.MAX_LIMIT limit) in
    let step := limit_step phase in
    ((limit1 + step / 2) / step * step)%Z
  else limit.

(** [_calculate_limit(state, current_uploaded, now, time_left)]: the state
    after the call (its PID is updated) and the returned [(limit, reason)]. *)
Definition _calculate_limit (state : TorrentLimitState.t)
    (current_uploaded : Z) (now time_left : Q)
    : TorrentLimitState.t * (Z * Reason) :=
  let phase := TorrentLimitState.get_phase state now in
  let state := set_pid (PIDController.set_phase (pid state) phase) state in
  let elapsed := now - cycle_start state in
  let total_cycle_time := elapsed + time_left in
  let target_total := Py.float (target_speed state) * total_cycle_time in
  let cycle_uploaded :=
    Py.float (get_cycle_uploaded state current_uploaded) in
  let need_upload := Py.max 0 (target_total - cycle_uploaded) in
  let progress := safe_div cycle_uploaded target_total 0 in
  if time_left <=? 0 then (state, ((-1)%Z, reason_announcing))
  else
    let required_speed := need_upload / time_left in
    let '(pid1, pid_output) :=
      PIDController.update (pid state) target_total cycle_uploaded now in
    let state := set_pid pid1 state in
    let headroom := headroom (LimitConfig.PID_PARAMS phase) in
    let src_tag := reannounce_source state in
    let '(limit, reason) :=
      match phase with
      | finish =>
        let predicted_ratio :=
          safe_div
            (cycle_uploaded + KalmanFilter.predict_upload (kalman state) time_left)
            target_total 0 in
        let correction :=
          if 1.002 <? predicted_ratio
          then Py.max 0.8 (1 - (predicted_ratio - 1) * 3)
          else if predicted_ratio <? 0.998
          then Py.min 1.2 (1 + (1 - predicted_ratio) * 3)
          else 1.0 in
        (Py.int (required_speed * pid_output * correction),
         reason_finish (Py.int (required_speed / 1024)) src_tag)
      | steady =>
        (Py.int (required_speed * headroom * pid_output),
         reason_steady (Py.int (required_speed / 1024)) src_tag)
      | catch =>
        if Py.float (target_speed state * 5) <? required_speed
        then ((-1)%Z, reason_catch_behind src_tag)
        else (Py.int (required_speed * headroom * pid_output),
              reason_catch (Py.int (required_speed / 1024)) src_tag)
      | warmup =>
        if 1.0 <=? progress
        then (LimitConfig.MIN_LIMIT,
              reason_warmup_over (Py.int ((progress - 1) * 100)) src_tag)
        else if 0.8 <=? progress
        then (Py.int (required_speed * 1.01 * pid_output),
              reason_warmup_fine src_tag)
        else if 0.5 <=? progress
        then (Py.int (required_speed * 1.05), reason_warmup_mid src_tag)
        else ((-1)%Z, reason_warmup_idle src_tag)
      end in
    (state, (quantize_limit phase limit, reason)).

(* ================================================================== *)
(** ** The store's persisted-state table *)

(** The dict [_save_states_to_db] hands to [db.save_torrent_limit_state]. *)
Record StateDict : Type := {
  d_hash : string;
  d_name : string;
  d_tracker : string;
  d_instance_id : Z;
  d_site_id : option Z;
  d_tid : option Z;
  d_cycle_index : Z;
  d_cycle_start : Q;
  d_cycle_uploaded_start : Z;
  d_cycle_synced : bool;
  d_target_speed : Z;
  d_last_limit : Z;
  d_reannounce_time : Q;
  d_cached_time_left : Q
}.

(** A row as [db.get_all_torrent_limit_states] returns it; every key but
    ['hash'] is read with [.get] and may be absent. *)
Record DbRow : Type := {
  row_hash : string;
  row_name : option string;
  row_tracker : option string;
  row_instance_id : option Z;
  row_site_id : option Z;
  row_tid : option Z;
  row_cycle_index : option Z;
  row_cycle_start : option Q;
  row_cycle_uploaded_start : option Z;
  row_cycle_synced : option bool;
  row_target_speed : option Z;
  row_last_limit : option Z;
  row_reannounce_time : option Q;
  row_cached_time_left : option Q;
  row_updated_at : option Q
}.

Module Store.

(** Modelled from the spec: the store (its code is not part of the
    sources) is a key/value configuration table and a persisted-state
    table keyed by torrent hash.  [save_torrent_limit_state(dict)] writes
    the row of the dict's hash, every key of the dict kept as it is, and
    stamps it with the time of the write in [updated_at];
    [get_all_torrent_limit_states()] lists the rows;
    [get_config(key, default='')] and [set_config(key, value)] read and
    write a string. *)
Record t : Type := {
  torrent_limit_states : gmap string DbRow;
  config : gmap string string
}.

Definition empty : t :=
  {| torrent_limit_states := ∅; config := ∅ |}.

Definition row_of (d : StateDict) (stamp : Q) : DbRow :=
  {| row_hash := d_hash d;
     row_name := Some (d_name d);
     row_tracker := Some (d_tracker d);
     row_instance_id := Some (d_instance_id d);
     row_site_id := d_site_id d;
     row_tid := d_tid d;
     row_cycle_index := Some (d_cycle_index d);
     row_cycle_start := Some (d_cycle_start d);
     row_cycle_uploaded_start := Some (d_cycle_uploaded_start d);
     row_cycle_synced := Some (d_cycle_synced d);
     row_target_speed := Some (d_target_speed d);
     row_last_limit := Some (d_last_limit d);
     row_reannounce_time := Some (d_reannounce_time d);
     row_cached_time_left := Some (d_cached_time_left d);
     row_updated_at := Some stamp |}.

Definition save_torrent_limit_state (stamp : Q) (d : StateDict) (s : t) : t :=
  {| torrent_limit_states :=
       <[d_hash d := row_of d stamp]> (torrent_limit_states s);
     config := config s |}.

Definition get_all_torrent_limit_states (s : t) : list DbRow :=
  snd <$> map_to_list (torrent_limit_states s).

Definition get_config (key : string) (s : t) : string :=
  default "" (config s !! key).

Definition set_config (key value : string) (s : t) : t :=
  {| torrent_limit_states := torrent_limit_states s;
     config := <[key := value]> (config s) |}.

End Store.

(* ================================================================== *)
(** ** [class PrecisionLimitEngine] *)

Module PrecisionLimitEngine.

Record t : Type := {
  _states : gmap string TorrentLimitState.t;
  _stats : Stats;
  _last_save_time : Q;
  _running : bool
}.

Definition _save_interval : Q := 180.

Definition set_states (v : gmap string TorrentLimitState.t) (self : t) : t :=
  {| _states := v; _stats := _stats self;
     _last_save_time := _last_save_time self; _running := _running self |}.

Definition set_stats (v : Stats) (self : t) : t :=
  {| _states := _states self; _stats := v;
     _last_save_time := _last_save_time self; _running := _running self |}.

Definition set_last_save_time (v : Q) (self : t) : t :=
  {| _states := _states self; _stats := _stats self;
     _last_save_time := v; _running := _running self |}.

Definition set_running (v : bool) (self : t) : t :=
  {| _states := _states self; _stats := _stats self;
     _last_save_time := _last_save_time self; _running := v |}.

(** The fields [__init__] sets before it restores the saved states. *)
Definition init : t :=
  {| _states := ∅;
     _stats := {| site_success := 0; qb_api_success := 0;
                  fallback_count := 0; torrents_controlled := 0 |};
     _last_save_time := 0;
     _running := false |}.

(** The state one row of the table is restored to. *)
Definition state_of_row (data : DbRow) : TorrentLimitState.t :=
  {| hash := row_hash data;
     name := default "" (row_name data);
     tracker := default "" (row_tracker data);
     instance_id := default 0%Z (row_instance_id data);
     cycle_start := default 0 (row_cycle_start data);
     cycle_uploaded_start := default 0%Z (row_cycle_uploaded_start data);
     cycle_index := default 0%Z (row_cycle_index data);
     cycle_synced := default false (row_cycle_synced data);
     reannounce_time := default 0 (row_reannounce_time data);
     cached_time_left := default 1800 (row_cached_time_left data);
     reannounce_source := src_unknown;
     target_speed := default 0%Z (row_target_speed data);
     last_limit := default (-1)%Z (row_last_limit data);
     last_limit_reason := reason_none;
     site_id := row_site_id data;
     tid := row_tid data;
     pid := PIDController.init;
     kalman := KalmanFilter.init;
     last_log_time := 0 |}.

(** The loop of [_restore_states_from_db]; [clock i] is the reading of
    [time.time()] made for the [i]-th row. *)
Fixpoint restore_loop (clock : nat -> Q) (i : nat) (saved_states : list DbRow)
    (states : gmap string TorrentLimitState.t)
    : gmap string TorrentLimitState.t :=
  match saved_states with
  | [] => states
  | data :: rest =>
    if 86400 <? clock i - default 0 (row_updated_at data)
    then restore_loop clock (S i) rest states
    else restore_loop clock (S i) rest
           (<[row_hash data := state_of_row data]> states)
  end.

(** [_restore_states_from_db()]; a failing read of the table is caught
    and leaves the engine as it is. *)
Definition _restore_states_from_db (self : t)
    (saved_states : ext (list DbRow)) (clock : nat -> Q) : t :=
  match saved_states with
  | Returns rows => set_states (restore_loop clock 0 rows (_states self)) self
  | Raises => self
  end.

(** The dict built for one state by [_save_states_to_db]. *)
Definition dict_of_state (state : TorrentLimitState.t) : StateDict :=
  {| d_hash := hash state;
     d_name := name state;
     d_tracker := tracker state;
     d_instance_id := instance_id state;
     d_site_id := site_id state;
     d_tid := tid state;
     d_cycle_index := cycle_index state;
     d_cycle_start := cycle_start state;
     d_cycle_uploaded_start := cycle_uploaded_start state;
     d_cycle_synced := cycle_synced state;
     d_target_speed := target_speed state;
     d_last_limit := last_limit state;
     d_reannounce_time := reannounce_time state;
     d_cached_time_left := cached_time_left state |}.

(** The loop of [_save_states_to_db] over [self._states.items()];
    [stamp i] is the time at which the store performs the [i]-th write. *)
Fixpoint save_loop (stamp : nat -> Q) (i : nat)
    (items : list (string * TorrentLimitState.t)) (store : Store.t)
    : Store.t :=
  match items with
  | [] => store
  | (_, state) :: rest =>
    save_loop stamp (S i) rest
      (Store.save_torrent_limit_state (stamp i) (dict_of_state state) store)
  end.

(** [_save_states_to_db()], every write succeeding: the engine and the
    store after the call; [now] is the reading of [time.time()] kept in
    [_last_save_time]. *)
Definition _save_states_to_db (self : t) (store : Store.t)
    (stamp : nat -> Q) (now : Q) : t * Store.t :=
  (set_last_save_time now self,
   save_loop stamp 0 (map_to_list (_states self)) store).

(** [target_speed = int(target_kib * 1024 * safety)] of a rule. *)
Definition rule_target_speed (rule : SpeedRule) : Z :=
  let target_kib := default 51200%Z (target_speed_kib rule) in
  let safety := default 0.98 (safety_margin rule) in
  Py.int (Py.float (target_kib * 1024) * safety).

(** [_process_torrent], first part: "get or create the state". *)
Definition state_for (self : t) (instance_id : Z) (torrent : Torrent)
    (rule : SpeedRule) (now : Q) : TorrentLimitState.t :=
  let hash := t_hash torrent in
  let tracker := default "" (t_tracker torrent) in
  match _states self !! hash with
  | Some state => state
  | None =>
    set_target_speed (rule_target_speed rule)
      (set_cycle_uploaded_start (default 0%Z (t_uploaded torrent))
        (set_cycle_start now
          (set_instance_id instance_id
            (set_tracker tracker
              (set_name (String.substring 0 30 (default "" (t_name torrent)))
                (TorrentLimitState.make hash))))))
  end.

(** [_process_torrent], from "update the target speed" to "compute the
    limit": the state and the counters at that point and the computed
    [(new_limit, reason)], or [None] when the Kalman update raised. *)
Definition compute_limit (env : Env) (self : t) (instance_id : Z)
    (client : Client) (torrent : Torrent) (rule : SpeedRule) (now : Q)
    : TorrentLimitState.t * Stats * option (Z * Reason) :=
  let hash := t_hash torrent in
  let tracker := default "" (t_tracker torrent) in
  let state := state_for self instance_id torrent rule now in
  let state := set_target_speed (rule_target_speed rule) state in
  let state := set_tracker tracker state in
  let state := set_instance_id instance_id state in
  let current_uploaded := default 0%Z (t_uploaded torrent) in
  let current_speed := default 0%Z (t_upspeed torrent) in
  let '(kalman1, raised) :=
    KalmanFilter.update (kalman state) (Py.float current_speed) now in
  let state := set_kalman kalman1 state in
  if raised then (state, _stats self, None)
  else
    let '(state, stats, (time_left, source)) :=
      _get_reannounce_time env client hash tracker state (_stats self) now in
    let state := set_reannounce_source source state in
    let state :=
      if cycle_synced state && (cached_time_left state + 30 <? time_left)
      then new_cycle state now current_uploaded time_left
      else state in
    let state := set_cached_time_left time_left state in
    let state :=
      if negb (cycle_synced state) && (0 <? time_left)
      then set_cached_time_left time_left (set_cycle_synced true state)
      else state in
    let '(state, limit_reason) :=
      _calculate_limit state current_uploaded now time_left in
    (state, stats, Some limit_reason).

(** [_process_torrent], "apply the limit": the state after it and the
    [set_upload_limit] calls issued (a call that raises is caught). *)
Definition apply_limit (env : Env) (instance_id : Z) (hash : string)
    (state : TorrentLimitState.t) (new_limit : Z) (reason : Reason)
    : TorrentLimitState.t * list LimitCall :=
  if negb (new_limit =? last_limit state)%Z then
    let call := {| call_instance := instance_id; call_hash := hash;
                   call_limit := new_limit |} in
    match set_upload_limit (qb_manager env) instance_id hash new_limit with
    | Returns _ =>
      (set_last_limit_reason reason (set_last_limit new_limit state), [call])
    | Raises => (state, [call])
    end
  else (state, []).

(** [_process_torrent(instance_id, client, torrent, rule, now)]: the
    engine after the call, the [set_upload_limit] calls it issued, and
    whether the Kalman update raised [ZeroDivisionError], which nothing
    inside catches.  The state object lives in the table and is mutated in
    place, so the table holds it at every exit. *)
Definition _process_torrent (env : Env) (self : t) (instance_id : Z)
    (client : Client) (torrent : Torrent) (rule : SpeedRule) (now : Q)
    : t * list LimitCall * bool :=
  let hash := t_hash torrent in
  match compute_limit env self instance_id client torrent rule now with
  | (state, _, None) =>
    (set_states (<[hash := state]> (_states self)) self, [], true)
  | (state, stats, Some (new_limit, reason)) =>
    let '(state, calls) :=
      apply_limit env instance_id hash state new_limit reason in
    let state :=
      if LimitConfig.LOG_INTERVAL <? now - last_log_time state
      then set_last_log_time now state
      else state in
    (set_stats stats (set_states (<[hash := state]> (_states self)) self),
     calls, false)
  end.

End PrecisionLimitEngine.

(* ================================================================== *)
(** ** The governor loop: [_process_all], [_run_loop], [start], [stop] *)

(** [needle in hay]. *)
Definition str_contains (needle hay : string) : bool :=
  match String.index 0 needle hay with
  | Some _ => true
  | None => false
  end.

(** [s.endswith(suffix)]. *)
Definition str_endswith (s suffix : string) : bool :=
  let n := String.length s in
  let k := String.length suffix in
  (k <=? n)%nat && String.eqb (String.substring (n - k) k s) suffix.

Definition str_nonempty (s : string) : bool :=
  negb (String.eqb s "").

Section GovernorLoop.

Import PrecisionLimitEngine.

(** [str.lower] and [urlparse(url).hostname] are library functions. *)
Variable str_lower : string -> string.
Variable url_hostname : string -> option string.

(** [_should_limit_torrent(torrent)]. *)
Definition _should_limit_torrent (torrent : Torrent) : bool :=
  let state := str_lower (default "" (t_state torrent)) in
  if (0 <? default 0 (t_upspeed torrent))%Z then true
  else if negb (str_nonempty state) then false
  else if str_contains "upload" state || str_contains "seed" state then true
  else str_endswith state "up".

(** The loop of [_find_rule] over the sites. *)
Fixpoint find_rule_loop (tracker_lower : string)
    (rules : gmap (option Z) SpeedRule) (sites : list Site)
    : option SpeedRule :=
  match sites with
  | [] => rules !! (None : option Z)
  | site :: rest =>
    let keyword := default "" (site_tracker_keyword site) in
    match rules !! site_ident site with
    | None => find_rule_loop tracker_lower rules rest
    | Some rule =>
      if str_nonempty keyword
         && str_contains (str_lower keyword) tracker_lower
      then Some rule
      else
        let url := default "" (site_url site) in
        let site_host := str_lower (default "" (url_hostname url)) in
        if str_nonempty url && str_nonempty site_host
           && str_contains site_host tracker_lower
        then Some rule
        else find_rule_loop tracker_lower rules rest
    end
  end.

(** [_find_rule(torrent, rules)]; it raises when the read of the sites
    does. *)
Definition _find_rule (env : Env) (torrent : Torrent)
    (rules : gmap (option Z) SpeedRule) : ext (option SpeedRule) :=
  let tracker_lower := str_lower (default "" (t_tracker torrent)) in
  match get_pt_sites (db env) with
  | Returns sites => Returns (find_rule_loop tracker_lower rules sites)
  | Raises => Raises
  end.

(** The inner loop of [_process_all] over the torrents of one instance:
    the engine, the calls issued, the running [controlled_count] and
    whether an exception left the loop. *)
Fixpoint process_torrents (env : Env) (self : t) (inst : Z)
    (client : Client) (rules : gmap (option Z) SpeedRule) (now : Q)
    (count : Z) (torrents : list Torrent) : t * list LimitCall * Z * bool :=
  match torrents with
  | [] => (self, [], count, false)
  | torrent :: rest =>
    if negb (_should_limit_torrent torrent)
    then process_torrents env self inst client rules now count rest
    else
      match _find_rule env torrent rules with
      | Raises => (self, [], count, true)
      | Returns None =>
        process_torrents env self inst client rules now count rest
      | Returns (Some rule) =>
        let '(self1, calls1, raised) :=
          _process_torrent env self inst client torrent rule now in
        if raised then (self1, calls1, count, true)
        else
          let '(self2, calls2, count2, raised2) :=
            process_torrents env self1 inst client rules now (count + 1)%Z
              rest in
          (self2, calls1 ++ calls2, count2, raised2)
      end
  end.

(** The outer loop of [_process_all] over the instances. *)
Fixpoint process_instances (env : Env) (self : t)
    (rules : gmap (option Z) SpeedRule) (now : Q) (count : Z)
    (instances : list Instance) : t * list LimitCall * Z * bool :=
  match instances with
  | [] => (self, [], count, false)
  | instance :: rest =>
    if negb (inst_enabled instance)
    then process_instances env self rules now count rest
    else
      match get_client (qb_manager env) (inst_id instance) with
      | Raises => (self, [], count, true)
      | Returns None => process_instances env self rules now count rest
      | Returns (Some client) =>
        match get_torrents (qb_manager env) (inst_id instance) with
        | Raises => process_instances env self rules now count rest
        | Returns [] => process_instances env self rules now count rest
        | Returns torrents =>
          let '(self1, calls1, count1, raised) :=
            process_torrents env self (inst_id instance) client rules now
              count torrents in
          if raised then (self1, calls1, count1, true)
          else
            let '(self2, calls2, count2, raised2) :=
              process_instances env self1 rules now count1 rest in
            (self2, calls1 ++ calls2, count2, raised2)
        end
      end
  end.

(** The enabled rules keyed by site id; a later rule of the same site
    replaces an earlier one. *)
Definition enabled_rules_of (rules : list SpeedRule)
    : gmap (option Z) SpeedRule :=
  foldl (fun m rule =>
           if rule_enabled rule then <[rule_site_id rule := rule]> m else m)
        ∅ rules.

(** [_process_all()], [now] being its reading of [time.time()]: the
    engine after the call, the calls issued, and whether it raised.  The
    refresh of the site helpers' configuration touches no engine field. *)
Definition _process_all (env : Env) (self : t) (now : Q)
    : t * list LimitCall * bool :=
  match get_speed_rules (db env) with
  | Raises => (self, [], false)
  | Returns rules =>
    let enabled_rules := enabled_rules_of rules in
    if (size enabled_rules =? 0)%nat then (self, [], false)
    else
      match get_qb_instances (db env) with
      | Raises => (self, [], true)
      | Returns [] => (self, [], false)
      | Returns instances =>
        let '(self1, calls, controlled_count, raised) :=
          process_instances env self enabled_rules now 0%Z instances in
        if raised then (self1, calls, true)
        else
          (set_stats (set_torrents_controlled controlled_count (_stats self1))
             self1,
           calls, false)
      end
  end.

(** The clock readings and store stamps of one save. *)
Record SaveClock : Type := {
  save_stamp : nat -> Q;   (* time of the store's i-th write *)
  save_now : Q             (* the reading kept in [_last_save_time] *)
}.

(** What one iteration of [_run_loop] meets. *)
Record Tick : Type := {
  tick_env : Env;
  tick_now : Q;            (* [time.time()] of [_process_all] *)
  tick_check : Q;          (* [time.time()] of the periodic-save test *)
  tick_save : SaveClock
}.

(** The body of the [while] of [_run_loop]; an exception of
    [_process_all] is caught and skips the periodic save. *)
Definition run_loop_body (tk : Tick) (self : t) (store : Store.t)
    : t * Store.t * list LimitCall :=
  let '(self1, calls, raised) := _process_all (tick_env tk) self (tick_now tk) in
  if raised then (self1, store, calls)
  else if _save_interval <? tick_check tk - _last_save_time self1 then
    let '(self2, store2) :=
      _save_states_to_db self1 store (save_stamp (tick_save tk))
        (save_now (tick_save tk)) in
    (self2, store2, calls)
  else (self1, store, calls).

(** [start()]; the thread it creates runs [run_loop_body]. *)
Definition start (self : t) : t :=
  if _running self then self else set_running true self.

(** [stop()]. *)
Definition stop (self : t) (store : Store.t) (clk : SaveClock)
    : t * Store.t :=
  _save_states_to_db (set_running false self) store (save_stamp clk)
    (save_now clk).

(** The operations that write the engine: construction restores the
    saved states; the inspection methods ([get_stats], [get_state],
    [get_all_states], [is_running]) only read it. *)
Inductive Op : Type :=
| op_restore (saved_states : ext (list DbRow)) (clock : nat -> Q)
| op_start
| op_tick (tk : Tick)
| op_save (clk : SaveClock)
| op_stop (clk : SaveClock).

Definition run_op (op : Op) (s : t * Store.t) : t * Store.t :=
  let '(self, store) := s in
  match op with
  | op_restore saved clock =>
    (_restore_states_from_db self saved clock, store)
  | op_start => (start self, store)
  | op_tick tk =>
    let '(self1, store1, _) := run_loop_body tk self store in
    (self1, store1)
  | op_save clk =>
    _save_states_to_db self store (save_stamp clk) (save_now clk)
  | op_stop clk => stop self store clk
  end.

Definition run_ops (ops : list Op) (s : t * Store.t) : t * Store.t :=
  foldl (fun s op => run_op op s) s ops.

End GovernorLoop.

(* ================================================================== *)
(** ** [int(s)] and [str(n)] on configuration strings *)

Module PyStr.

(** The white space [int] skips around a number: the space and the
    characters 9 to 13. *)
Definition is_space (a : ascii) : bool :=
  let n := nat_of_ascii a in
  (n =? 32)%nat || ((9 <=? n)%nat && (n <=? 13)%nat).

Fixpoint lstrip (s : string) : string :=
  match s with
  | String a rest => if is_space a then lstrip rest else s
  | EmptyString => s
  end.

Definition strip (s : string) : string :=
  String.rev (lstrip (String.rev (lstrip s))).

Definition digit_of (a : ascii) : option Z :=
  let n := nat_of_ascii a in
  if (48 <=? n)%nat && (n <=? 57)%nat then Some (Z.of_nat (n - 48)) else None.

(** Decimal digits, single underscores allowed between two digits. *)
Fixpoint digits (acc : Z) (after_digit : bool) (s : string) : option Z :=
  match s with
  | EmptyString => if after_digit then Some acc else None
  | String a rest =>
    match digit_of a with
    | Some d => digits (acc * 10 + d)%Z true rest
    | None =>
      if Ascii.eqb a "_" && after_digit then digits acc false rest else None
    end
  end.

(** [int(s)] for an ASCII string: [None] stands for [ValueError]. *)
Definition int (s : string) : option Z :=
  match strip s with
  | String "-" rest => Z.opp <$> digits 0 false rest
  | String "+" rest => digits 0 false rest
  | body => digits 0 false body
  end.

(** [str(n)]. *)
Definition str (n : Z) : string := pretty n.

End PyStr.

(* ================================================================== *)
(** ** [class AutoRemoveEngine]: configuration and rule matching *)

(** The parsed [condition] of a remove rule: one optional entry per key
    that [_check_condition] looks at. *)
Record Condition : Type := {
  free_space_lt : option Q;
  upload_speed_lt : option Q;
  completed : option bool;
  seeding_time_gt : option Q;
  ratio_gt : option Q;
  size_gt : option Q;
  no_peers_time_gt : option Q
}.

(** A remove rule as [db.get_enabled_remove_rules] lists it, with the
    outcome of [json.loads] on its ['condition']. *)
Record RemoveRule : Type := {
  rr_name : string;
  rr_description : option string;
  rr_condition : ext Condition
}.

Module AutoRemoveEngine.

(** The configuration fields of the engine (the removal records and
    totals play no part in what follows). *)
Record t : Type := {
  _running : bool;
  _check_interval : Z;
  _sleep_between : Z;
  _enabled : bool;
  _reannounce_before_delete : bool;
  _delete_files : bool
}.

(** [__init__]. *)
Definition init : t :=
  {| _running := false; _check_interval := 60; _sleep_between := 5;
     _enabled := false; _reannounce_before_delete := true;
     _delete_files := true |}.

(** [int(self.db.get_config(key) or dflt)] inside [try], [dflt] in the
    [except]. *)
Definition config_int (store : Store.t) (key : string) (dflt : Z) : Z :=
  let raw := Store.get_config key store in
  if String.eqb raw "" then dflt
  else match PyStr.int raw with
       | Some n => n
       | None => dflt
       end.

(** [_load_config()]. *)
Definition _load_config (self : t) (store : Store.t) : t :=
  {| _running := _running self;
     _check_interval := config_int store "auto_remove_interval" 60;
     _sleep_between := config_int store "auto_remove_sleep" 5;
     _enabled :=
       String.eqb (Store.get_config "auto_remove_enabled" store) "true";
     _reannounce_before_delete :=
       negb (String.eqb (Store.get_config "auto_remove_reannounce" store)
               "false");
     _delete_files :=
       negb (String.eqb (Store.get_config "auto_remove_delete_files" store)
               "false") |}.

Definition bool_str (b : bool) : string := if b then "true" else "false".

(** [set_config(interval, sleep_between, reannounce, enabled,
    delete_files)], [None] for an argument left out. *)
Definition set_config (self : t) (store : Store.t)
    (interval sleep_between : option Z)
    (reannounce enabled delete_files : option bool) : t * Store.t :=
  let '(self, store) :=
    match interval with
    | Some interval =>
      let v := Py.zmax 30 (Py.zmin 3600 interval) in
      ({| _running := _running self; _check_interval := v;
          _sleep_between := _sleep_between self; _enabled := _enabled self;
          _reannounce_before_delete := _reannounce_before_delete self;
          _delete_files := _delete_files self |},
       Store.set_config "auto_remove_interval" (PyStr.str v) store)
    | None => (self, store)
    end in
  let '(self, store) :=
    match sleep_between with
    | Some sleep_between =>
      let v := Py.zmax 1 (Py.zmin 60 sleep_between) in
      ({| _running := _running self; _check_interval := _check_interval self;
          _sleep_between := v; _enabled := _enabled self;
          _reannounce_before_delete := _reannounce_before_delete self;
          _delete_files := _delete_files self |},
       Store.set_config "auto_remove_sleep" (PyStr.str v) store)
    | None => (self, store)
    end in
  let '(self, store) :=
    match reannounce with
    | Some reannounce =>
      ({| _running := _running self; _check_interval := _check_interval self;
          _sleep_between := _sleep_between self; _enabled := _enabled self;
          _reannounce_before_delete := reannounce;
          _delete_files := _delete_files self |},
       Store.set_config "auto_remove_reannounce" (bool_str reannounce) store)
    | None => (self, store)
    end in
  let '(self, store) :=
    match enabled with
    | Some enabled =>
      ({| _running := _running self; _check_interval := _check_interval self;
          _sleep_between := _sleep_between self; _enabled := enabled;
          _reannounce_before_delete := _reannounce_before_delete self;
          _delete_files := _delete_files self |},
       Store.set_config "auto_remove_enabled" (bool_str enabled) store)
    | None => (self, store)
    end in
  match delete_files with
  | Some delete_files =>
    ({| _running := _running self; _check_interval := _check_interval self;
        _sleep_between := _sleep_between self; _enabled := _enabled self;
        _reannounce_before_delete := _reannounce_before_delete self;
        _delete_files := delete_files |},
     Store.set_config "auto_remove_delete_files" (bool_str delete_files)
       store)
  | None => (self, store)
  end.

(** The wait at the end of one iteration of [_worker]:
    [self._load_config()] at its start, then
    [self._stop_event.wait(self._check_interval)]. *)
Definition worker_wait (self : t) (store : Store.t) : Z :=
  _check_interval (_load_config self store).

(** The sleep after a deletion in [_check_and_remove] during that
    iteration: [time.sleep(self._sleep_between)]. *)
Definition worker_sleep (self : t) (store : Store.t) : Z :=
  _sleep_between (_load_config self store).

(** [_check_condition(torrent, condition, free_space)], [now] being the
    reading of [time.time()]. *)
Definition _check_condition (torrent : Torrent) (condition : Condition)
    (free_space : Z) (now : Q) : bool :=
  if match free_space_lt condition with
     | Some v => v <=? Py.float free_space
     | None => false
     end then false
  else if match upload_speed_lt condition with
     | Some v => v <=? Py.float (default 0%Z (t_upspeed torrent))
     | None => false
     end then false
  else if match completed condition with
     | Some true => default 0 (t_progress torrent) <? 1.0
     | _ => false
     end then false
  else if match seeding_time_gt condition with
     | Some v => Py.float (default 0%Z (t_seeding_time torrent)) <=? v
     | None => false
     end then false
  else if match ratio_gt condition with
     | Some v => default 0 (t_ratio torrent) <=? v
     | None => false
     end then false
  else if match size_gt condition with
     | Some v => Py.float (default 0%Z (t_size torrent)) <=? v
     | None => false
     end then false
  else if match no_peers_time_gt condition with
     | Some v =>
       let last_activity := default 0%Z (t_last_activity torrent) in
       if (0 <? last_activity)%Z then
         let no_peer_time := now - Py.float last_activity in
         no_peer_time <=? v
       else false
     | None => false
     end then false
  else true.

(** [_match_rules(torrent, rules, free_space)]: the first rule whose
    condition parses and holds. *)
Fixpoint _match_rules (torrent : Torrent) (rules : list RemoveRule)
    (free_space : Z) (now : Q) : option RemoveRule :=
  match rules with
  | [] => None
  | rule :: rest =>
    match rr_condition rule with
    | Raises => _match_rules torrent rest free_space now
    | Returns condition =>
      if _check_condition torrent condition free_space now then Some rule
      else _match_rules torrent rest free_space now
    end
  end.

End AutoRemoveEngine.

(* ================================================================== *)
(** * Definitions used by the statements *)

Global Instance Phase_eq_dec : EqDecision Phase.
Proof. solve_decision. Defined.

(** ** The specification's wording *)

(** The clamp of the specification: [lo] below, [hi] above. *)
Definition spec_clamp (x lo hi : Q) : Q := Qmax lo (Qmin hi x).

(** The torrent id the site path asks the helper about: the [tid] of the
    state, or for a state without one the id that
    [helper.search_tid_by_hash(hash)] finds. *)
Definition site_tid (helper : Helper) (hash : string)
    (state : TorrentLimitState.t) : option Z :=
  match tid state with
  | Some t => Some t
  | None =>
    match search_tid_by_hash helper hash with
    | Returns (Some info) => if truthy (info_tid info) then info_tid info else None
    | _ => None
    end
  end.

(** The value the site scraper path yields: what
    [helper.get_reannounce_time] returns for that id, the helper being the
    enabled helper that an available manager has for the tracker. *)
Definition site_yield (env : Env) (hash tracker : string)
    (state : TorrentLimitState.t) : option Q :=
  match site_helper_manager env, PT_HELPER_AVAILABLE env with
  | Some mgr, true =>
    match get_helper_by_tracker mgr tracker with
    | Returns (Some helper) =>
      match helper_enabled helper, site_tid helper hash state with
      | true, Some t =>
        if truthy (Some t) then
          match get_reannounce_time helper t with
          | Returns (Some v) => Some v
          | _ => None
          end
        else None
      | _, _ => None
      end
    | _ => None
    end
  | _, _ => None
  end.

(** The value the client RPC yields: the ['reannounce'] property, when
    the call returns one. *)
Definition qb_yield (client : Client) (hash : string) : option Q :=
  match torrents_properties client hash with
  | Returns (Some v) => Some v
  | _ => None
  end.

(** The condition with its [no_peers_time_gt] entry replaced. *)
Definition with_no_peers_time_gt (v : option Q) (c : Condition) : Condition :=
  {| free_space_lt := free_space_lt c;
     upload_speed_lt := upload_speed_lt c;
     completed := completed c;
     seeding_time_gt := seeding_time_gt c;
     ratio_gt := ratio_gt c;
     size_gt := size_gt c;
     no_peers_time_gt := v |}.

(** The condition [{"no_peers_time_gt": v}]. *)
Definition only_no_peers_time_gt (v : Q) : Condition :=
  {| free_space_lt := None; upload_speed_lt := None; completed := None;
     seeding_time_gt := None; ratio_gt := None; size_gt := None;
     no_peers_time_gt := Some v |}.

(** The fields of a state that the oracle never writes. *)
Definition oracle_frame (s s' : TorrentLimitState.t) : Prop :=
  hash s' = hash s /\ name s' = name s /\ tracker s' = tracker s
  /\ instance_id s' = instance_id s
  /\ cycle_start s' = cycle_start s
  /\ cycle_uploaded_start s' = cycle_uploaded_start s
  /\ cycle_index s' = cycle_index s
  /\ cycle_synced s' = cycle_synced s
  /\ cached_time_left s' = cached_time_left s
  /\ reannounce_source s' = reannounce_source s
  /\ target_speed s' = target_speed s
  /\ last_limit s' = last_limit s
  /\ last_limit_reason s' = last_limit_reason s
  /\ pid s' = pid s /\ kalman s' = kalman s
  /\ last_log_time s' = last_log_time s.

(* ------------------------------------------------------------------ *)
(** ** Consecutive ticks on one torrent *)

(** What one tick on a torrent meets. *)
Record TorrentTick : Type := {
  tt_env : Env;
  tt_client : Client;
  tt_torrent : Torrent;
  tt_rule : SpeedRule;
  tt_now : Q
}.

(** One [_process_torrent] of instance [instance_id]. *)
Definition tick_once (instance_id : Z) (self : PrecisionLimitEngine.t)
    (tk : TorrentTick) : PrecisionLimitEngine.t * list LimitCall * bool :=
  PrecisionLimitEngine._process_torrent (tt_env tk) self instance_id
    (tt_client tk) (tt_torrent tk) (tt_rule tk) (tt_now tk).

(** The [(new_limit, reason)] that tick computes. *)
Definition computed_limit (instance_id : Z) (self : PrecisionLimitEngine.t)
    (tk : TorrentTick) : option (Z * Reason) :=
  snd (PrecisionLimitEngine.compute_limit (tt_env tk) self instance_id
         (tt_client tk) (tt_torrent tk) (tt_rule tk) (tt_now tk)).

(** Consecutive ticks: the engine after them and the calls issued. *)
Fixpoint run_ticks (instance_id : Z) (self : PrecisionLimitEngine.t)
    (ticks : list TorrentTick) : PrecisionLimitEngine.t * list LimitCall :=
  match ticks with
  | [] => (self, [])
  | tk :: rest =>
    let '(self2, calls2) :=
      run_ticks instance_id (fst (fst (tick_once instance_id self tk))) rest in
    (self2, snd (fst (tick_once instance_id self tk)) ++ calls2)
  end.

(** The limits computed along them. *)
Fixpoint computed_limits (instance_id : Z) (self : PrecisionLimitEngine.t)
    (ticks : list TorrentTick) : list (option (Z * Reason)) :=
  match ticks with
  | [] => []
  | tk :: rest =>
    computed_limit instance_id self tk
    :: computed_limits instance_id (fst (fst (tick_once instance_id self tk)))
         rest
  end.

(* ------------------------------------------------------------------ *)
(** ** Keyed tables *)

(** Every state of the table sits under its own hash. *)
Definition states_keyed (states : gmap string TorrentLimitState.t) : Prop :=
  forall h st, states !! h = Some st -> TorrentLimitState.hash st = h.

(** Every row of the store's table sits under its own hash. *)
Definition rows_keyed (table : gmap string DbRow) : Prop :=
  forall h row, table !! h = Some row -> row_hash row = h.

(* ------------------------------------------------------------------ *)
(** ** Sample collaborators and inputs, for the concrete runs below *)

Module Sample.

(** A client driver whose ['reannounce'] property is [answer] and whose
    [set_upload_limit] succeeds. *)
Definition client (answer : ext (option Q)) : Client :=
  {| torrents_properties := fun _ => answer |}.

Definition qb (answer : ext (option Q)) : QbManager :=
  {| get_client := fun _ => Returns (Some (client answer));
     get_torrents := fun _ => Returns [];
     set_upload_limit := fun _ _ _ => Returns tt |}.

Definition no_db : Db :=
  {| get_speed_rules := Returns [];
     get_pt_sites := Returns [];
     get_qb_instances := Returns [] |}.

(** No site helper: the oracle starts at the client. *)
Definition env_qb (answer : ext (option Q)) : Env :=
  {| PT_HELPER_AVAILABLE := false; site_helper_manager := None;
     qb_manager := qb answer; db := no_db |}.

(** A site helper that knows the torrent (tid 7 of site 1) and reports
    [site_answer] seconds. *)
Definition helper (site_answer : Q) : Helper :=
  {| helper_enabled := true;
     search_tid_by_hash := fun _ =>
       Returns (Some {| info_tid := Some 7%Z; info_site_id := Some 1%Z |});
     get_reannounce_time := fun _ => Returns (Some site_answer) |}.

Definition env_site (site_answer : Q) (answer : ext (option Q)) : Env :=
  {| PT_HELPER_AVAILABLE := true;
     site_helper_manager :=
       Some {| get_helper_by_tracker := fun _ => Returns (Some (helper site_answer)) |};
     qb_manager := qb answer; db := no_db |}.

(** The torrent ["h"] with the given uploaded count and upload speed. *)
Definition torrent (uploaded upspeed : Z) : Torrent :=
  {| t_hash := "h"; t_name := Some "sample"; t_state := Some "uploading";
     t_tracker := Some "https://tracker.example/announce";
     t_size := Some 1000000000%Z; t_uploaded := Some uploaded;
     t_upspeed := Some upspeed; t_progress := Some 1; t_ratio := Some 1;
     t_seeding_time := Some 100%Z; t_last_activity := Some 0%Z |}.

(** Target 1024 KiB/s with a safety margin of 1: 1048576 B/s. *)
Definition rule : SpeedRule :=
  {| rule_enabled := true; rule_site_id := None;
     target_speed_kib := Some 1024%Z; safety_margin := Some 1 |}.

(** One [_process_torrent] on the engine of a previous run. *)
Definition tick (env : Env) (answer : ext (option Q)) (uploaded upspeed : Z)
    (now : Q) (prev : PrecisionLimitEngine.t * list LimitCall * bool)
    : PrecisionLimitEngine.t * list LimitCall * bool :=
  PrecisionLimitEngine._process_torrent env (fst (fst prev)) 1
    (client answer) (torrent uploaded upspeed) rule now.

Definition start : PrecisionLimitEngine.t * list LimitCall * bool :=
  (PrecisionLimitEngine.init, [], false).

(** The state of torrent ["h"] after a run. *)
Definition state_of (run : PrecisionLimitEngine.t * list LimitCall * bool)
    : option TorrentLimitState.t :=
  PrecisionLimitEngine._states (fst (fst run)) !! "h".

End Sample.


(* ------------------------------------------------------------------ *)
(** ** Concrete runs *)

Module Overshoot.

(** The torrent is first seen at time 1000 with 100 s to the announce
    (target 1 MiB/s, so 100 MiB for the cycle); 60 s later it has
    uploaded 110 MiB and the client reports 40 s left. *)
Definition first_tick :=
  Sample.tick (Sample.env_qb (Returns (Some 100))) (Returns (Some 100))
    0 0 1000 Sample.start.

Definition second_tick :=
  Sample.tick (Sample.env_qb (Returns (Some 40))) (Returns (Some 40))
    115343360 1800000 1060 first_tick.

End Overshoot.

Module Restart.

(** The torrent is first seen with 1000000 bytes uploaded; five seconds
    later the client, restarted, reports 500. *)
Definition first_tick :=
  Sample.tick (Sample.env_qb (Returns (Some 1500))) (Returns (Some 1500))
    1000000 0 1000 Sample.start.

Definition second_tick :=
  Sample.tick (Sample.env_qb (Returns (Some 1495))) (Returns (Some 1495))
    500 0 1005 first_tick.

End Restart.

Module StaleEstimate.

(** At time 1000 the site helper is not available and the client
    reports 130 s to the announce, so [reannounce_time] becomes 1130.
    Five seconds later the site helper answers 119 s. *)
Definition first_tick :=
  Sample.tick (Sample.env_qb (Returns (Some 130))) (Returns (Some 130))
    0 0 1000 Sample.start.

Definition second_tick :=
  Sample.tick (Sample.env_site 119 (Returns (Some 125)))
    (Returns (Some 125)) 500000 100000 1005 first_tick.

End StaleEstimate.

Module Tracked.

(** An engine that tracks ["h"], anchored at 1000000 bytes. *)
Definition state : TorrentLimitState.t :=
  set_cycle_synced true
    (set_cycle_uploaded_start 1000000 (TorrentLimitState.make "h")).

Definition engine : PrecisionLimitEngine.t :=
  PrecisionLimitEngine.set_states {[ "h" := state ]}
    PrecisionLimitEngine.init.

End Tracked.

Module SmallNeed.

(** The engine after the first tick of [Overshoot]: ["h"] is tracked with
    [last_limit = 1851392].  Then three ticks, 40000 bytes short of the
    100 MiB of the cycle, 40 s, 35 s and 30 s before the announce. *)
Definition engine : PrecisionLimitEngine.t := fst (fst Overshoot.first_tick).

Definition tick (time_left now : Q) : TorrentTick :=
  {| tt_env := Sample.env_qb (Returns (Some time_left));
     tt_client := Sample.client (Returns (Some time_left));
     tt_torrent := Sample.torrent 104817600 1000;
     tt_rule := Sample.rule;
     tt_now := now |}.

End SmallNeed.

Module Scenario.

(** Boundary scenario 1: a state that is not synced, a tenth of the
    cycle's target uploaded, 1800 s left, target 5 MiB/s. *)
Definition warmup_state : TorrentLimitState.t :=
  set_target_speed (5 * 1024 * 1024)
    (set_cycle_start 1000 (TorrentLimitState.make "h")).

(** Boundary scenario 3: a synced state whose last time left was 60 s. *)
Definition late_state : TorrentLimitState.t :=
  set_cached_time_left 60
    (set_cycle_synced true
      (set_cycle_start 1000 (TorrentLimitState.make "h"))).

Definition late_engine : PrecisionLimitEngine.t :=
  PrecisionLimitEngine.set_states {[ "h" := late_state ]}
    PrecisionLimitEngine.init.

(** Boundary scenario 4: [reannounce_time = now + 900] with [now = 1000]. *)
Definition estimated_state : TorrentLimitState.t :=
  set_reannounce_time 1900 (TorrentLimitState.make "h").

Definition no_stats : Stats :=
  {| site_success := 0; qb_api_success := 0; fallback_count := 0;
     torrents_controlled := 0 |}.

End Scenario.

Module LowInterval.

(** A store whose keys hold ["5"] and ["0"]. *)
Definition store : Store.t :=
  Store.set_config "auto_remove_sleep" "0"
    (Store.set_config "auto_remove_interval" "5" Store.empty).

End LowInterval.

(** Reading a field through the assignments made before. *)
Ltac state_simpl :=
  cbn [fst snd andb negb
       TorrentLimitState.hash name tracker instance_id cycle_start
       cycle_uploaded_start cycle_index cycle_synced reannounce_time
       cached_time_left reannounce_source target_speed last_limit
       last_limit_reason site_id tid pid kalman last_log_time
       set_name set_tracker set_instance_id set_cycle_start
       set_cycle_uploaded_start set_cycle_index set_cycle_synced
       set_reannounce_time set_cached_time_left set_reannounce_source
       set_target_speed set_last_limit set_last_limit_reason set_site_id
       set_tid set_pid set_kalman set_last_log_time new_cycle] in *.


(* ================================================================== *)
(** * Further definitions *)

(** ** Runs of the estimators *)

(** A Kalman filter whose two variances are positive. *)
Definition kalman_ok (k : KalmanFilter.t) : Prop :=
  0 < KalmanFilter.p_speed k /\ 0 < KalmanFilter.p_accel k.

(** [update] applied to a sequence of samples [(measured_speed, now)],
    stopping at the first call that raises. *)
Fixpoint kalman_feed (k : KalmanFilter.t) (samples : list (Q * Q))
    : KalmanFilter.t * bool :=
  match samples with
  | [] => (k, false)
  | (measured_speed, now) :: rest =>
    let '(k1, raised) := KalmanFilter.update k measured_speed now in
    if raised then (k1, true) else kalman_feed k1 rest
  end.

(** The calls a [PIDController] receives. *)
Inductive PidCall : Type :=
| pid_update (target actual now : Q)
| pid_set_phase (p : Phase)
| pid_reset.

Definition pid_call (c : PidCall) (self : PIDController.t) : PIDController.t :=
  match c with
  | pid_update target actual now =>
    fst (PIDController.update self target actual now)
  | pid_set_phase p => PIDController.set_phase self p
  | pid_reset => PIDController.reset self
  end.

Definition pid_calls (cs : list PidCall) (self : PIDController.t)
    : PIDController.t :=
  foldl (fun s c => pid_call c s) self cs.

(** ** Tables of sound states *)

(** Every tracked state carries a Kalman filter with positive variances. *)
Definition kalman_table_ok (states : gmap string TorrentLimitState.t) : Prop :=
  forall h st, states !! h = Some st -> kalman_ok (kalman st).

(** ** Shapes of limits and reasons *)

(** A limit [_calculate_limit] can hand to the client: uncapped, zero, or
    a multiple of 1024 inside [MIN_LIMIT .. MAX_LIMIT]. *)
Definition pushable_limit (limit : Z) : Prop :=
  limit = (-1)%Z \/ limit = 0%Z
  \/ ((LimitConfig.MIN_LIMIT <= limit <= LimitConfig.MAX_LIMIT)%Z
      /\ (limit mod 1024 = 0)%Z).

(** The reasons of the warmup bands. *)
Definition warmup_reason (reason : Reason) : bool :=
  match reason with
  | reason_warmup_over _ _ | reason_warmup_fine _ | reason_warmup_mid _
  | reason_warmup_idle _ => true
  | _ => false
  end.

(** ** A sample fleet *)

Module Fleet.

(** The strings of the fleet are lower-case already; the hostname reader
    knows one URL. *)
Definition lower (s : string) : string := s.
Definition hostname (url : string) : option string :=
  if String.eqb url "https://tracker.example" then Some "tracker.example"
  else None.

Definition site : Site :=
  {| site_ident := Some 1%Z; site_tracker_keyword := Some "example";
     site_url := Some "https://tracker.example" |}.

(** The rule of site 1 (2048 KiB/s), a default rule (1024 KiB/s) and a
    disabled rule of site 2. *)
Definition site_rule : SpeedRule :=
  {| rule_enabled := true; rule_site_id := Some 1%Z;
     target_speed_kib := Some 2048%Z; safety_margin := Some 1 |}.
Definition default_rule : SpeedRule :=
  {| rule_enabled := true; rule_site_id := None;
     target_speed_kib := Some 1024%Z; safety_margin := Some 1 |}.
Definition disabled_rule : SpeedRule :=
  {| rule_enabled := false; rule_site_id := Some 2%Z;
     target_speed_kib := Some 10%Z; safety_margin := None |}.

Definition torrent (h tracker : string) (upspeed : Z) : Torrent :=
  {| t_hash := h; t_name := Some h; t_state := Some "stalledup";
     t_tracker := Some tracker; t_size := Some 1000000000%Z;
     t_uploaded := Some 0%Z; t_upspeed := Some upspeed;
     t_progress := Some 1; t_ratio := Some 1;
     t_seeding_time := Some 100%Z; t_last_activity := Some 0%Z |}.

Definition torrents : list Torrent :=
  [torrent "a" "https://tracker.example/announce" 100;
   torrent "b" "https://other.invalid/announce" 0].

Definition database : Db :=
  {| get_speed_rules := Returns [site_rule; default_rule; disabled_rule];
     get_pt_sites := Returns [site];
     get_qb_instances := Returns [{| inst_enabled := true; inst_id := 1 |}] |}.

Definition env : Env :=
  {| PT_HELPER_AVAILABLE := false; site_helper_manager := None;
     qb_manager :=
       {| get_client :=
            fun _ => Returns (Some (Sample.client (Returns (Some 1500))));
          get_torrents := fun _ => Returns torrents;
          set_upload_limit := fun _ _ _ => Returns tt |};
     db := database |}.

End Fleet.

(* ================================================================== *)
(** ** Inspection: [get_stats], [get_state], [get_all_states] *)

(** The dict of [get_stats]. *)
Record StatsReport : Type := {
  states_count : Z;
  stats_running : bool;
  stats_counters : Stats
}.

Definition get_stats (self : PrecisionLimitEngine.t) : StatsReport :=
  {| states_count := Z.of_nat (size (PrecisionLimitEngine._states self));
     stats_running := PrecisionLimitEngine._running self;
     stats_counters := PrecisionLimitEngine._stats self |}.

(** An entry of [client.torrents_info(hashes=hash)]. *)
Record TorrentInfo : Type := {
  ti_uploaded : Z;
  ti_upspeed : Z
}.

(** A client of [qb_manager._clients], by its [torrents_info]. *)
Record InfoClient : Type := {
  torrents_info : string -> ext (list TorrentInfo)
}.

(** The [try] of [get_state]: the upload and speed of the first client
    that lists the torrent; an exception ends the search with what is
    assigned so far, which is [(0, 0)]. *)
Fixpoint current_upload (clients : list (Z * option InfoClient))
    (h : string) : Z * Z :=
  match clients with
  | [] => (0, 0)%Z
  | (_, None) :: rest => current_upload rest h
  | (_, Some client) :: rest =>
    match torrents_info client h with
    | Raises => (0, 0)%Z
    | Returns [] => current_upload rest h
    | Returns (t :: _) => (ti_uploaded t, ti_upspeed t)
    end
  end.

(** The dict of [get_state]. *)
Record StateReport : Type := {
  r_hash : string;
  r_name : string;
  r_tracker : string;
  r_instance_id : Z;
  r_phase : Phase;
  r_cycle_index : Z;
  r_cycle_synced : bool;
  r_time_left : Q;
  r_cycle_duration : Q;
  r_total_cycle_time : Q;
  r_reannounce_source : Source;
  r_target_speed : Z;
  r_last_limit : Z;
  r_last_limit_reason : Reason;
  r_current_speed : Z;
  r_cycle_uploaded : Z;
  r_cycle_avg_speed : Q;
  r_target_upload : Q;
  r_target_distance : Q;
  r_target_progress : Q;
  r_site_id : option Z;
  r_tid : option Z;
  r_kalman_speed : Q;
  r_kalman_predicted : Q
}.

(** [get_state(hash)]; [now] is its reading of [time.time()] and
    [clients] the items of [qb_manager._clients]. *)
Definition get_state (self : PrecisionLimitEngine.t)
    (clients : list (Z * option InfoClient)) (h : string) (now : Q)
    : option StateReport :=
  match PrecisionLimitEngine._states self !! h with
  | None => None
  | Some state =>
    let cycle_time_left :=
      if 0 <? reannounce_time state
      then Py.max 0 (reannounce_time state - now)
      else cached_time_left state in
    let cycle_duration :=
      if 0 <? cycle_start state then now - cycle_start state else 0 in
    let '(current_uploaded, current_speed) := current_upload clients h in
    let cycle_uploaded :=
      TorrentLimitState.get_cycle_uploaded state current_uploaded in
    let cycle_avg_speed :=
      if 0 <? cycle_duration then Py.float cycle_uploaded / cycle_duration
      else 0 in
    let total_cycle_time := cached_time_left state in
    let target_upload :=
      if 0 <? total_cycle_time
      then Py.float (target_speed state) * total_cycle_time
      else 0 in
    let target_distance := target_upload - Py.float cycle_uploaded in
    let target_progress :=
      if 0 <? target_upload
      then Py.float cycle_uploaded / target_upload * 100
      else 0 in
    Some {| r_hash := TorrentLimitState.hash state;
            r_name := name state;
            r_tracker := tracker state;
            r_instance_id := instance_id state;
            r_phase := TorrentLimitState.get_phase state now;
            r_cycle_index := cycle_index state;
            r_cycle_synced := cycle_synced state;
            r_time_left := cycle_time_left;
            r_cycle_duration := cycle_duration;
            r_total_cycle_time := total_cycle_time;
            r_reannounce_source := reannounce_source state;
            r_target_speed := target_speed state;
            r_last_limit := last_limit state;
            r_last_limit_reason := last_limit_reason state;
            r_current_speed := current_speed;
            r_cycle_uploaded := cycle_uploaded;
            r_cycle_avg_speed := cycle_avg_speed;
            r_target_upload := target_upload;
            r_target_distance := target_distance;
            r_target_progress := target_progress;
            r_site_id := site_id state;
            r_tid := tid state;
            r_kalman_speed := KalmanFilter.speed (kalman state);
            r_kalman_predicted :=
              if 0 <? cycle_time_left
              then KalmanFilter.predict_upload (kalman state) cycle_time_left
              else 0 |}
  end.

(** The loop of [get_all_states] over [self._states.keys()]; the [i]-th
    call of [get_state] meets the clients [clients i] and reads the clock
    at [clock i]. *)
Fixpoint all_states_loop (self : PrecisionLimitEngine.t)
    (clients : nat -> list (Z * option InfoClient)) (clock : nat -> Q)
    (i : nat) (keys : list string) : list StateReport :=
  match keys with
  | [] => []
  | h :: rest =>
    match get_state self (clients i) h (clock i) with
    | Some s => s :: all_states_loop self clients clock (S i) rest
    | None => all_states_loop self clients clock (S i) rest
    end
  end.

Definition get_all_states (self : PrecisionLimitEngine.t)
    (clients : nat -> list (Z * option InfoClient)) (clock : nat -> Q)
    : list StateReport :=
  all_states_loop self clients clock 0
    (fst <$> map_to_list (PrecisionLimitEngine._states self)).

(* ================================================================== *)
(** ** [class AutoRemoveEngine]: the removal pass and its records *)

(** The slice [l[-n:]]: the last [n] elements for a positive [n], the
    whole list for [n = 0] (the index [-0] is [0]), and [l[k:]] for
    [n = -k < 0]. *)
Definition slice_last {A : Type} (n : Z) (l : list A) : list A :=
  if (0 <? n)%Z then drop (length l - Z.to_nat n) l
  else drop (Z.to_nat (- n)) l.

Module RemoveRecord.

Record t : Type := {
  timestamp : Q;
  instance_id : Z;
  instance_name : string;
  torrent_hash : string;
  torrent_name : string;
  rule_name : string;
  reason : string;
  size : Z;
  uploaded : Z;
  ratio : Q
}.

End RemoveRecord.

(** A client instance with the ['name'] the removal reads. *)
Record NamedInstance : Type := {
  inst : Instance;
  inst_name : string
}.

(** The client driver as the removal pass uses it.  The outcome of
    [reannounce] is not part of it: an exception of that call is caught
    and its result is not read. *)
Module RemoveDriver.

Record t : Type := {
  is_connected : Z -> ext bool;
  get_free_space : Z -> ext Z;
  get_torrents : Z -> ext (list Torrent);
  delete_torrent : Z -> string -> bool -> ext (bool * string)
}.

End RemoveDriver.

(** The reads of the store made by the removal pass. *)
Record RemoveDb : Type := {
  get_enabled_remove_rules : ext (list RemoveRule);
  get_named_instances : ext (list NamedInstance)   (* [get_qb_instances] *)
}.

(** What a pass meets while it visits its [i]-th torrent: the reading of
    [time.time()] in [_check_condition], the one kept in the record, and
    the value of [self._running] read after the removal (another thread
    may have called [stop()]). *)
Record PassClock : Type := {
  check_time : nat -> Q;
  record_time : nat -> Q;
  running_after : nat -> bool
}.

(** A call issued to the client driver. *)
Inductive DriverCall : Type :=
| call_reannounce (instance_id : Z) (h : string)
| call_delete (instance_id : Z) (h : string) (delete_files : bool).

(** The removal records and totals of the engine. *)
Record Removals : Type := {
  _remove_records : list RemoveRecord.t;
  _total_removed : Z;
  _total_freed : Z
}.

Definition _max_records : Z := 500.

(** [__init__]. *)
Definition removals_init : Removals :=
  {| _remove_records := []; _total_removed := 0; _total_freed := 0 |}.

(** [_remove_torrent(instance, torrent, rule, free_space)]: the records
    after the call, the driver calls issued, and whether the call raised
    (an exception of [delete_torrent] is not caught here). *)
Definition _remove_torrent (driver : RemoveDriver.t)
    (self : AutoRemoveEngine.t) (rs : Removals) (instance : NamedInstance)
    (torrent : Torrent) (rule : RemoveRule) (now : Q)
    : Removals * list DriverCall * bool :=
  let inst_id := inst_id (inst instance) in
  let torrent_hash := t_hash torrent in
  let torrent_name := default "Unknown" (t_name torrent) in
  let calls :=
    (if AutoRemoveEngine._reannounce_before_delete self
     then [call_reannounce inst_id torrent_hash] else [])
    ++ [call_delete inst_id torrent_hash (AutoRemoveEngine._delete_files self)]
  in
  match RemoveDriver.delete_torrent driver inst_id torrent_hash
          (AutoRemoveEngine._delete_files self) with
  | Raises => (rs, calls, true)
  | Returns (success, msg) =>
    if success then
      let size := default 0%Z (t_size torrent) in
      let record :=
        {| RemoveRecord.timestamp := now;
           RemoveRecord.instance_id := inst_id;
           RemoveRecord.instance_name := inst_name instance;
           RemoveRecord.torrent_hash := torrent_hash;
           RemoveRecord.torrent_name := torrent_name;
           RemoveRecord.rule_name := rr_name rule;
           RemoveRecord.reason := default "" (rr_description rule);
           RemoveRecord.size := size;
           RemoveRecord.uploaded := default 0%Z (t_uploaded torrent);
           RemoveRecord.ratio := default 0 (t_ratio torrent) |} in
      let records := _remove_records rs ++ [record] in
      let records :=
        if (_max_records <? Z.of_nat (length records))%Z
        then slice_last _max_records records else records in
      ({| _remove_records := records;
          _total_removed := _total_removed rs + 1;
          _total_freed := _total_freed rs + size |}, calls, false)
    else (rs, calls, false)
  end.

(** How a loop of the pass ends: it runs to its end, [return]s, or an
    exception leaves it. *)
Inductive Flow : Type := flow_next | flow_return | flow_raise.

(** The loop of [_check_and_remove] over the torrents of one instance;
    [i] counts the torrents visited by the pass. *)
Fixpoint remove_torrents (driver : RemoveDriver.t) (self : AutoRemoveEngine.t)
    (clk : PassClock) (instance : NamedInstance) (rules : list RemoveRule)
    (free_space : Z) (torrents : list Torrent) (i : nat) (rs : Removals)
    : Removals * list DriverCall * nat * Flow :=
  match torrents with
  | [] => (rs, [], i, flow_next)
  | torrent :: rest =>
    match AutoRemoveEngine._match_rules torrent rules free_space
            (check_time clk i) with
    | None =>
      remove_torrents driver self clk instance rules free_space rest (S i) rs
    | Some matched_rule =>
      let '(rs1, calls1, raised) :=
        _remove_torrent driver self rs instance torrent matched_rule
          (record_time clk i) in
      if raised then (rs1, calls1, S i, flow_raise)
      else if negb (running_after clk i) then (rs1, calls1, S i, flow_return)
      else
        let '(rs2, calls2, i2, flow) :=
          remove_torrents driver self clk instance rules free_space rest
            (S i) rs1 in
        (rs2, calls1 ++ calls2, i2, flow)
    end
  end.

(** The loop of [_check_and_remove] over the instances. *)
Fixpoint remove_instances (driver : RemoveDriver.t)
    (self : AutoRemoveEngine.t) (clk : PassClock) (rules : list RemoveRule)
    (instances : list NamedInstance) (i : nat) (rs : Removals)
    : Removals * list DriverCall * Flow :=
  match instances with
  | [] => (rs, [], flow_next)
  | instance :: rest =>
    if negb (inst_enabled (inst instance))
    then remove_instances driver self clk rules rest i rs
    else
      let id := inst_id (inst instance) in
      match RemoveDriver.is_connected driver id with
      | Raises => (rs, [], flow_raise)
      | Returns false => remove_instances driver self clk rules rest i rs
      | Returns true =>
        match RemoveDriver.get_free_space driver id with
        | Raises => (rs, [], flow_raise)
        | Returns free_space =>
          match RemoveDriver.get_torrents driver id with
          | Raises => (rs, [], flow_raise)
          | Returns torrents =>
            let '(rs1, calls1, i1, flow) :=
              remove_torrents driver self clk instance rules free_space
                torrents i rs in
            match flow with
            | flow_next =>
              let '(rs2, calls2, flow2) :=
                remove_instances driver self clk rules rest i1 rs1 in
              (rs2, calls1 ++ calls2, flow2)
            | _ => (rs1, calls1, flow)
            end
          end
        end
      end
  end.

(** [_check_and_remove()]. *)
Definition _check_and_remove (rdb : RemoveDb) (driver : RemoveDriver.t)
    (self : AutoRemoveEngine.t) (clk : PassClock) (rs : Removals)
    : Removals * list DriverCall * Flow :=
  match get_enabled_remove_rules rdb with
  | Raises => (rs, [], flow_raise)
  | Returns [] => (rs, [], flow_return)
  | Returns rules =>
    match get_named_instances rdb with
    | Raises => (rs, [], flow_raise)
    | Returns instances =>
      remove_instances driver self clk rules instances 0 rs
    end
  end.

(** One iteration of [_worker] up to its wait: the configuration is
    loaded again, and an exception of the pass is caught. *)
Definition worker_iteration (rdb : RemoveDb) (driver : RemoveDriver.t)
    (self : AutoRemoveEngine.t) (store : Store.t) (clk : PassClock)
    (rs : Removals) : AutoRemoveEngine.t * Removals * list DriverCall :=
  let self1 := AutoRemoveEngine._load_config self store in
  if AutoRemoveEngine._enabled self1 then
    let '(rs1, calls, _) := _check_and_remove rdb driver self1 clk rs in
    (self1, rs1, calls)
  else (self1, rs, []).

(** [manual_check()], by the ['success'] of its answer. *)
Definition manual_check (rdb : RemoveDb) (driver : RemoveDriver.t)
    (self : AutoRemoveEngine.t) (clk : PassClock) (rs : Removals)
    : Removals * list DriverCall * bool :=
  if negb (AutoRemoveEngine._running self) then (rs, [], false)
  else
    let '(rs1, calls, flow) := _check_and_remove rdb driver self clk rs in
    (rs1, calls,
     match flow with flow_raise => false | _ => true end).

(** The passes of a run: each one is started by the worker or by
    [manual_check] with the configuration of its time. *)
Record Pass : Type := {
  pass_db : RemoveDb;
  pass_driver : RemoveDriver.t;
  pass_self : AutoRemoveEngine.t;
  pass_clock : PassClock
}.

Definition run_passes (passes : list Pass) (rs : Removals) : Removals :=
  foldl (fun rs p =>
           fst (fst (_check_and_remove (pass_db p) (pass_driver p)
                       (pass_self p) (pass_clock p) rs)))
    rs passes.

(** An entry of [get_records]. *)
Record RecordReport : Type := {
  rec_time : string;
  rec_instance : string;
  rec_name : string;
  rec_rule : string;
  rec_reason : string;
  rec_size : Z;
  rec_uploaded : Z;
  rec_ratio : Q
}.

Section Records.

(** [datetime.fromtimestamp(t).strftime('%Y-%m-%d %H:%M:%S')], which
    depends on the time zone of the host. *)
Variable strftime : Q -> string.

Definition record_dict (r : RemoveRecord.t) : RecordReport :=
  {| rec_time := strftime (RemoveRecord.timestamp r);
     rec_instance := RemoveRecord.instance_name r;
     rec_name :=
       if (50 <? String.length (RemoveRecord.torrent_name r))%nat
       then String.substring 0 50 (RemoveRecord.torrent_name r) +:+ "..."
       else RemoveRecord.torrent_name r;
     rec_rule := RemoveRecord.rule_name r;
     rec_reason := RemoveRecord.reason r;
     rec_size := RemoveRecord.size r;
     rec_uploaded := RemoveRecord.uploaded r;
     rec_ratio := RemoveRecord.ratio r |}.

(** [get_records(limit)]. *)
Definition get_records (rs : Removals) (limit : Z) : list RecordReport :=
  record_dict <$> reverse (slice_last limit (_remove_records rs)).

End Records.

(** The delete calls of a trace that the driver answers with success,
    and the targets of its calls by kind. *)
Definition delete_succeeds (driver : RemoveDriver.t) (c : DriverCall)
    : bool :=
  match c with
  | call_delete i h d =>
    match RemoveDriver.delete_torrent driver i h d with
    | Returns (true, _) => true
    | _ => false
    end
  | call_reannounce _ _ => false
  end.

Definition delete_target (c : DriverCall) : option (Z * string) :=
  match c with
  | call_delete i h _ => Some (i, h)
  | call_reannounce _ _ => None
  end.

Definition reannounce_target (c : DriverCall) : option (Z * string) :=
  match c with
  | call_reannounce i h => Some (i, h)
  | call_delete _ _ _ => None
  end.

(** A call of a pass is justified: it addresses a torrent that an
    enabled, connected instance lists and that some rule of the pass
    matches at the free space of that instance; a delete call carries the
    [_delete_files] of the engine and a reannounce call is issued only
    under [_reannounce_before_delete]. *)
Definition call_justified (driver : RemoveDriver.t)
    (self : AutoRemoveEngine.t) (clk : PassClock) (rules : list RemoveRule)
    (instances : list NamedInstance) (c : DriverCall) : Prop :=
  let '(id, h) :=
    match c with
    | call_delete id h _ => (id, h)
    | call_reannounce id h => (id, h)
    end in
  match c with
  | call_delete _ _ d => d = AutoRemoveEngine._delete_files self
  | call_reannounce _ _ =>
    AutoRemoveEngine._reannounce_before_delete self = true
  end
  /\ exists instance free_space torrents torrent rule i,
      instance ∈ instances
      /\ inst_enabled (inst instance) = true
      /\ inst_id (inst instance) = id
      /\ RemoveDriver.is_connected driver id = Returns true
      /\ RemoveDriver.get_free_space driver id = Returns free_space
      /\ RemoveDriver.get_torrents driver id = Returns torrents
      /\ torrent ∈ torrents /\ t_hash torrent = h
      /\ rule ∈ rules
      /\ AutoRemoveEngine._match_rules torrent rules free_space
           (check_time clk i) = Some rule.

(** The sizes of a list of records, added up. *)
Definition freed_by (records : list RemoveRecord.t) : Z :=
  foldr (fun r acc => (RemoveRecord.size r + acc)%Z) 0%Z records.

(** The ring of records holds the last [_max_records] removals, and until
    a record is dropped the freed total is the sum of the recorded
    sizes. *)
Definition ring_ok (rs : Removals) : Prop :=
  Z.of_nat (length (_remove_records rs))
  = Z.min (_total_removed rs) _max_records
  /\ (if (_total_removed rs <=? _max_records)%Z
      then _total_freed rs = freed_by (_remove_records rs) else True).

(** A condition that asks no more than another: each of its keys is a
    key of the other with the same value (a [completed] that is false
    asks nothing). *)
Definition asks_no_more (c' c : Condition) : Prop :=
  (free_space_lt c' = None \/ free_space_lt c' = free_space_lt c)
  /\ (upload_speed_lt c' = None \/ upload_speed_lt c' = upload_speed_lt c)
  /\ (completed c' = None \/ completed c' = Some false
      \/ completed c' = completed c)
  /\ (seeding_time_gt c' = None \/ seeding_time_gt c' = seeding_time_gt c)
  /\ (ratio_gt c' = None \/ ratio_gt c' = ratio_gt c)
  /\ (size_gt c' = None \/ size_gt c' = size_gt c)
  /\ (no_peers_time_gt c' = None
      \/ no_peers_time_gt c' = no_peers_time_gt c).

(** The condition [{}]. *)
Definition empty_condition : Condition :=
  {| free_space_lt := None; upload_speed_lt := None; completed := None;
     seeding_time_gt := None; ratio_gt := None; size_gt := None;
     no_peers_time_gt := None |}.



(** A limit call of a pass is justified: it addresses a torrent that an
    enabled instance with a client lists, that is to be limited and for
    which a rule is found. *)
Definition limit_call_justified (str_lower : string -> string)
    (url_hostname : string -> option string) (env : Env)
    (rules : gmap (option Z) SpeedRule) (instances : list Instance)
    (c : LimitCall) : Prop :=
  exists instance client torrents torrent rule,
    instance ∈ instances
    /\ inst_enabled instance = true
    /\ inst_id instance = call_instance c
    /\ get_client (qb_manager env) (inst_id instance)
       = Returns (Some client)
    /\ get_torrents (qb_manager env) (inst_id instance) = Returns torrents
    /\ torrent ∈ torrents
    /\ t_hash torrent = call_hash c
    /\ _should_limit_torrent str_lower torrent = true
    /\ _find_rule str_lower url_hostname env torrent rules
       = Returns (Some rule).

(** ** A sample removal *)

Module RemovalFleet.

(** A rule for torrents that upload slower than 50 B/s, after a rule
    whose condition does not parse. *)
Definition broken_rule : RemoveRule :=
  {| rr_name := "broken"; rr_description := None; rr_condition := Raises |}.

Definition slow_rule : RemoveRule :=
  {| rr_name := "slow"; rr_description := Some "no upload";
     rr_condition :=
       Returns {| free_space_lt := None; upload_speed_lt := Some 50;
                  completed := Some true; seeding_time_gt := None;
                  ratio_gt := None; size_gt := None;
                  no_peers_time_gt := None |} |}.

Definition database : RemoveDb :=
  {| get_enabled_remove_rules := Returns [broken_rule; slow_rule];
     get_named_instances :=
       Returns [{| inst := {| inst_enabled := true; inst_id := 1 |};
                   inst_name := "box" |}] |}.

(** The driver lists the torrents of [Fleet] and deletes what it is asked
    to. *)
Definition driver : RemoveDriver.t :=
  {| RemoveDriver.is_connected := fun _ => Returns true;
     RemoveDriver.get_free_space := fun _ => Returns 1000%Z;
     RemoveDriver.get_torrents := fun _ => Returns Fleet.torrents;
     RemoveDriver.delete_torrent := fun _ _ _ => Returns (true, "Ok.") |}.

Definition clock : PassClock :=
  {| check_time := fun _ => 5000; record_time := fun _ => 5001;
     running_after := fun _ => true |}.

(** A running engine whose [_enabled] has been switched off. *)
Definition engine : AutoRemoveEngine.t :=
  {| AutoRemoveEngine._running := true;
     AutoRemoveEngine._check_interval := 60;
     AutoRemoveEngine._sleep_between := 5;
     AutoRemoveEngine._enabled := false;
     AutoRemoveEngine._reannounce_before_delete := true;
     AutoRemoveEngine._delete_files := true |}.

End RemovalFleet.

(** [start()] of the auto-remove engine, by the fields of the engine: a
    running engine returns at once; otherwise the configuration is loaded
    and the worker, whose iterations are [worker_iteration], is started
    only when removal is enabled. *)
Definition auto_remove_start (self : AutoRemoveEngine.t) (store : Store.t)
    : AutoRemoveEngine.t :=
  if AutoRemoveEngine._running self then self
  else
    let self1 := AutoRemoveEngine._load_config self store in
    if negb (AutoRemoveEngine._enabled self1) then self1
    else
      {| AutoRemoveEngine._running := true;
         AutoRemoveEngine._check_interval :=
           AutoRemoveEngine._check_interval self1;
         AutoRemoveEngine._sleep_between :=
           AutoRemoveEngine._sleep_between self1;
         AutoRemoveEngine._enabled := AutoRemoveEngine._enabled self1;
         AutoRemoveEngine._reannounce_before_delete :=
           AutoRemoveEngine._reannounce_before_delete self1;
         AutoRemoveEngine._delete_files :=
           AutoRemoveEngine._delete_files self1 |}.

(* ================================================================== *)
(** * Properties *)

(** ** Comparisons and clamps *)

Lemma ltb_lt (a b : Q) : (a <? b) = true <-> a < b.
Proof.
  unfold Py.ltb. rewrite negb_true_iff, <- not_true_iff_false, Qle_bool_iff.
  split; [apply Qnot_le_lt | apply Qlt_not_le].
Qed.

Lemma ltb_ge (a b : Q) : (a <? b) = false <-> b <= a.
Proof.
  unfold Py.ltb. rewrite negb_false_iff. apply Qle_bool_iff.
Qed.

Lemma leb_le (a b : Q) : (a <=? b) = true <-> a <= b.
Proof. apply Qle_bool_iff. Qed.

Lemma leb_gt (a b : Q) : (a <=? b) = false <-> b < a.
Proof.
  unfold Py.leb. rewrite <- not_true_iff_false, Qle_bool_iff.
  split; [apply Qnot_le_lt | apply Qlt_not_le].
Qed.

Lemma ltb_reflect (a b : Q) : reflect (a < b) (a <? b).
Proof.
  destruct (a <? b) eqn:E; constructor.
  - now apply ltb_lt.
  - apply ltb_ge in E. now apply Qle_not_lt.
Qed.

Lemma leb_reflect (a b : Q) : reflect (a <= b) (a <=? b).
Proof.
  destruct (a <=? b) eqn:E; constructor.
  - now apply leb_le.
  - apply leb_gt in E. now apply Qlt_not_le.
Qed.

Lemma py_max_Qmax (a b : Q) : Py.max a b == Qmax a b.
Proof.
  unfold Py.max. destruct (ltb_reflect a b) as [H | H].
  - symmetry. apply Q.max_r. lra.
  - symmetry. apply Q.max_l. lra.
Qed.

Lemma py_min_Qmin (a b : Q) : Py.min a b == Qmin a b.
Proof.
  unfold Py.min. destruct (ltb_reflect b a) as [H | H].
  - symmetry. apply Q.min_r. lra.
  - symmetry. apply Q.min_l. lra.
Qed.

Lemma clamp_spec_clamp (x lo hi : Q) : clamp x lo hi == spec_clamp x lo hi.
Proof.
  unfold clamp, spec_clamp.
  rewrite py_max_Qmax. rewrite py_min_Qmin. reflexivity.
Qed.

Lemma clamp_bounds (x lo hi : Q) : lo <= hi -> lo <= clamp x lo hi <= hi.
Proof.
  intros Hlh. unfold clamp, Py.max, Py.min.
  destruct (ltb_reflect x hi) as [H1 | H1];
    [destruct (ltb_reflect lo x) | destruct (ltb_reflect lo hi)]; lra.
Qed.

Lemma Phase_eqb_eq (p q : Phase) : Phase_eqb p q = true <-> p = q.
Proof. destruct p, q; simpl; split; congruence. Qed.

(* ------------------------------------------------------------------ *)
(** ** The PID controller *)

(** The guard of [safe_div] never fires on the divisor [max(target, 1)]. *)
Lemma pid_error_formula (target actual : Q) :
  safe_div (target - actual) (Py.max target 1) 0
  == (target - actual) / Qmax target 1.
Proof.
  assert (Hb : 1 <= Py.max target 1).
  { unfold Py.max. destruct (ltb_reflect target 1); lra. }
  unfold safe_div.
  destruct (Qeq_bool (Py.max target 1) 0) eqn:E0.
  - apply Qeq_bool_eq in E0. lra.
  - simpl. destruct (ltb_reflect (Py.abs (Py.max target 1)) 1e-10) as [Ha | Ha].
    + unfold Py.abs in Ha. rewrite Qabs_pos in Ha by lra.
      assert (1e-10 < 1) by reflexivity. lra.
    + rewrite py_max_Qmax. reflexivity.
Qed.

(** C7. [PID.update(target, actual, now)] computes the normalized error
    [e = (target - actual) / max(target, 1)], takes [dt = now - last_time]
    once [last_time] is set and [1] on the first call, accumulates
    [I = clamp(I + e*dt, -0.5, 0.5)], takes the derivative
    [(e - last_e) / dt] ([0] when [dt] is not positive) and returns
    [1 + kp*e + ki*I + kd*d] clamped to [0.3 .. 3.0], the gains being those
    of the controller's phase in table P; [set_phase] with another phase
    halves the integral and with the same phase changes nothing. *)
Theorem pid_update_and_set_phase (self : PIDController.t)
    (target actual now : Q) (p : Phase) :
  let e := (target - actual) / Qmax target 1 in
  let dt :=
    if 0 <? PIDController.last_time self
    then now - PIDController.last_time self else 1 in
  let I := spec_clamp (PIDController.integral self + e * dt) (-0.5) 0.5 in
  let d := if 0 <? dt then (e - PIDController.last_error self) / dt else 0 in
  let gains := LimitConfig.PID_PARAMS (PIDController.phase self) in
  let self' := fst (PIDController.update self target actual now) in
  let out := snd (PIDController.update self target actual now) in
  (PIDController.last_error self' == e
   /\ PIDController.integral self' == I
   /\ PIDController.last_time self' = now
   /\ PIDController.phase self' = PIDController.phase self
   /\ out == spec_clamp (1 + kp gains * e + ki gains * I + kd gains * d) 0.3 3.0
   /\ 0.3 <= out <= 3.0)
  /\ PIDController.dt_of PIDController.init now = 1
  /\ (LimitConfig.PID_PARAMS warmup
        = {| kp := 0.3; ki := 0.05; kd := 0.02; headroom := 1.03 |}
      /\ LimitConfig.PID_PARAMS catch
        = {| kp := 0.5; ki := 0.10; kd := 0.05; headroom := 1.02 |}
      /\ LimitConfig.PID_PARAMS steady
        = {| kp := 0.6; ki := 0.15; kd := 0.08; headroom := 1.005 |}
      /\ LimitConfig.PID_PARAMS finish
        = {| kp := 0.8; ki := 0.20; kd := 0.12; headroom := 1.001 |})
  /\ (PIDController.integral (PIDController.set_phase self p)
        = (if decide (p = PIDController.phase self)
           then PIDController.integral self
           else PIDController.integral self * 0.5)
      /\ PIDController.phase (PIDController.set_phase self p) = p
      /\ PIDController.last_error (PIDController.set_phase self p)
         = PIDController.last_error self
      /\ PIDController.last_time (PIDController.set_phase self p)
         = PIDController.last_time self).
Proof.
  intros e dt I d gains self' out.
  assert (Herr : safe_div (target - actual) (Py.max target 1) 0 == e)
    by apply pid_error_formula.
  assert (Hdt : PIDController.dt_of self now = dt) by reflexivity.
  assert (HI : PIDController.integral self' == I).
  { subst self' I. unfold PIDController.update.
    cbn [fst PIDController.integral].
    rewrite clamp_spec_clamp, Hdt. unfold spec_clamp. rewrite Herr.
    reflexivity. }
  split; [| split; [| split]].
  - split; [| split; [| split; [| split; [| split]]]].
    + exact Herr.
    + exact HI.
    + reflexivity.
    + reflexivity.
    + subst out. unfold PIDController.update. cbn [snd].
      fold gains. rewrite clamp_spec_clamp.
      change (clamp (PIDController.integral self
                     + safe_div (target - actual) (Py.max target 1) 0
                       * PIDController.dt_of self now) (-0.5) 0.5)
        with (PIDController.integral self').
      unfold spec_clamp. rewrite HI, Hdt. subst d.
      assert (H1 : 1.0 == 1) by reflexivity.
      destruct (0 <? dt); rewrite Herr, H1; reflexivity.
    + apply clamp_bounds. lra.
  - reflexivity.
  - repeat split; reflexivity.
  - unfold PIDController.set_phase.
    destruct (decide (p = PIDController.phase self)) as [-> | Hne].
    + assert (Phase_eqb (PIDController.phase self) (PIDController.phase self)
              = true) as -> by now apply Phase_eqb_eq.
      cbn [negb]. repeat split; reflexivity.
    + destruct (Phase_eqb p (PIDController.phase self)) eqn:E.
      * apply Phase_eqb_eq in E. contradiction.
      * cbn. repeat split; reflexivity.
Qed.

(* ------------------------------------------------------------------ *)
(** ** The final clamp and rounding of the limit *)

Lemma zmax_max (a b : Z) : Py.zmax a b = Z.max a b.
Proof. unfold Py.zmax. destruct (Z.ltb_spec a b); lia. Qed.

Lemma zmin_min (a b : Z) : Py.zmin a b = Z.min a b.
Proof. unfold Py.zmin. destruct (Z.ltb_spec b a); lia. Qed.

(** A positive limit leaves [_calculate_limit]'s last step inside
    [MIN_LIMIT .. MAX_LIMIT], on a multiple of the step, and it is the
    clamped value rounded half-up: the multiple [q] of the step with
    [q <= c + step/2 < q + step]. *)
Lemma quantize_limit_positive (phase : Phase) (limit : Z) :
  (0 < limit)%Z ->
  let step := limit_step phase in
  let c := Z.max LimitConfig.MIN_LIMIT (Z.min LimitConfig.MAX_LIMIT limit) in
  let q := quantize_limit phase limit in
  (LimitConfig.MIN_LIMIT <= q <= LimitConfig.MAX_LIMIT)%Z
  /\ (q mod step = 0)%Z
  /\ (q <= c + step / 2 < q + step)%Z.
Proof.
  intros Hpos step c q.
  assert (Hq : q = ((c + step / 2) / step * step)%Z).
  { subst q c. unfold quantize_limit.
    apply Z.ltb_lt in Hpos. rewrite Hpos.
    rewrite zmax_max, zmin_min. reflexivity. }
  assert (Hc : (4096 <= c <= 524288000)%Z).
  { subst c. unfold LimitConfig.MIN_LIMIT, LimitConfig.MAX_LIMIT. lia. }
  assert (Hstep : step = 1024%Z \/ step = 4096%Z).
  { subst step. destruct phase; simpl; auto. }
  clearbody c q step. subst q.
  destruct Hstep as [-> | ->]; change (1024 / 2)%Z with 512%Z;
    change (4096 / 2)%Z with 2048%Z;
    unfold LimitConfig.MIN_LIMIT, LimitConfig.MAX_LIMIT.
  - pose proof (Z.div_mod (c + 512) 1024 ltac:(lia)) as Hd.
    pose proof (Z.mod_pos_bound (c + 512) 1024 ltac:(lia)) as Hm.
    rewrite Z.mod_mul by lia. split; [| split]; try lia.
  - pose proof (Z.div_mod (c + 2048) 4096 ltac:(lia)) as Hd.
    pose proof (Z.mod_pos_bound (c + 2048) 4096 ltac:(lia)) as Hm.
    rewrite Z.mod_mul by lia. split; [| split]; try lia.
Qed.

Lemma quantize_limit_positive_witness :
  (0 < 5000)%Z
  /\ quantize_limit finish 5000 = 5120%Z
  /\ (LimitConfig.MIN_LIMIT <= quantize_limit finish 5000
      <= LimitConfig.MAX_LIMIT)%Z.
Proof.
  split; [lia |]. split; [reflexivity |].
  apply (quantize_limit_positive finish 5000). lia.
Defined.

(** A limit that is not positive is returned as it is: [-1] stays the
    "uncapped" mark, and [0] is not lifted to [MIN_LIMIT]. *)
Lemma quantize_limit_nonpositive (phase : Phase) (limit : Z) :
  (limit <= 0)%Z -> quantize_limit phase limit = limit.
Proof.
  intros H. unfold quantize_limit.
  destruct (Z.ltb_spec 0 limit); [lia | reflexivity].
Qed.

(** [int(x)] of a float that is not negative is not negative. *)
Lemma py_int_nonneg (x : Q) : 0 <= x -> (0 <= Py.int x)%Z.
Proof.
  intros H. unfold Py.int. apply Z.quot_pos; [| lia].
  unfold Qle in H. cbn in H. lia.
Qed.

Lemma py_max_lower (a b : Q) : a <= Py.max a b.
Proof. unfold Py.max. destruct (ltb_reflect a b); lra. Qed.

Lemma pid_output_bounds (self : PIDController.t) (target actual now : Q) :
  0.3 <= snd (PIDController.update self target actual now) <= 3.0.
Proof. unfold PIDController.update. cbn [snd]. apply clamp_bounds. lra. Qed.

(** The values [_calculate_limit] can return: [-1] (uncapped), [0] (a
    raw limit that truncates to zero, returned unclamped), or a multiple of
    the step inside [MIN_LIMIT .. MAX_LIMIT]. *)
Lemma calculate_limit_values (state : TorrentLimitState.t)
    (current_uploaded : Z) (now time_left : Q) :
  let limit := fst (snd (_calculate_limit state current_uploaded now time_left)) in
  let step := limit_step (TorrentLimitState.get_phase state now) in
  limit = (-1)%Z \/ limit = 0%Z
  \/ ((LimitConfig.MIN_LIMIT <= limit <= LimitConfig.MAX_LIMIT)%Z
      /\ (limit mod step = 0)%Z).
Proof.
  intros limit step. subst limit step.
  assert (Hq : forall phase raw, (-1 <= raw)%Z ->
    quantize_limit phase raw = (-1)%Z \/ quantize_limit phase raw = 0%Z
    \/ ((LimitConfig.MIN_LIMIT <= quantize_limit phase raw
         <= LimitConfig.MAX_LIMIT)%Z
        /\ (quantize_limit phase raw mod limit_step phase = 0)%Z)).
  { intros phase raw Hraw.
    destruct (Z_lt_le_dec 0 raw) as [Hpos | Hle].
    - right; right.
      destruct (quantize_limit_positive phase raw Hpos) as (H1 & H2 & _).
      split; assumption.
    - rewrite quantize_limit_nonpositive by assumption. lia. }
  unfold _calculate_limit.
  destruct (leb_reflect time_left 0) as [Hle | Hgt]; [now left |].
  match goal with
  | |- context [PIDController.update ?c ?a ?b ?n] =>
    pose proof (pid_output_bounds c a b n) as Hpid;
    destruct (PIDController.update c a b n) as [pid1 pid_output]
  end.
  cbn [snd] in Hpid.
  match goal with
  | |- context [Py.max 0 ?x / time_left] =>
    assert (Hreq : 0 <= Py.max 0 x / time_left)
      by (apply Qle_shift_div_l; [lra |]; rewrite Qmult_0_l;
          apply py_max_lower);
    set (required_speed := Py.max 0 x / time_left) in *
  end.
  assert (Hprod : forall a b, 0 <= a -> 0 <= b -> 0 <= required_speed * a * b).
  { intros a b Ha Hb. apply Qmult_le_0_compat; [| assumption].
    apply Qmult_le_0_compat; assumption. }
  destruct (get_phase state now) eqn:Hph; cbn [fst snd];
    repeat match goal with
           | |- context [if ?b then (_, _) else _] => destruct b eqn:?
           end;
    cbn [fst snd]; apply Hq; try (unfold LimitConfig.MIN_LIMIT; lia);
    try (apply Z.le_trans with 0%Z; [lia |]; apply py_int_nonneg).
  - (* warmup, fine band *) apply Hprod; lra.
  - (* warmup, middle band *) apply Qmult_le_0_compat; lra.
  - (* catch *) apply Hprod; [cbn; lra | lra].
  - (* steady *) apply Hprod; [cbn; lra | lra].
  - (* finish *)
    apply Hprod; [lra |].
    match goal with
    | |- 0 <= (if ?b then _ else _) => destruct b eqn:Hr
    end.
    + match goal with
      | |- 0 <= Py.max ?a ?b => pose proof (py_max_lower a b); lra
      end.
    + match goal with
      | |- 0 <= (if ?b then _ else _) => destruct b eqn:Hr2
      end; [| lra].
      apply ltb_lt in Hr2. unfold Py.min.
      match goal with
      | |- 0 <= (if ?b then _ else _) => destruct b
      end; lra.
Qed.

(** C6, at the failing input.  In the steady phase, once the cycle's
    target is met the required speed is [0], [int(0.0 * ...)] is [0], the
    guard [limit > 0] skips the clamp, and the limit [0] is returned and
    pushed to the client: a finite limit below [MIN_LIMIT]. *)
Theorem calculate_limit_returns_zero :
  (TorrentLimitState.last_limit <$> Sample.state_of Overshoot.first_tick
     = Some 1851392%Z)
  /\ (PIDController.phase <$>
        (TorrentLimitState.pid <$> Sample.state_of Overshoot.second_tick)
      = Some steady)
  /\ snd (fst Overshoot.second_tick)
     = [{| call_instance := 1; call_hash := "h"; call_limit := 0 |}]
  /\ (TorrentLimitState.last_limit <$> Sample.state_of Overshoot.second_tick
      = Some 0%Z)
  /\ (0 < LimitConfig.MIN_LIMIT)%Z.
Proof.
  split; [| split; [| split; [| split]]]; try (vm_compute; reflexivity).
Qed.

(* ------------------------------------------------------------------ *)
(** ** The auto-remove rule evaluator *)

(** C4 as stated fails: the torrent of [Sample] has [last_activity = 0],
    and the condition [{"no_peers_time_gt": 3600}] matches it. *)
Lemma no_peers_matches_without_activity :
  t_last_activity (Sample.torrent 0 0) = Some 0%Z
  /\ AutoRemoveEngine._check_condition (Sample.torrent 0 0)
       (only_no_peers_time_gt 3600) 0 1700000000 = true.
Proof. split; reflexivity. Qed.

(** C4, amended.  With the key [no_peers_time_gt] present, the condition
    holds exactly when its other entries hold and it is not the case that
    [last_activity > 0] with [now - last_activity <= value]: the entry
    rejects a torrent with a positive [last_activity] that is not older
    than [value], and lets a torrent with [last_activity <= 0] (or none)
    pass. *)
Theorem check_condition_no_peers (torrent : Torrent) (c : Condition)
    (v : Q) (free_space : Z) (now : Q) :
  let last_activity := default 0%Z (t_last_activity torrent) in
  AutoRemoveEngine._check_condition torrent
    (with_no_peers_time_gt (Some v) c) free_space now
  = AutoRemoveEngine._check_condition torrent
      (with_no_peers_time_gt None c) free_space now
    && negb ((0 <? last_activity)%Z
             && (now - Py.float last_activity <=? v)).
Proof.
  intros last_activity. subst last_activity.
  unfold AutoRemoveEngine._check_condition, with_no_peers_time_gt.
  cbn [free_space_lt upload_speed_lt completed seeding_time_gt ratio_gt
       size_gt no_peers_time_gt].
  repeat match goal with
         | |- context [if ?b then false else _] =>
           lazymatch b with
           | context [no_peers_time_gt] => fail
           | _ => destruct b eqn:?; [reflexivity |]
           end
         end.
  destruct (0 <? default 0 (t_last_activity torrent))%Z; cbn [andb negb].
  - destruct (now - Py.float (default 0%Z (t_last_activity torrent)) <=? v);
      reflexivity.
  - reflexivity.
Qed.

(* ------------------------------------------------------------------ *)
(** ** The auto-remove configuration *)

(** What [set_config] stores and keeps is inside the bounds. *)
Lemma set_config_bounds (self : AutoRemoveEngine.t) (store : Store.t)
    (interval sleep_between : Z) (reannounce enabled delete_files : option bool) :
  let self' :=
    fst (AutoRemoveEngine.set_config self store (Some interval)
           (Some sleep_between) reannounce enabled delete_files) in
  (30 <= AutoRemoveEngine._check_interval self' <= 3600)%Z
  /\ (1 <= AutoRemoveEngine._sleep_between self' <= 60)%Z.
Proof.
  unfold AutoRemoveEngine.set_config.
  destruct reannounce, enabled, delete_files;
    cbn [fst AutoRemoveEngine._check_interval AutoRemoveEngine._sleep_between];
    rewrite !zmax_max, !zmin_min; lia.
Qed.

(** The defaults of [__init__] are inside the bounds. *)
Lemma init_config_bounds :
  AutoRemoveEngine._check_interval AutoRemoveEngine.init = 60%Z
  /\ AutoRemoveEngine._sleep_between AutoRemoveEngine.init = 5%Z.
Proof. split; reflexivity. Qed.

(** C9, at the failing input.  [_load_config] takes the integers of the
    store as they are: with ["5"] and ["0"] under the two keys, the
    iteration of the worker waits 5 s and sleeps 0 s between deletions,
    outside [30 .. 3600] and [1 .. 60]; [set_config] with the same values
    keeps 30 and 1. *)
Theorem load_config_unbounded :
  AutoRemoveEngine.worker_wait AutoRemoveEngine.init LowInterval.store = 5%Z
  /\ AutoRemoveEngine.worker_sleep AutoRemoveEngine.init LowInterval.store = 0%Z
  /\ AutoRemoveEngine._check_interval
       (fst (AutoRemoveEngine.set_config AutoRemoveEngine.init Store.empty
               (Some 5%Z) (Some 0%Z) None None None)) = 30%Z
  /\ AutoRemoveEngine._sleep_between
       (fst (AutoRemoveEngine.set_config AutoRemoveEngine.init Store.empty
               (Some 5%Z) (Some 0%Z) None None None)) = 1%Z.
Proof. repeat split; vm_compute; reflexivity. Qed.

(* ------------------------------------------------------------------ *)
(** ** The reannounce oracle *)

(** Method 1 only ever assigns [tid] and [site_id]. *)
Lemma site_method_state (env : Env) (hash tracker : string)
    (state : TorrentLimitState.t) :
  fst (site_method env hash tracker state) = state
  \/ exists a b,
      fst (site_method env hash tracker state)
      = set_site_id a (set_tid b state).
Proof.
  unfold site_method.
  destruct (site_helper_manager env) as [mgr |]; [| now left].
  destruct (PT_HELPER_AVAILABLE env); [| now left].
  destruct (get_helper_by_tracker mgr tracker) as [[helper |] |];
    try now left.
  destruct (helper_enabled helper); [| now left].
  destruct (tid state) as [t0 |] eqn:Htid.
  - rewrite Htid. destruct (truthy (Some t0)); [| now left].
    destruct (get_reannounce_time helper t0) as [[v |] |]; try now left.
    destruct (0 <? v); now left.
  - destruct (search_tid_by_hash helper hash) as [[info |] |].
    + destruct (truthy (info_tid info)) eqn:Ht.
      * cbn [tid set_site_id set_tid].
        destruct (info_tid info) as [t1 |]; [| discriminate Ht].
        rewrite Ht.
        destruct (get_reannounce_time helper t1) as [[v |] |];
          try (right; eexists _, _; reflexivity).
        destruct (0 <? v); right; eexists _, _; reflexivity.
      * rewrite Htid. now left.
    + rewrite Htid. now left.
    + now left.
Qed.

(** When method 1 yields a value, an enabled helper of an available
    manager returned it, and it is positive. *)
Lemma site_method_yields (env : Env) (hash tracker : string)
    (state : TorrentLimitState.t) (v : Q) :
  snd (site_method env hash tracker state) = Some v ->
  0 < v
  /\ exists mgr helper t,
      site_helper_manager env = Some mgr
      /\ PT_HELPER_AVAILABLE env = true
      /\ get_helper_by_tracker mgr tracker = Returns (Some helper)
      /\ helper_enabled helper = true
      /\ get_reannounce_time helper t = Returns (Some v).
Proof.
  unfold site_method.
  destruct (site_helper_manager env) as [mgr |]; [| discriminate].
  destruct (PT_HELPER_AVAILABLE env) eqn:Hav; [| discriminate].
  destruct (get_helper_by_tracker mgr tracker) as [[helper |] |] eqn:Hh;
    try discriminate.
  destruct (helper_enabled helper) eqn:Hen; [| discriminate].
  assert (Hgen : forall st1,
    snd (match tid st1 with
         | Some the_tid =>
           if truthy (tid st1) then
             match get_reannounce_time helper the_tid with
             | Returns (Some reannounce) =>
               if 0 <? reannounce then (st1, Some reannounce) else (st1, None)
             | Returns None => (st1, None)
             | Raises => (st1, None)
             end
           else (st1, None)
         | None => (st1, None)
         end) = Some v ->
    0 < v /\ exists t, get_reannounce_time helper t = Returns (Some v)).
  { intros st1. destruct (tid st1) as [t1 |]; [| discriminate].
    destruct (truthy (Some t1)); [| discriminate].
    destruct (get_reannounce_time helper t1) as [[w |] |] eqn:Hg;
      try discriminate.
    destruct (ltb_reflect 0 w); [| discriminate].
    cbn [snd]. intros [= ->]. split; [assumption |]. now exists t1. }
  intros H.
  assert (Hv : 0 < v /\ exists t, get_reannounce_time helper t = Returns (Some v)).
  { destruct (tid state) eqn:Htid.
    - apply (Hgen state). exact H.
    - destruct (search_tid_by_hash helper hash) as [[info |] |].
      + destruct (truthy (info_tid info)); eapply Hgen; exact H.
      + eapply Hgen; exact H.
      + discriminate H. }
  destruct Hv as [Hpos [t Ht]]. split; [assumption |].
  exists mgr, helper, t. repeat split; assumption.
Qed.

Lemma qb_method_yield (client : Client) (hash : string) :
  qb_method client hash
  = match qb_yield client hash with
    | Some v => if (0 <? v) && (v <? 86400) then Some v else None
    | None => None
    end.
Proof.
  unfold qb_method, qb_yield.
  destruct (torrents_properties client hash) as [[v |] |]; reflexivity.
Qed.

(** Method 1 returns the value the site path yields when it is
    positive, and falls through otherwise. *)
Lemma site_method_yield (env : Env) (hash tracker : string)
    (state : TorrentLimitState.t) :
  snd (site_method env hash tracker state)
  = match site_yield env hash tracker state with
    | Some v => if 0 <? v then Some v else None
    | None => None
    end.
Proof.
  unfold site_method, site_yield, site_tid.
  destruct (site_helper_manager env) as [mgr |]; [| reflexivity].
  destruct (PT_HELPER_AVAILABLE env); [| reflexivity].
  destruct (get_helper_by_tracker mgr tracker) as [[helper |] |];
    try reflexivity.
  destruct (helper_enabled helper); [| reflexivity].
  destruct (tid state) as [t0 |] eqn:Htid.
  - rewrite Htid. destruct (truthy (Some t0)); [| reflexivity].
    destruct (get_reannounce_time helper t0) as [[v |] |]; try reflexivity.
    destruct (0 <? v); reflexivity.
  - destruct (search_tid_by_hash helper hash) as [[info |] |].
    + destruct (truthy (info_tid info)) eqn:Ht.
      * cbn [tid set_site_id set_tid].
        destruct (info_tid info) as [t1 |]; [| discriminate Ht].
        rewrite Ht.
        destruct (get_reannounce_time helper t1) as [[v |] |];
          try reflexivity.
        destruct (0 <? v); reflexivity.
      * rewrite Htid. reflexivity.
    + rewrite Htid. reflexivity.
    + reflexivity.
Qed.

(** C3. The precedence of the oracle: a positive value of the site
    scraper path is returned with source [site] and [reannounce_time]
    untouched; else a client value strictly inside [(0, 86400)] is
    returned with source [qb_api] and [reannounce_time] becomes
    [now + value]; else, with [reannounce_time > 0], the result is
    [max(0, reannounce_time - now)] with source [estimated]; else it is
    [cached_time_left] with source [cached]. *)
Theorem oracle_precedence (env : Env) (client : Client)
    (hash tracker : string) (state : TorrentLimitState.t) (stats : Stats)
    (now : Q) :
  let site := site_yield env hash tracker state in
  let qb := qb_yield client hash in
  let result := _get_reannounce_time env client hash tracker state stats now in
  let state' := fst (fst result) in
  let time_left := fst (snd result) in
  let source := snd (snd result) in
  let fallback :=
    if 0 <? reannounce_time state
    then time_left == Qmax 0 (reannounce_time state - now)
         /\ source = src_estimated
         /\ reannounce_time state' = reannounce_time state
    else time_left = cached_time_left state
         /\ source = src_cached
         /\ reannounce_time state' = reannounce_time state in
  let client_path :=
    match qb with
    | Some v =>
      if (0 <? v) && (v <? 86400)
      then time_left = v /\ source = src_qb_api
           /\ reannounce_time state' = now + v
      else fallback
    | None => fallback
    end in
  match site with
  | Some v =>
    if 0 <? v
    then time_left = v /\ source = src_site
         /\ reannounce_time state' = reannounce_time state
    else client_path
  | None => client_path
  end.
Proof.
  intros site qb result state' time_left source fallback client_path.
  pose proof (site_method_state env hash tracker state) as Hst.
  assert (Hrt : reannounce_time (fst (site_method env hash tracker state))
                = reannounce_time state).
  { destruct Hst as [-> | (a & b & ->)]; reflexivity. }
  assert (Hct : cached_time_left (fst (site_method env hash tracker state))
                = cached_time_left state).
  { destruct Hst as [-> | (a & b & ->)]; reflexivity. }
  pose proof (site_method_yield env hash tracker state) as Hy.
  fold site in Hy.
  assert (Hclient :
    snd (site_method env hash tracker state) = None -> client_path).
  { intros Hnone. clear Hy.
    subst client_path fallback source time_left state' result.
    unfold _get_reannounce_time.
    destruct (site_method env hash tracker state) as [state1 s1];
      cbn [fst snd] in *. subst s1.
    rewrite qb_method_yield. subst qb.
    set (fb := if 0 <? reannounce_time state1 then _ else _).
    assert (Hfall :
      if 0 <? reannounce_time state
      then fst (snd fb) == Qmax 0 (reannounce_time state - now)
           /\ snd (snd fb) = src_estimated
           /\ reannounce_time (fst (fst fb)) = reannounce_time state
      else fst (snd fb) = cached_time_left state
           /\ snd (snd fb) = src_cached
           /\ reannounce_time (fst (fst fb)) = reannounce_time state).
    { subst fb. rewrite Hrt.
      destruct (0 <? reannounce_time state); cbn [fst snd].
      - split; [apply py_max_Qmax |]. split; [reflexivity | exact Hrt].
      - split; [reflexivity |]. split; [reflexivity | exact Hrt]. }
    destruct (qb_yield client hash) as [v |]; [| exact Hfall].
    destruct ((0 <? v) && (v <? 86400)); [| exact Hfall].
    cbn [fst snd reannounce_time set_reannounce_time].
    repeat split; reflexivity. }
  destruct site as [v |]; [| now apply Hclient].
  destruct (0 <? v); [| now apply Hclient].
  clear Hclient.
  subst client_path fallback source time_left state' result.
  unfold _get_reannounce_time.
  destruct (site_method env hash tracker state) as [state1 s1];
    cbn [fst snd] in *. subst s1.
  repeat split; assumption.
Qed.

(* ------------------------------------------------------------------ *)
(** ** What a tick leaves untouched *)

Lemma get_reannounce_time_frame (env : Env) (client : Client)
    (h trk : string) (state : TorrentLimitState.t) (stats : Stats)
    (now : Q) :
  oracle_frame state
    (fst (fst (_get_reannounce_time env client h trk state stats now))).
Proof.
  unfold _get_reannounce_time.
  pose proof (site_method_state env h trk state) as Hst.
  destruct (site_method env h trk state) as [state1 site].
  cbn [fst] in Hst.
  assert (Hf : oracle_frame state state1).
  { destruct Hst as [-> | (a & b & ->)]; repeat split. }
  destruct site as [v |]; [exact Hf |].
  destruct (qb_method client h) as [v |].
  - cbn [fst]. unfold oracle_frame in *.
    cbn [set_reannounce_time hash name tracker instance_id cycle_start
         cycle_uploaded_start cycle_index cycle_synced cached_time_left
         reannounce_source target_speed last_limit last_limit_reason pid
         kalman last_log_time].
    exact Hf.
  - destruct (0 <? reannounce_time state1); exact Hf.
Qed.

(** [_calculate_limit] writes the PID and nothing else. *)
Lemma calculate_limit_state (state : TorrentLimitState.t)
    (current_uploaded : Z) (now time_left : Q) :
  exists p,
    fst (_calculate_limit state current_uploaded now time_left)
    = set_pid p state.
Proof.
  unfold _calculate_limit.
  destruct (time_left <=? 0).
  - eexists. reflexivity.
  - destruct (PIDController.update _ _ _ _) as [pid1 out].
    destruct (get_phase state now);
      repeat match goal with
             | |- context [if ?b then _ else _] => destruct b
             end;
      eexists; reflexivity.
Qed.

(** The state a tick starts from. *)
Lemma state_for_lookup (self : PrecisionLimitEngine.t) (instance_id : Z)
    (torrent : Torrent) (rule : SpeedRule) (now : Q)
    (st : TorrentLimitState.t) :
  PrecisionLimitEngine._states self !! t_hash torrent = Some st ->
  PrecisionLimitEngine.state_for self instance_id torrent rule now = st.
Proof. intros H. unfold PrecisionLimitEngine.state_for. now rewrite H. Qed.

(** The state of the torrent after [_process_torrent] is in the table. *)
Lemma process_torrent_lookup (env : Env) (self : PrecisionLimitEngine.t)
    (instance_id : Z) (client : Client) (torrent : Torrent)
    (rule : SpeedRule) (now : Q) :
  is_Some
    (PrecisionLimitEngine._states
       (fst (fst (PrecisionLimitEngine._process_torrent env self instance_id
                    client torrent rule now)))
     !! t_hash torrent).
Proof.
  unfold PrecisionLimitEngine._process_torrent.
  destruct (PrecisionLimitEngine.compute_limit _ _ _ _ _ _ _)
    as [[state stats] [[new_limit reason] |]].
  - destruct (PrecisionLimitEngine.apply_limit _ _ _ _ _ _) as [state1 calls].
    cbn. rewrite lookup_insert_eq. eauto.
  - cbn. rewrite lookup_insert_eq. eauto.
Qed.

(** The cycle fields across the first part of a tick: they move only at
    a detected cycle jump, and the time left of the tick ends up in
    [cached_time_left]. *)
Lemma compute_limit_cycle (env : Env) (self : PrecisionLimitEngine.t)
    (instance_id : Z) (client : Client) (torrent : Torrent)
    (rule : SpeedRule) (now : Q) :
  let st := PrecisionLimitEngine.state_for self instance_id torrent rule now in
  let result :=
    PrecisionLimitEngine.compute_limit env self instance_id client torrent
      rule now in
  let st' := fst (fst result) in
  if cycle_synced st && (cached_time_left st + 30 <? cached_time_left st')
  then cycle_index st' = (cycle_index st + 1)%Z
       /\ cycle_start st' = now
       /\ cycle_uploaded_start st' = default 0%Z (t_uploaded torrent)
  else cycle_index st' = cycle_index st
       /\ cycle_start st' = cycle_start st
       /\ cycle_uploaded_start st' = cycle_uploaded_start st.
Proof.
  intros st result st'. subst st' result.
  unfold PrecisionLimitEngine.compute_limit. fold st.
  destruct (KalmanFilter.update _ _ _) as [kalman1 raised].
  destruct raised.
  - cbn [fst cycle_synced cached_time_left cycle_index cycle_start
         cycle_uploaded_start set_kalman set_instance_id set_tracker
         set_target_speed].
    assert (Hno : (cached_time_left st + 30 <? cached_time_left st) = false).
    { apply ltb_ge. lra. }
    rewrite Hno, andb_false_r. repeat split.
  - match goal with
    | |- context [_get_reannounce_time ?e ?c ?h ?t ?s ?k ?n] =>
      pose proof (get_reannounce_time_frame e c h t s k n) as Hf;
      destruct (_get_reannounce_time e c h t s k n)
        as [[st2 stats2] [time_left source]]
    end.
    cbn [fst] in Hf.
    destruct Hf as (_ & _ & _ & _ & Hcs & Hcu & Hci & Hsy & Hct & _).
    cbn [cycle_synced cached_time_left cycle_index cycle_start
         cycle_uploaded_start set_kalman set_instance_id set_tracker
         set_target_speed set_reannounce_source] in *.
    match goal with
    | |- context [_calculate_limit ?s ?u ?n ?t] =>
      destruct (calculate_limit_state s u n t) as [p Hp];
      destruct (_calculate_limit s u n t) as [st3 limit_reason]
    end.
    cbn [fst] in Hp. subst st3. cbn [fst].
    destruct (cycle_synced st) eqn:Hsynced;
      destruct (cached_time_left st + 30 <? time_left) eqn:Hjump;
      destruct (0 <? time_left) eqn:Hpos;
      repeat (progress (state_simpl;
                        rewrite ?Hsy, ?Hct, ?Hci, ?Hcs, ?Hcu, ?Hsynced,
                          ?Hjump, ?Hpos));
      repeat split.
Qed.

(** [apply_limit] writes [last_limit] and [last_limit_reason], or
    nothing. *)
Lemma apply_limit_state (env : Env) (instance_id : Z) (h : string)
    (state : TorrentLimitState.t) (new_limit : Z) (reason : Reason) :
  fst (PrecisionLimitEngine.apply_limit env instance_id h state new_limit reason)
  = state
  \/ fst (PrecisionLimitEngine.apply_limit env instance_id h state new_limit
            reason)
     = set_last_limit_reason reason (set_last_limit new_limit state).
Proof.
  unfold PrecisionLimitEngine.apply_limit.
  destruct (negb (new_limit =? last_limit state)%Z); [| now left].
  destruct (set_upload_limit _ _ _ _); [now right | now left].
Qed.

(** The state of the torrent in the table after [_process_torrent]: the
    state [compute_limit] ends with, up to [last_limit],
    [last_limit_reason] and [last_log_time]. *)
Lemma process_torrent_state (env : Env) (self : PrecisionLimitEngine.t)
    (instance_id : Z) (client : Client) (torrent : Torrent)
    (rule : SpeedRule) (now : Q) :
  let st1 :=
    fst (fst (PrecisionLimitEngine.compute_limit env self instance_id client
                torrent rule now)) in
  exists st',
    PrecisionLimitEngine._states
      (fst (fst (PrecisionLimitEngine._process_torrent env self instance_id
                   client torrent rule now)))
    !! t_hash torrent = Some st'
    /\ cycle_index st' = cycle_index st1
    /\ cycle_start st' = cycle_start st1
    /\ cycle_uploaded_start st' = cycle_uploaded_start st1
    /\ cycle_synced st' = cycle_synced st1
    /\ cached_time_left st' = cached_time_left st1
    /\ reannounce_source st' = reannounce_source st1
    /\ pid st' = pid st1.
Proof.
  intros st1. subst st1. unfold PrecisionLimitEngine._process_torrent.
  destruct (PrecisionLimitEngine.compute_limit _ _ _ _ _ _ _)
    as [[state stats] [[new_limit reason] |]]; cbn [fst].
  - pose proof (apply_limit_state env instance_id (t_hash torrent) state
                  new_limit reason) as Ha.
    destruct (PrecisionLimitEngine.apply_limit _ _ _ _ _ _) as [state1 calls].
    cbn [fst] in Ha. eexists. cbn. rewrite lookup_insert_eq.
    split; [reflexivity |].
    destruct (LimitConfig.LOG_INTERVAL <? now - last_log_time state1);
      destruct Ha as [-> | ->]; repeat split.
  - eexists. cbn. rewrite lookup_insert_eq. repeat split.
Qed.

(** The pair the oracle returns, by the outcome of its two methods. *)
Lemma get_reannounce_time_answer (env : Env) (client : Client)
    (h trk : string) (state : TorrentLimitState.t) (stats : Stats)
    (now : Q) :
  snd (_get_reannounce_time env client h trk state stats now)
  = match snd (site_method env h trk state) with
    | Some v => (v, src_site)
    | None =>
      match qb_method client h with
      | Some v => (v, src_qb_api)
      | None =>
        if 0 <? reannounce_time state
        then (Py.max 0 (reannounce_time state - now), src_estimated)
        else (cached_time_left state, src_cached)
      end
    end.
Proof.
  unfold _get_reannounce_time.
  pose proof (site_method_state env h trk state) as Hst.
  destruct (site_method env h trk state) as [state1 site].
  cbn [fst snd] in *.
  assert (Hrt : reannounce_time state1 = reannounce_time state).
  { destruct Hst as [-> | (a & b & ->)]; reflexivity. }
  destruct site as [v |]; [reflexivity |].
  destruct (qb_method client h) as [v |]; [reflexivity |].
  rewrite Hrt. destruct (0 <? reannounce_time state); reflexivity.
Qed.

(** The oracle reads [tid], [reannounce_time] and [cached_time_left] of
    the state, and the counters not at all: its answer is the same for
    two states that agree on these fields. *)
Lemma get_reannounce_time_reads (env : Env) (client : Client)
    (h trk : string) (s s' : TorrentLimitState.t) (stats stats' : Stats)
    (now : Q) :
  tid s = tid s' ->
  reannounce_time s = reannounce_time s' ->
  cached_time_left s = cached_time_left s' ->
  snd (_get_reannounce_time env client h trk s stats now)
  = snd (_get_reannounce_time env client h trk s' stats' now).
Proof.
  intros Htid Hrt Hct.
  rewrite !get_reannounce_time_answer, !site_method_yield.
  assert (Hy : site_yield env h trk s = site_yield env h trk s').
  { unfold site_yield, site_tid. rewrite Htid. reflexivity. }
  rewrite Hy, Hrt, Hct. reflexivity.
Qed.

(** The cycle fields across the first part of a tick, by the answer of
    the oracle for the state the tick starts from: when the Kalman update
    raised they are untouched; otherwise the answer ends up in
    [cached_time_left] and the fields move exactly at a detected jump. *)
Lemma compute_limit_jump (env : Env) (self : PrecisionLimitEngine.t)
    (instance_id : Z) (client : Client) (torrent : Torrent)
    (rule : SpeedRule) (now : Q) :
  let st := PrecisionLimitEngine.state_for self instance_id torrent rule now in
  let result :=
    PrecisionLimitEngine.compute_limit env self instance_id client torrent
      rule now in
  let st' := fst (fst result) in
  let time_left :=
    fst (snd (_get_reannounce_time env client (t_hash torrent)
                (default "" (t_tracker torrent)) st
                (PrecisionLimitEngine._stats self) now)) in
  match snd result with
  | None =>
    cycle_index st' = cycle_index st
    /\ cycle_start st' = cycle_start st
    /\ cycle_uploaded_start st' = cycle_uploaded_start st
  | Some _ =>
    cached_time_left st' = time_left
    /\ if cycle_synced st && (cached_time_left st + 30 <? time_left)
       then cycle_index st' = (cycle_index st + 1)%Z
            /\ cycle_start st' = now
            /\ cycle_uploaded_start st' = default 0%Z (t_uploaded torrent)
       else cycle_index st' = cycle_index st
            /\ cycle_start st' = cycle_start st
            /\ cycle_uploaded_start st' = cycle_uploaded_start st
  end.
Proof.
  intros st result st' answer. subst st' result.
  unfold PrecisionLimitEngine.compute_limit. fold st.
  destruct (KalmanFilter.update _ _ _) as [kalman1 raised].
  destruct raised.
  - cbn [fst snd]. repeat split.
  - match goal with
    | |- context [_get_reannounce_time ?e ?c ?h ?t ?s ?k ?n] =>
      pose proof (get_reannounce_time_frame e c h t s k n) as Hf;
      pose proof (get_reannounce_time_reads e c h t s st k k n
                    eq_refl eq_refl eq_refl) as Hans;
      destruct (_get_reannounce_time e c h t s k n)
        as [[st2 stats2] [time_left source]]
    end.
    subst answer. cbn [fst snd] in Hf, Hans. rewrite <- Hans. cbn [fst snd].
    destruct Hf as (_ & _ & _ & _ & Hcs & Hcu & Hci & Hsy & Hct & _).
    cbn [cycle_synced cached_time_left cycle_index cycle_start
         cycle_uploaded_start set_kalman set_instance_id set_tracker
         set_target_speed set_reannounce_source] in *.
    match goal with
    | |- context [_calculate_limit ?s ?u ?n ?t] =>
      destruct (calculate_limit_state s u n t) as [p Hp];
      destruct (_calculate_limit s u n t) as [st3 limit_reason]
    end.
    cbn [fst] in Hp. subst st3. cbn [fst snd].
    destruct (cycle_synced st) eqn:Hsynced;
      destruct (cached_time_left st + 30 <? time_left) eqn:Hjump;
      destruct (0 <? time_left) eqn:Hpos;
      repeat (progress (state_simpl;
                        rewrite ?Hsy, ?Hct, ?Hci, ?Hcs, ?Hcu, ?Hsynced,
                          ?Hjump, ?Hpos));
      repeat split.
Qed.

(** [_process_torrent] raises exactly when the first part of the tick
    computes no limit. *)
Lemma process_torrent_raised (env : Env) (self : PrecisionLimitEngine.t)
    (instance_id : Z) (client : Client) (torrent : Torrent)
    (rule : SpeedRule) (now : Q) :
  snd (PrecisionLimitEngine._process_torrent env self instance_id client
         torrent rule now)
  = match snd (PrecisionLimitEngine.compute_limit env self instance_id client
                 torrent rule now) with
    | None => true
    | Some _ => false
    end.
Proof.
  unfold PrecisionLimitEngine._process_torrent.
  destruct (PrecisionLimitEngine.compute_limit _ _ _ _ _ _ _)
    as [[state stats] [[new_limit reason] |]]; cbn [snd]; [| reflexivity].
  destruct (PrecisionLimitEngine.apply_limit _ _ _ _ _ _); reflexivity.
Qed.

(* ------------------------------------------------------------------ *)
(** ** Cycle anchoring *)

(** C1 as stated fails: after a tick that observes an uploaded count (500)
    below [cycle_uploaded_start] (1000000), [cycle_uploaded_start] is still
    above the reported count and neither [cycle_index] nor [cycle_start]
    has moved. *)
Lemma lower_upload_does_not_reset :
  (cycle_uploaded_start <$> Sample.state_of Restart.first_tick
     = Some 1000000%Z)
  /\ (cycle_index <$> Sample.state_of Restart.first_tick = Some 0%Z)
  /\ (cycle_uploaded_start <$> Sample.state_of Restart.second_tick
      = Some 1000000%Z)
  /\ (500 < 1000000)%Z
  /\ (cycle_index <$> Sample.state_of Restart.second_tick = Some 0%Z)
  /\ (cycle_start <$> Sample.state_of Restart.second_tick = Some 1000)
  /\ snd Restart.second_tick = false.
Proof. repeat split; vm_compute; reflexivity. Qed.

(** C1, amended.  On a tick over a tracked torrent the time left of the
    tick is the answer of the reannounce oracle for the tracked state; the
    tick keeps it in [cached_time_left].  The cycle is re-anchored exactly
    when a cycle jump is detected -- the state is synced and that time
    left exceeds the previous [cached_time_left] by more than 30 s -- and
    then [cycle_index] grows by one, [cycle_start] is [now] and
    [cycle_uploaded_start] is the reported count; otherwise, and on a
    tick that raises before it asks the oracle, the three fields keep their
    values, whatever the reported count is.  The bytes of the cycle are
    read as [max(0, uploaded - cycle_uploaded_start)]. *)
Theorem cycle_reanchored_on_jump_only (env : Env)
    (self : PrecisionLimitEngine.t) (instance_id : Z) (client : Client)
    (torrent : Torrent) (rule : SpeedRule) (now : Q)
    (st : TorrentLimitState.t) :
  PrecisionLimitEngine._states self !! t_hash torrent = Some st ->
  let uploaded := default 0%Z (t_uploaded torrent) in
  let result :=
    PrecisionLimitEngine._process_torrent env self instance_id client torrent
      rule now in
  let time_left :=
    fst (snd (_get_reannounce_time env client (t_hash torrent)
                (default "" (t_tracker torrent)) st
                (PrecisionLimitEngine._stats self) now)) in
  exists st',
    PrecisionLimitEngine._states (fst (fst result)) !! t_hash torrent
    = Some st'
    /\ (if snd result
        then cycle_index st' = cycle_index st
             /\ cycle_start st' = cycle_start st
             /\ cycle_uploaded_start st' = cycle_uploaded_start st
        else cached_time_left st' = time_left
             /\ if cycle_synced st && (cached_time_left st + 30 <? time_left)
                then cycle_index st' = (cycle_index st + 1)%Z
                     /\ cycle_start st' = now
                     /\ cycle_uploaded_start st' = uploaded
                else cycle_index st' = cycle_index st
                     /\ cycle_start st' = cycle_start st
                     /\ cycle_uploaded_start st' = cycle_uploaded_start st)
    /\ get_cycle_uploaded st' uploaded
       = Z.max 0 (uploaded - cycle_uploaded_start st').
Proof.
  intros Hst uploaded result time_left. subst result time_left.
  destruct (process_torrent_state env self instance_id client torrent rule now)
    as (st' & Hlook & Hci & Hcs & Hcu & _ & Hct & _).
  pose proof (compute_limit_jump env self instance_id client torrent rule now)
    as Hjump.
  cbn zeta in Hjump.
  rewrite (state_for_lookup self instance_id torrent rule now st Hst) in Hjump.
  rewrite process_torrent_raised.
  exists st'. split; [exact Hlook |]. split.
  - rewrite Hct, Hci, Hcs, Hcu.
    destruct (snd (PrecisionLimitEngine.compute_limit env self instance_id
                     client torrent rule now)); exact Hjump.
  - unfold get_cycle_uploaded. apply zmax_max.
Qed.

Lemma cycle_reanchored_on_jump_only_witness :
  let env := Sample.env_qb (Returns (Some 1495)) in
  let client := Sample.client (Returns (Some 1495)) in
  let torrent := Sample.torrent 500 0 in
  let st := Tracked.state in
  let uploaded := default 0%Z (t_uploaded torrent) in
  let result :=
    PrecisionLimitEngine._process_torrent env Tracked.engine 1 client torrent
      Sample.rule 1005 in
  let time_left :=
    fst (snd (_get_reannounce_time env client (t_hash torrent)
                (default "" (t_tracker torrent)) st
                (PrecisionLimitEngine._stats Tracked.engine) 1005)) in
  exists st',
    PrecisionLimitEngine._states (fst (fst result)) !! t_hash torrent
    = Some st'
    /\ (if snd result
        then cycle_index st' = cycle_index st
             /\ cycle_start st' = cycle_start st
             /\ cycle_uploaded_start st' = cycle_uploaded_start st
        else cached_time_left st' = time_left
             /\ if cycle_synced st && (cached_time_left st + 30 <? time_left)
                then cycle_index st' = (cycle_index st + 1)%Z
                     /\ cycle_start st' = 1005
                     /\ cycle_uploaded_start st' = uploaded
                else cycle_index st' = cycle_index st
                     /\ cycle_start st' = cycle_start st
                     /\ cycle_uploaded_start st' = cycle_uploaded_start st)
    /\ get_cycle_uploaded st' uploaded
       = Z.max 0 (uploaded - cycle_uploaded_start st').
Proof.
  intros env client torrent st.
  apply (cycle_reanchored_on_jump_only env Tracked.engine 1 client torrent
           Sample.rule 1005 st).
  reflexivity.
Defined.

(* ------------------------------------------------------------------ *)
(** ** The phase of a tick *)

(** The phase [_calculate_limit] sets on the PID is the one of
    [state.get_phase(now)]: it is derived from the state's
    [reannounce_time] (or [cached_time_left]), not from the [time_left]
    argument. *)
Lemma calculate_limit_phase (state : TorrentLimitState.t)
    (current_uploaded : Z) (now time_left : Q) :
  PIDController.phase
    (pid (fst (_calculate_limit state current_uploaded now time_left)))
  = TorrentLimitState.get_phase state now.
Proof.
  assert (Hset : forall c p,
    PIDController.phase (PIDController.set_phase c p) = p).
  { intros c p. unfold PIDController.set_phase.
    destruct (Phase_eqb p (PIDController.phase c)) eqn:E; cbn; [| reflexivity].
    apply Phase_eqb_eq in E. now symmetry. }
  unfold _calculate_limit.
  destruct (time_left <=? 0).
  - cbn [fst pid set_pid]. apply Hset.
  - assert (Hup : forall c a b n,
      PIDController.phase (fst (PIDController.update c a b n))
      = PIDController.phase c) by reflexivity.
    match goal with
    | |- context [PIDController.update ?c ?a ?b ?n] =>
      specialize (Hup c a b n);
      destruct (PIDController.update c a b n) as [pid1 out]
    end.
    cbn [fst pid set_pid] in Hup. rewrite Hset in Hup.
    destruct (get_phase state now) eqn:Hph;
      repeat match goal with
             | |- context [if ?b then _ else _] => destruct b
             end;
      cbn [fst pid set_pid]; exact Hup.
Qed.

(** Where the two readings of the time left agree: with no
    [reannounce_time] the state's phase is the module-level
    [get_phase] of [cached_time_left], which a tick has just set to the
    oracle's value. *)
Lemma state_phase_without_reannounce_time (state : TorrentLimitState.t)
    (now : Q) :
  (0 <? reannounce_time state) = false ->
  TorrentLimitState.get_phase state now
  = Util.get_phase (cached_time_left state) (cycle_synced state).
Proof.
  intros H. unfold TorrentLimitState.get_phase, Util.get_phase. rewrite H.
  destruct (cycle_synced state); reflexivity.
Qed.

(** The module-level [get_phase] does not tell equal rationals apart, and
    does not see the [max(0, .)] of an estimate, its thresholds being
    positive. *)
Lemma get_phase_Qeq (x y : Q) (synced : bool) :
  x == y -> Util.get_phase x synced = Util.get_phase y synced.
Proof.
  intros Hxy. unfold Util.get_phase, Py.leb.
  rewrite (Qleb_comp x y Hxy _ _ (Qeq_refl LimitConfig.FINISH_TIME)).
  rewrite (Qleb_comp x y Hxy _ _ (Qeq_refl LimitConfig.STEADY_TIME)).
  reflexivity.
Qed.

Lemma get_phase_max_0 (x : Q) (synced : bool) :
  Util.get_phase (Py.max 0 x) synced = Util.get_phase x synced.
Proof.
  unfold Py.max. destruct (ltb_reflect 0 x) as [Hpos | Hneg]; [reflexivity |].
  unfold Util.get_phase, LimitConfig.FINISH_TIME.
  destruct (negb synced); [reflexivity |].
  destruct (leb_reflect 0 30) as [_ | H]; [| lra].
  destruct (leb_reflect x 30) as [_ | H]; [reflexivity | lra].
Qed.

(** What the oracle leaves in the state, by source. *)
Lemma get_reannounce_time_cases (env : Env) (client : Client)
    (h trk : string) (state : TorrentLimitState.t) (stats : Stats) (now : Q) :
  let result := _get_reannounce_time env client h trk state stats now in
  let st := fst (fst result) in
  let time_left := fst (snd result) in
  let source := snd (snd result) in
  source = src_site
  \/ (source = src_qb_api /\ reannounce_time st = now + time_left)
  \/ (source = src_estimated /\ (0 <? reannounce_time st) = true
      /\ time_left = Py.max 0 (reannounce_time st - now))
  \/ (source = src_cached /\ (0 <? reannounce_time st) = false
      /\ time_left = cached_time_left state).
Proof.
  unfold _get_reannounce_time.
  destruct (site_method env h trk state) as [state1 [v |]];
    [now left |].
  destruct (qb_method client h) as [v |];
    [right; left; split; reflexivity |].
  destruct (0 <? reannounce_time state1) eqn:Hrt; cbn [fst snd].
  - right; right; left. repeat split. exact Hrt.
  - right; right; right. repeat split. exact Hrt.
Qed.

(** Off the site path the phase of a tick is the module-level
    [get_phase] of the oracle's time left (kept in [cached_time_left]). *)
Lemma tick_phase_off_site_path (env : Env) (self : PrecisionLimitEngine.t)
    (instance_id : Z) (client : Client) (torrent : Torrent)
    (rule : SpeedRule) (now : Q) :
  let result :=
    PrecisionLimitEngine.compute_limit env self instance_id client torrent
      rule now in
  let st' := fst (fst result) in
  is_Some (snd result) ->
  reannounce_source st' <> src_site ->
  PIDController.phase (pid st')
  = Util.get_phase (cached_time_left st') (cycle_synced st').
Proof.
  intros result st'. subst st' result.
  unfold PrecisionLimitEngine.compute_limit.
  destruct (KalmanFilter.update _ _ _) as [kalman1 raised].
  destruct raised; [intros [x Hx]; discriminate Hx | intros _].
  match goal with
  | |- context [_get_reannounce_time ?e ?c ?h ?t ?s ?k ?n] =>
    pose proof (get_reannounce_time_cases e c h t s k n) as Hcases;
    pose proof (get_reannounce_time_frame e c h t s k n) as Hf;
    destruct (_get_reannounce_time e c h t s k n)
      as [[st2 stats2] [time_left source]]
  end.
  cbn [fst snd] in Hcases, Hf.
  destruct Hf as (_ & _ & _ & _ & _ & _ & _ & Hsy & Hct & _).
  match goal with
  | |- context [_calculate_limit ?s ?u ?n ?t] =>
    pose proof (calculate_limit_phase s u n t) as Hph;
    destruct (calculate_limit_state s u n t) as [p Hp];
    destruct (_calculate_limit s u n t) as [st3 limit_reason]
  end.
  cbn [fst] in Hp, Hph. subst st3. cbn [fst]. rewrite Hph. clear Hph.
  intros Hsrc.
  assert (Hne : source <> src_site).
  { intros ->. apply Hsrc.
    repeat match goal with
           | |- context [if ?b then _ else _] => destruct b
           end; reflexivity. }
  clear Hsrc. state_simpl.
  assert (Hest : forall synced,
    Util.get_phase (Py.max 0 (now + time_left - now)) synced
    = Util.get_phase time_left synced).
  { intros synced. rewrite get_phase_max_0. apply get_phase_Qeq. ring. }
  unfold TorrentLimitState.get_phase.
  destruct (cycle_synced st2) eqn:Hsynced; cbn [andb negb].
  - destruct (cached_time_left st2 + 30 <? time_left) eqn:Hjump;
      repeat (progress (state_simpl; rewrite ?Hsynced)).
    + destruct (0 <? now + time_left); [apply Hest | reflexivity].
    + destruct Hcases as [Hs | [[Hs Hrt] | [(Hs & Hrt & Htl) | (Hs & Hrt & Htl)]]].
      * contradiction.
      * rewrite Hrt.
        destruct (0 <? now + time_left); [apply Hest | reflexivity].
      * rewrite Hrt, <- Htl. reflexivity.
      * rewrite Hrt. reflexivity.
  - destruct (0 <? time_left) eqn:Hpos;
      repeat (progress (state_simpl; rewrite ?Hsynced)); [| reflexivity].
    destruct Hcases as [Hs | [[Hs Hrt] | [(Hs & Hrt & Htl) | (Hs & Hrt & Htl)]]].
    + contradiction.
    + rewrite Hrt.
      destruct (0 <? now + time_left); [apply Hest | reflexivity].
    + rewrite Hrt, <- Htl. reflexivity.
    + rewrite Hrt. reflexivity.
Qed.

(** C2, at the failing input.  The oracle of the second tick returns
    119 s from the site, for which the phase is [steady]; the phase set on
    the PID and used for the limit is [catch], read from the
    [reannounce_time] the client path left at 1130 (125 s ahead). *)
Theorem phase_from_stale_reannounce_time :
  (reannounce_time <$> Sample.state_of StaleEstimate.first_tick = Some 1130)
  /\ (reannounce_source <$> Sample.state_of StaleEstimate.second_tick
      = Some src_site)
  /\ (cached_time_left <$> Sample.state_of StaleEstimate.second_tick
      = Some 119)
  /\ (cycle_synced <$> Sample.state_of StaleEstimate.second_tick = Some true)
  /\ Util.get_phase 119 true = steady
  /\ (PIDController.phase <$>
        (pid <$> Sample.state_of StaleEstimate.second_tick) = Some catch)
  /\ (last_limit_reason <$> Sample.state_of StaleEstimate.second_tick
      = Some (reason_catch 1062 src_site)).
Proof. repeat split; vm_compute; reflexivity. Qed.

(* ------------------------------------------------------------------ *)
(** ** Idempotence of the applied limit *)

(** The first part of a tick never writes [hash], [last_limit] and
    [last_limit_reason]. *)
Lemma compute_limit_last_limit (env : Env) (self : PrecisionLimitEngine.t)
    (instance_id : Z) (client : Client) (torrent : Torrent)
    (rule : SpeedRule) (now : Q) :
  let st := PrecisionLimitEngine.state_for self instance_id torrent rule now in
  let st' :=
    fst (fst (PrecisionLimitEngine.compute_limit env self instance_id client
                torrent rule now)) in
  TorrentLimitState.hash st' = TorrentLimitState.hash st
  /\ last_limit st' = last_limit st
  /\ last_limit_reason st' = last_limit_reason st.
Proof.
  intros st st'. subst st'.
  unfold PrecisionLimitEngine.compute_limit. fold st.
  destruct (KalmanFilter.update _ _ _) as [kalman1 raised].
  destruct raised; [repeat split |].
  match goal with
  | |- context [_get_reannounce_time ?e ?c ?h ?t ?s ?k ?n] =>
    pose proof (get_reannounce_time_frame e c h t s k n) as Hf;
    destruct (_get_reannounce_time e c h t s k n)
      as [[st2 stats2] [time_left source]]
  end.
  cbn [fst] in Hf.
  destruct Hf as (Hh & _ & _ & _ & _ & _ & _ & _ & _ & _ & _ & Hll & Hlr & _).
  state_simpl.
  match goal with
  | |- context [_calculate_limit ?s ?u ?n ?t] =>
    destruct (calculate_limit_state s u n t) as [p Hp];
    destruct (_calculate_limit s u n t) as [st3 limit_reason]
  end.
  cbn [fst] in Hp. subst st3. cbn [fst].
  repeat match goal with
         | |- context [if ?b then _ else _] => destruct b
         end;
    state_simpl; rewrite Hh, Hll, Hlr; repeat split.
Qed.

(** One tick that computes [(L, r)]: no call when [last_limit] is already
    [L]; one call, then recorded with its reason, when it is not and the
    RPC succeeds. *)
Lemma tick_applies_limit (instance_id : Z) (self : PrecisionLimitEngine.t)
    (tk : TorrentTick) (L : Z) (r : Reason) :
  computed_limit instance_id self tk = Some (L, r) ->
  let h := t_hash (tt_torrent tk) in
  let st0 :=
    PrecisionLimitEngine.state_for self instance_id (tt_torrent tk)
      (tt_rule tk) (tt_now tk) in
  let result := tick_once instance_id self tk in
  (last_limit st0 = L ->
   snd (fst result) = []
   /\ exists st',
       PrecisionLimitEngine._states (fst (fst result)) !! h = Some st'
       /\ last_limit st' = L
       /\ last_limit_reason st' = last_limit_reason st0)
  /\ (last_limit st0 <> L ->
      set_upload_limit (qb_manager (tt_env tk)) instance_id h L = Returns tt ->
      snd (fst result)
      = [{| call_instance := instance_id; call_hash := h; call_limit := L |}]
      /\ exists st',
          PrecisionLimitEngine._states (fst (fst result)) !! h = Some st'
          /\ last_limit st' = L
          /\ last_limit_reason st' = r).
Proof.
  intros Hc h st0 result. subst result.
  pose proof (compute_limit_last_limit (tt_env tk) self instance_id
                (tt_client tk) (tt_torrent tk) (tt_rule tk) (tt_now tk))
    as (_ & Hll & Hlr).
  fold st0 in Hll, Hlr.
  unfold computed_limit in Hc.
  unfold tick_once, PrecisionLimitEngine._process_torrent.
  destruct (PrecisionLimitEngine.compute_limit _ _ _ _ _ _ _)
    as [[state stats] res].
  cbn [fst snd] in *. subst res.
  unfold PrecisionLimitEngine.apply_limit. fold h.
  split.
  - intros Heq. rewrite Hll, Heq, Z.eqb_refl. cbn [negb fst snd].
    split; [reflexivity |]. eexists. cbn.
    rewrite lookup_insert_eq. split; [reflexivity |].
    destruct (LimitConfig.LOG_INTERVAL <? tt_now tk - last_log_time state);
      state_simpl; rewrite Hll, Hlr; (split; [exact Heq | reflexivity]).
  - intros Hne Hok. rewrite Hll.
    destruct (Z.eqb_spec L (last_limit st0)) as [Heq | _];
      [now symmetry in Heq |].
    cbn [negb]. rewrite Hok. cbn [fst snd].
    split; [reflexivity |]. eexists. cbn.
    rewrite lookup_insert_eq. split; [reflexivity |].
    match goal with
    | |- context [if ?b then _ else _] => destruct b
    end; state_simpl; split; reflexivity.
Qed.

(** Once [last_limit] is [L], further ticks computing [L] issue nothing
    and keep the recorded reason. *)
Lemma run_ticks_at_limit (instance_id : Z) (h : string) (L : Z) (r0 : Reason)
    (rest : list TorrentTick) :
  forall (self : PrecisionLimitEngine.t) (st : TorrentLimitState.t),
  PrecisionLimitEngine._states self !! h = Some st ->
  last_limit st = L ->
  last_limit_reason st = r0 ->
  Forall (fun t => t_hash (tt_torrent t) = h) rest ->
  Forall (fun c => fst <$> c = Some L) (computed_limits instance_id self rest) ->
  snd (run_ticks instance_id self rest) = []
  /\ exists st',
      PrecisionLimitEngine._states (fst (run_ticks instance_id self rest)) !! h
      = Some st'
      /\ last_limit st' = L
      /\ last_limit_reason st' = r0.
Proof.
  induction rest as [| tk rest IH]; intros self st Hlook HL Hr Hh Hc.
  - cbn. split; [reflexivity |]. now exists st.
  - apply Forall_cons in Hh as [Hhk Hh].
    cbn [computed_limits] in Hc. apply Forall_cons in Hc as [Hck Hc].
    destruct (computed_limit instance_id self tk) as [[L' r] |] eqn:Ecl;
      [| discriminate Hck].
    cbn in Hck. injection Hck as ->.
    destruct (tick_applies_limit instance_id self tk L r Ecl) as [Hsame _].
    rewrite Hhk in Hsame.
    assert (Hst0 : PrecisionLimitEngine.state_for self instance_id
                     (tt_torrent tk) (tt_rule tk) (tt_now tk) = st).
    { apply state_for_lookup. now rewrite Hhk. }
    rewrite Hst0 in Hsame.
    destruct (Hsame HL) as [Hcalls (st1 & Hlook1 & HL1 & Hr1)].
    rewrite Hr in Hr1.
    destruct (IH _ st1 Hlook1 HL1 Hr1 Hh Hc) as [Hcalls2 Hfinal].
    cbn [run_ticks].
    destruct (run_ticks instance_id (fst (fst (tick_once instance_id self tk)))
                rest) as [self2 calls2].
    cbn [fst snd] in *. rewrite Hcalls, Hcalls2. split; [reflexivity |].
    exact Hfinal.
Qed.

(** C5. Ticks on one torrent that all compute the limit [L]: when
    [last_limit] is [L] already no [set_upload_limit] is issued; when it is
    not (and that RPC succeeds) exactly one is issued, by the first tick,
    and [last_limit], [last_limit_reason] hold [L] and the reason of that
    tick from then on. *)
Theorem same_limit_issued_once (instance_id : Z)
    (self : PrecisionLimitEngine.t) (tk : TorrentTick)
    (rest : list TorrentTick) (L : Z) (reason0 : Reason) :
  let h := t_hash (tt_torrent tk) in
  let st0 :=
    PrecisionLimitEngine.state_for self instance_id (tt_torrent tk)
      (tt_rule tk) (tt_now tk) in
  Forall (fun t => t_hash (tt_torrent t) = h) rest ->
  computed_limit instance_id self tk = Some (L, reason0) ->
  Forall (fun c => fst <$> c = Some L)
    (computed_limits instance_id self (tk :: rest)) ->
  (last_limit st0 <> L ->
   set_upload_limit (qb_manager (tt_env tk)) instance_id h L = Returns tt) ->
  let result := run_ticks instance_id self (tk :: rest) in
  snd result
  = (if decide (last_limit st0 = L) then []
     else [{| call_instance := instance_id; call_hash := h; call_limit := L |}])
  /\ exists st',
      PrecisionLimitEngine._states (fst result) !! h = Some st'
      /\ last_limit st' = L
      /\ last_limit_reason st'
         = (if decide (last_limit st0 = L) then last_limit_reason st0
            else reason0).
Proof.
  intros h st0 Hh Hfirst Hall Hok result. subst result.
  cbn [computed_limits] in Hall. apply Forall_cons in Hall as [_ Hall].
  destruct (tick_applies_limit instance_id self tk L reason0 Hfirst)
    as [Hsame Hdiff].
  fold h st0 in Hsame, Hdiff.
  cbn [run_ticks].
  destruct (decide (last_limit st0 = L)) as [Heq | Hne].
  - destruct (Hsame Heq) as [Hcalls (st1 & Hlook1 & HL1 & Hr1)].
    destruct (run_ticks_at_limit instance_id h L (last_limit_reason st0) rest
                _ st1 Hlook1 HL1 Hr1 Hh Hall) as [Hcalls2 Hfinal].
    destruct (run_ticks instance_id (fst (fst (tick_once instance_id self tk)))
                rest) as [self2 calls2].
    cbn [fst snd] in *. rewrite Hcalls, Hcalls2. split; [reflexivity |].
    exact Hfinal.
  - destruct (Hdiff Hne (Hok Hne)) as [Hcalls (st1 & Hlook1 & HL1 & Hr1)].
    destruct (run_ticks_at_limit instance_id h L reason0 rest
                _ st1 Hlook1 HL1 Hr1 Hh Hall) as [Hcalls2 Hfinal].
    destruct (run_ticks instance_id (fst (fst (tick_once instance_id self tk)))
                rest) as [self2 calls2].
    cbn [fst snd] in *. rewrite Hcalls, Hcalls2. split; [reflexivity |].
    exact Hfinal.
Qed.

Lemma same_limit_issued_once_witness :
  snd (run_ticks 1 SmallNeed.engine
         [SmallNeed.tick 40 1060; SmallNeed.tick 35 1065; SmallNeed.tick 30 1070])
  = (if decide
          (last_limit
             (PrecisionLimitEngine.state_for SmallNeed.engine 1
                (tt_torrent (SmallNeed.tick 40 1060))
                (tt_rule (SmallNeed.tick 40 1060))
                (tt_now (SmallNeed.tick 40 1060))) = 4096%Z)
     then []
     else [{| call_instance := 1;
              call_hash := t_hash (tt_torrent (SmallNeed.tick 40 1060));
              call_limit := 4096 |}])
  /\ exists st',
      PrecisionLimitEngine._states
        (fst (run_ticks 1 SmallNeed.engine
                [SmallNeed.tick 40 1060; SmallNeed.tick 35 1065;
                 SmallNeed.tick 30 1070]))
      !! t_hash (tt_torrent (SmallNeed.tick 40 1060)) = Some st'
      /\ last_limit st' = 4096%Z
      /\ last_limit_reason st'
         = (if decide
                 (last_limit
                    (PrecisionLimitEngine.state_for SmallNeed.engine 1
                       (tt_torrent (SmallNeed.tick 40 1060))
                       (tt_rule (SmallNeed.tick 40 1060))
                       (tt_now (SmallNeed.tick 40 1060))) = 4096%Z)
            then last_limit_reason
                   (PrecisionLimitEngine.state_for SmallNeed.engine 1
                      (tt_torrent (SmallNeed.tick 40 1060))
                      (tt_rule (SmallNeed.tick 40 1060))
                      (tt_now (SmallNeed.tick 40 1060)))
            else reason_steady 0 src_qb_api).
Proof.
  apply (same_limit_issued_once 1 SmallNeed.engine (SmallNeed.tick 40 1060)
           [SmallNeed.tick 35 1065; SmallNeed.tick 30 1070] 4096
           (reason_steady 0 src_qb_api)).
  - repeat constructor.
  - vm_compute. reflexivity.
  - repeat constructor; vm_compute; reflexivity.
  - intros _. reflexivity.
Defined.

(** The run of the witness, evaluated: one call, of the first tick. *)
Example small_need_run :
  snd (run_ticks 1 SmallNeed.engine
         [SmallNeed.tick 40 1060; SmallNeed.tick 35 1065; SmallNeed.tick 30 1070])
  = [{| call_instance := 1; call_hash := "h"; call_limit := 4096 |}].
Proof. vm_compute. reflexivity. Qed.

(* ------------------------------------------------------------------ *)
(** ** Invariants of the state table *)

Section TableInvariant.

(** A property of the state table that [_process_torrent] and the
    restoring of a row keep is kept by every operation of the engine. *)
Variable str_lower : string -> string.
Variable url_hostname : string -> option string.
Variable P : gmap string TorrentLimitState.t -> Prop.

Hypothesis P_process_torrent :
  forall env self instance_id client torrent rule now,
  P (PrecisionLimitEngine._states self) ->
  P (PrecisionLimitEngine._states
       (fst (fst (PrecisionLimitEngine._process_torrent env self instance_id
                    client torrent rule now)))).

Hypothesis P_restore_row :
  forall data states,
  P states -> P (<[row_hash data := PrecisionLimitEngine.state_of_row data]> states).

Lemma process_torrents_inv (env : Env) (inst : Z) (client : Client)
    (rules : gmap (option Z) SpeedRule) (now : Q) (torrents : list Torrent) :
  forall (self : PrecisionLimitEngine.t) (count : Z),
  P (PrecisionLimitEngine._states self) ->
  P (PrecisionLimitEngine._states
       (fst (fst (fst (process_torrents str_lower url_hostname env self
                         inst client rules now count torrents))))).
Proof.
  induction torrents as [| torrent rest IH]; intros self count HP.
  - exact HP.
  - cbn [process_torrents].
    destruct (negb (_should_limit_torrent str_lower torrent));
      [now apply IH |].
    destruct (_find_rule str_lower url_hostname env torrent rules)
      as [[rule |] |]; [| now apply IH | exact HP].
    pose proof (P_process_torrent env self inst client torrent rule now HP)
      as Hone.
    destruct (PrecisionLimitEngine._process_torrent env self inst client
                torrent rule now) as [[self1 calls1] raised].
    cbn [fst] in Hone. destruct raised; [exact Hone |].
    specialize (IH self1 (count + 1)%Z Hone).
    destruct (process_torrents str_lower url_hostname env self1 inst client
                rules now (count + 1)%Z rest)
      as [[[self2 calls2] count2] raised2].
    exact IH.
Qed.

Lemma process_instances_inv (env : Env) (rules : gmap (option Z) SpeedRule)
    (now : Q) (instances : list Instance) :
  forall (self : PrecisionLimitEngine.t) (count : Z),
  P (PrecisionLimitEngine._states self) ->
  P (PrecisionLimitEngine._states
       (fst (fst (fst (process_instances str_lower url_hostname env self
                         rules now count instances))))).
Proof.
  induction instances as [| instance rest IH]; intros self count HP.
  - exact HP.
  - cbn [process_instances].
    destruct (negb (inst_enabled instance)); [now apply IH |].
    destruct (get_client (qb_manager env) (inst_id instance))
      as [[client |] |]; [| now apply IH | exact HP].
    destruct (get_torrents (qb_manager env) (inst_id instance))
      as [[| torrent torrents] |]; [now apply IH | | now apply IH].
    pose proof (process_torrents_inv env (inst_id instance) client rules now
                  (torrent :: torrents) self count HP) as Hone.
    destruct (process_torrents str_lower url_hostname env self
                (inst_id instance) client rules now count (torrent :: torrents))
      as [[[self1 calls1] count1] raised].
    cbn [fst] in Hone. destruct raised; [exact Hone |].
    specialize (IH self1 count1 Hone).
    destruct (process_instances str_lower url_hostname env self1 rules now
                count1 rest) as [[[self2 calls2] count2] raised2].
    exact IH.
Qed.

Lemma process_all_inv (env : Env) (self : PrecisionLimitEngine.t) (now : Q) :
  P (PrecisionLimitEngine._states self) ->
  P (PrecisionLimitEngine._states
       (fst (fst (_process_all str_lower url_hostname env self now)))).
Proof.
  intros HP. unfold _process_all.
  destruct (get_speed_rules (db env)) as [rules |]; [| exact HP].
  destruct (size (enabled_rules_of rules) =? 0)%nat; [exact HP |].
  destruct (get_qb_instances (db env)) as [[| instance instances] |];
    [exact HP | | exact HP].
  pose proof (process_instances_inv env (enabled_rules_of rules) now
                (instance :: instances) self 0%Z HP) as Hall.
  destruct (process_instances str_lower url_hostname env self
              (enabled_rules_of rules) now 0%Z (instance :: instances))
    as [[[self1 calls] controlled_count] raised].
  cbn [fst] in Hall. destruct raised; exact Hall.
Qed.

Lemma restore_loop_inv (clock : nat -> Q) (rows : list DbRow) :
  forall (i : nat) (states : gmap string TorrentLimitState.t),
  P states -> P (PrecisionLimitEngine.restore_loop clock i rows states).
Proof.
  induction rows as [| data rest IH]; intros i states HP.
  - exact HP.
  - cbn [PrecisionLimitEngine.restore_loop].
    destruct (86400 <? clock i - default 0 (row_updated_at data)).
    + now apply IH.
    + apply IH. now apply P_restore_row.
Qed.

Lemma run_op_inv (op : Op) (s : PrecisionLimitEngine.t * Store.t) :
  P (PrecisionLimitEngine._states (fst s)) ->
  P (PrecisionLimitEngine._states (fst (run_op str_lower url_hostname op s))).
Proof.
  destruct s as [self store]. cbn [fst]. intros HP.
  destruct op as [saved clock | | tk | clk | clk]; cbn [run_op fst].
  - destruct saved as [rows |]; cbn; [now apply restore_loop_inv | exact HP].
  - unfold start. destruct (PrecisionLimitEngine._running self); exact HP.
  - unfold run_loop_body.
    pose proof (process_all_inv (tick_env tk) self (tick_now tk) HP) as Hall.
    destruct (_process_all str_lower url_hostname (tick_env tk) self
                (tick_now tk)) as [[self1 calls] raised].
    cbn [fst] in Hall. destruct raised; [exact Hall |].
    destruct (PrecisionLimitEngine._save_interval
              <? tick_check tk - PrecisionLimitEngine._last_save_time self1);
      exact Hall.
  - exact HP.
  - exact HP.
Qed.

Lemma run_ops_inv (ops : list Op) :
  forall s : PrecisionLimitEngine.t * Store.t,
  P (PrecisionLimitEngine._states (fst s)) ->
  P (PrecisionLimitEngine._states (fst (run_ops str_lower url_hostname ops s))).
Proof.
  induction ops as [| op rest IH]; intros s HP.
  - exact HP.
  - cbn [run_ops foldl]. apply IH. now apply run_op_inv.
Qed.

End TableInvariant.

(* ------------------------------------------------------------------ *)
(** ** The state table only grows *)

Lemma process_torrent_dom (env : Env) (self : PrecisionLimitEngine.t)
    (instance_id : Z) (client : Client) (torrent : Torrent)
    (rule : SpeedRule) (now : Q) :
  dom (PrecisionLimitEngine._states self)
  ⊆ dom (PrecisionLimitEngine._states
           (fst (fst (PrecisionLimitEngine._process_torrent env self
                        instance_id client torrent rule now)))).
Proof.
  unfold PrecisionLimitEngine._process_torrent.
  destruct (PrecisionLimitEngine.compute_limit _ _ _ _ _ _ _)
    as [[state stats] [[new_limit reason] |]].
  - destruct (PrecisionLimitEngine.apply_limit _ _ _ _ _ _) as [state1 calls].
    cbn. rewrite dom_insert. set_solver.
  - cbn. rewrite dom_insert. set_solver.
Qed.

(** C10. No operation of the governor removes an entry of the state
    table: along any sequence of operations (restore, start, loop
    iterations, saves, stop) the set of tracked hashes only grows. *)
Theorem tracked_hashes_grow (str_lower : string -> string)
    (url_hostname : string -> option string) (ops : list Op)
    (s : PrecisionLimitEngine.t * Store.t) :
  dom (PrecisionLimitEngine._states (fst s))
  ⊆ dom (PrecisionLimitEngine._states
           (fst (run_ops str_lower url_hostname ops s))).
Proof.
  apply (run_ops_inv str_lower url_hostname
           (fun m => dom (PrecisionLimitEngine._states (fst s)) ⊆ dom m)).
  - intros env self instance_id client torrent rule now HP.
    etransitivity; [exact HP | apply process_torrent_dom].
  - intros data states HP. rewrite dom_insert. set_solver.
  - reflexivity.
Qed.

(** A torrent that a tick processes is tracked from then on. *)
Lemma processed_torrent_tracked (env : Env) (self : PrecisionLimitEngine.t)
    (instance_id : Z) (client : Client) (torrent : Torrent)
    (rule : SpeedRule) (now : Q) :
  t_hash torrent
  ∈ dom (PrecisionLimitEngine._states
           (fst (fst (PrecisionLimitEngine._process_torrent env self
                        instance_id client torrent rule now)))).
Proof. apply elem_of_dom, process_torrent_lookup. Qed.

(* ------------------------------------------------------------------ *)
(** ** Persistence *)

(** A row is restored to its persisted fields, around a new PID and a new
    Kalman filter. *)
Lemma state_of_row_of_dict (st : TorrentLimitState.t) (stamp : Q) :
  let st' :=
    PrecisionLimitEngine.state_of_row
      (Store.row_of (PrecisionLimitEngine.dict_of_state st) stamp) in
  (TorrentLimitState.hash st' = TorrentLimitState.hash st
   /\ name st' = name st /\ tracker st' = tracker st
   /\ instance_id st' = instance_id st
   /\ site_id st' = site_id st /\ tid st' = tid st
   /\ cycle_index st' = cycle_index st
   /\ cycle_start st' = cycle_start st
   /\ cycle_uploaded_start st' = cycle_uploaded_start st
   /\ cycle_synced st' = cycle_synced st
   /\ target_speed st' = target_speed st
   /\ last_limit st' = last_limit st
   /\ reannounce_time st' = reannounce_time st
   /\ cached_time_left st' = cached_time_left st)
  /\ pid st' = PIDController.init
  /\ kalman st' = KalmanFilter.init.
Proof. cbn. repeat split. Qed.

Lemma restore_loop_other (clock : nat -> Q) (h : string) (rows : list DbRow) :
  forall (i : nat) (states : gmap string TorrentLimitState.t),
  Forall (fun data => row_hash data <> h) rows ->
  PrecisionLimitEngine.restore_loop clock i rows states !! h = states !! h.
Proof.
  induction rows as [| data rest IH]; intros i states Hall.
  - reflexivity.
  - apply Forall_cons in Hall as [Hne Hall].
    cbn [PrecisionLimitEngine.restore_loop].
    destruct (86400 <? clock i - default 0 (row_updated_at data)).
    + now apply IH.
    + rewrite IH by assumption. now apply lookup_insert_ne.
Qed.

(** The fate of the [k]-th row of a listing without repeated hashes. *)
Lemma restore_loop_row (clock : nat -> Q) (rows : list DbRow) :
  forall (i k : nat) (data : DbRow) (states : gmap string TorrentLimitState.t),
  NoDup (row_hash <$> rows) ->
  rows !! k = Some data ->
  PrecisionLimitEngine.restore_loop clock i rows states !! row_hash data
  = if 86400 <? clock (i + k)%nat - default 0 (row_updated_at data)
    then states !! row_hash data
    else Some (PrecisionLimitEngine.state_of_row data).
Proof.
  induction rows as [| d rest IH]; intros i k data states Hnd Hk.
  - discriminate Hk.
  - rewrite fmap_cons in Hnd. apply NoDup_cons in Hnd as [Hnotin Hnd].
    cbn [PrecisionLimitEngine.restore_loop].
    destruct k as [| k].
    + injection Hk as ->. rewrite Nat.add_0_r.
      assert (Hrest : Forall (fun d => row_hash d <> row_hash data) rest).
      { apply Forall_forall. intros d Hd Heq. apply Hnotin.
        rewrite <- Heq. apply list_elem_of_fmap. now exists d. }
      destruct (86400 <? clock i - default 0 (row_updated_at data)).
      * now apply restore_loop_other.
      * rewrite restore_loop_other by assumption. apply lookup_insert_eq.
    + cbn in Hk. replace (i + S k)%nat with (S i + k)%nat by lia.
      assert (Hne : row_hash d <> row_hash data).
      { intros Heq. apply Hnotin. rewrite Heq.
        apply list_elem_of_fmap. exists data. split; [reflexivity |].
        eapply list_elem_of_lookup_2. exact Hk. }
      destruct (86400 <? clock i - default 0 (row_updated_at d)).
      * now apply IH.
      * rewrite (IH (S i) k data _ Hnd Hk).
        rewrite lookup_insert_ne by assumption. reflexivity.
Qed.

Lemma save_loop_other (stamp : nat -> Q) (h : string)
    (items : list (string * TorrentLimitState.t)) :
  forall (i : nat) (store : Store.t),
  Forall (fun item => TorrentLimitState.hash (snd item) <> h) items ->
  Store.torrent_limit_states
    (PrecisionLimitEngine.save_loop stamp i items store) !! h
  = Store.torrent_limit_states store !! h.
Proof.
  induction items as [| [key state] rest IH]; intros i store Hall.
  - reflexivity.
  - apply Forall_cons in Hall as [Hne Hall].
    cbn [PrecisionLimitEngine.save_loop]. rewrite IH by assumption.
    cbn. now apply lookup_insert_ne.
Qed.

(** The row written for the [j]-th state of a listing without repeated
    hashes. *)
Lemma save_loop_item (stamp : nat -> Q)
    (items : list (string * TorrentLimitState.t)) :
  forall (i j : nat) (key : string) (st : TorrentLimitState.t)
         (store : Store.t),
  NoDup ((fun item => TorrentLimitState.hash (snd item)) <$> items) ->
  items !! j = Some (key, st) ->
  Store.torrent_limit_states
    (PrecisionLimitEngine.save_loop stamp i items store)
  !! TorrentLimitState.hash st
  = Some (Store.row_of (PrecisionLimitEngine.dict_of_state st)
            (stamp (i + j)%nat)).
Proof.
  induction items as [| [key0 st0] rest IH]; intros i j key st store Hnd Hj.
  - discriminate Hj.
  - rewrite fmap_cons in Hnd. apply NoDup_cons in Hnd as [Hnotin Hnd].
    cbn [PrecisionLimitEngine.save_loop]. cbn [snd] in Hnotin.
    destruct j as [| j].
    + injection Hj as -> ->. rewrite Nat.add_0_r.
      rewrite save_loop_other.
      * cbn. apply lookup_insert_eq.
      * apply Forall_forall. intros item Hitem Heq. apply Hnotin.
        rewrite <- Heq. apply list_elem_of_fmap. now exists item.
    + cbn in Hj. replace (i + S j)%nat with (S i + j)%nat by lia.
      now apply (IH (S i) j key).
Qed.

Lemma save_loop_keyed (stamp : nat -> Q)
    (items : list (string * TorrentLimitState.t)) :
  forall (i : nat) (store : Store.t),
  rows_keyed (Store.torrent_limit_states store) ->
  rows_keyed
    (Store.torrent_limit_states
       (PrecisionLimitEngine.save_loop stamp i items store)).
Proof.
  induction items as [| [key state] rest IH]; intros i store Hk.
  - exact Hk.
  - cbn [PrecisionLimitEngine.save_loop]. apply IH.
    intros h row. cbn. rewrite lookup_insert.
    destruct (decide (TorrentLimitState.hash state = h)) as [<- | Hne].
    + intros [= <-]. reflexivity.
    + apply Hk.
Qed.

(** The listing of a keyed table repeats no hash. *)
Lemma keyed_listing_NoDup {A : Type} (f : A -> string) (m : gmap string A) :
  (forall h a, m !! h = Some a -> f a = h) ->
  NoDup ((fun item => f (snd item)) <$> map_to_list m).
Proof.
  intros Hk.
  assert (Heq : (fun item => f (snd item)) <$> map_to_list m
                = fst <$> map_to_list m).
  { apply Forall_fmap_ext_1, Forall_forall. intros [h a] Hin. cbn.
    apply Hk. now apply elem_of_map_to_list. }
  rewrite Heq. apply NoDup_fst_map_to_list.
Qed.

(** C8. Saving the states and restoring them into a new engine is a
    round trip: the row written for a state carries the stamp of its
    write; when the engine reads it no later than 86400 s after that stamp
    the state is restored with its persisted fields unchanged and a new
    PID and Kalman filter, and when it reads it later the entry is
    dropped. *)
Theorem save_restore_round_trip (self : PrecisionLimitEngine.t)
    (store : Store.t) (stamp : nat -> Q) (now : Q) (clock : nat -> Q)
    (h : string) (st : TorrentLimitState.t) :
  states_keyed (PrecisionLimitEngine._states self) ->
  rows_keyed (Store.torrent_limit_states store) ->
  PrecisionLimitEngine._states self !! h = Some st ->
  let store' :=
    snd (PrecisionLimitEngine._save_states_to_db self store stamp now) in
  let rows := Store.get_all_torrent_limit_states store' in
  let restored :=
    PrecisionLimitEngine._restore_states_from_db PrecisionLimitEngine.init
      (Returns rows) clock in
  exists (i j : nat) (row : DbRow),
    rows !! i = Some row
    /\ row_hash row = h
    /\ row_updated_at row = Some (stamp j)
    /\ if 86400 <? clock i - stamp j
       then PrecisionLimitEngine._states restored !! h = None
       else exists st',
           PrecisionLimitEngine._states restored !! h = Some st'
           /\ (TorrentLimitState.hash st' = TorrentLimitState.hash st
               /\ name st' = name st /\ tracker st' = tracker st
               /\ instance_id st' = instance_id st
               /\ site_id st' = site_id st /\ tid st' = tid st
               /\ cycle_index st' = cycle_index st
               /\ cycle_start st' = cycle_start st
               /\ cycle_uploaded_start st' = cycle_uploaded_start st
               /\ cycle_synced st' = cycle_synced st
               /\ target_speed st' = target_speed st
               /\ last_limit st' = last_limit st
               /\ reannounce_time st' = reannounce_time st
               /\ cached_time_left st' = cached_time_left st)
           /\ pid st' = PIDController.init
           /\ kalman st' = KalmanFilter.init.
Proof.
  intros Hkeyed Hstore Hst store' rows restored.
  assert (Hhash : TorrentLimitState.hash st = h) by now apply Hkeyed.
  (* the write *)
  apply elem_of_map_to_list, list_elem_of_lookup in Hst as [j Hj].
  pose proof (save_loop_item stamp (map_to_list (PrecisionLimitEngine._states self))
                0 j h st store
                (keyed_listing_NoDup TorrentLimitState.hash _ Hkeyed) Hj)
    as Hrow.
  rewrite Hhash in Hrow. cbn [Nat.add] in Hrow.
  set (row := Store.row_of (PrecisionLimitEngine.dict_of_state st) (stamp j))
    in Hrow.
  assert (Hkeyed' : rows_keyed (Store.torrent_limit_states store')).
  { apply save_loop_keyed. exact Hstore. }
  (* the read *)
  change (Store.torrent_limit_states store' !! h = Some row) in Hrow.
  apply elem_of_map_to_list, list_elem_of_lookup in Hrow as [i Hi].
  assert (Hrows : rows !! i = Some row).
  { subst rows. unfold Store.get_all_torrent_limit_states.
    rewrite list_lookup_fmap, Hi. reflexivity. }
  assert (Hnd : NoDup (row_hash <$> rows)).
  { subst rows. unfold Store.get_all_torrent_limit_states.
    rewrite <- list_fmap_compose.
    apply (keyed_listing_NoDup row_hash _ Hkeyed'). }
  pose proof (restore_loop_row clock rows 0 i row ∅ Hnd Hrows) as Hres.
  assert (Hrh : row_hash row = h) by exact Hhash.
  rewrite Hrh in Hres. cbn [Nat.add] in Hres.
  exists i, j, row. split; [exact Hrows |]. split; [exact Hrh |].
  split; [reflexivity |].
  change (default 0 (row_updated_at row)) with (stamp j) in Hres.
  change (PrecisionLimitEngine._states restored)
    with (PrecisionLimitEngine.restore_loop clock 0 rows ∅).
  destruct (86400 <? clock i - stamp j).
  - rewrite Hres. apply lookup_empty.
  - eexists. split; [exact Hres |]. apply state_of_row_of_dict.
Qed.

(** Every table the engine reaches is keyed: a state is created under
    its own hash, and no assignment of a tick writes [hash]. *)
Lemma process_torrent_keyed (env : Env) (self : PrecisionLimitEngine.t)
    (instance_id : Z) (client : Client) (torrent : Torrent)
    (rule : SpeedRule) (now : Q) :
  states_keyed (PrecisionLimitEngine._states self) ->
  states_keyed
    (PrecisionLimitEngine._states
       (fst (fst (PrecisionLimitEngine._process_torrent env self instance_id
                    client torrent rule now)))).
Proof.
  intros Hk.
  pose proof (compute_limit_last_limit env self instance_id client torrent
                rule now) as (Hh & _ & _).
  cbn zeta in Hh.
  assert (H0 : TorrentLimitState.hash
                 (PrecisionLimitEngine.state_for self instance_id torrent rule
                    now) = t_hash torrent).
  { unfold PrecisionLimitEngine.state_for.
    destruct (PrecisionLimitEngine._states self !! t_hash torrent) as [st |]
      eqn:E; [now apply Hk | reflexivity]. }
  rewrite H0 in Hh.
  unfold PrecisionLimitEngine._process_torrent.
  destruct (PrecisionLimitEngine.compute_limit _ _ _ _ _ _ _)
    as [[state stats] [[new_limit reason] |]]; cbn [fst] in Hh.
  - pose proof (apply_limit_state env instance_id (t_hash torrent) state
                  new_limit reason) as Ha.
    destruct (PrecisionLimitEngine.apply_limit _ _ _ _ _ _) as [state1 calls].
    cbn [fst] in Ha. cbn. intros h st. rewrite lookup_insert.
    destruct (decide (t_hash torrent = h)) as [<- | Hne]; [| apply Hk].
    intros [= <-].
    destruct (LimitConfig.LOG_INTERVAL <? now - last_log_time state1);
      destruct Ha as [-> | ->]; exact Hh.
  - cbn. intros h st. rewrite lookup_insert.
    destruct (decide (t_hash torrent = h)) as [<- | Hne]; [| apply Hk].
    intros [= <-]. exact Hh.
Qed.

Lemma states_keyed_reachable (str_lower : string -> string)
    (url_hostname : string -> option string) (ops : list Op)
    (store : Store.t) :
  states_keyed
    (PrecisionLimitEngine._states
       (fst (run_ops str_lower url_hostname ops
               (PrecisionLimitEngine.init, store)))).
Proof.
  apply (run_ops_inv str_lower url_hostname states_keyed).
  - intros. now apply process_torrent_keyed.
  - intros data states Hk h st. rewrite lookup_insert.
    destruct (decide (row_hash data = h)) as [<- | Hne]; [| apply Hk].
    intros [= <-]. reflexivity.
  - intros h st H. cbn in H. rewrite lookup_empty in H. discriminate H.
Qed.

Lemma save_restore_round_trip_witness :
  let store' :=
    snd (PrecisionLimitEngine._save_states_to_db Tracked.engine Store.empty
           (fun _ => 1000) 1000) in
  let rows := Store.get_all_torrent_limit_states store' in
  let restored :=
    PrecisionLimitEngine._restore_states_from_db PrecisionLimitEngine.init
      (Returns rows) (fun _ => 2000) in
  exists (i j : nat) (row : DbRow),
    rows !! i = Some row
    /\ row_hash row = "h"
    /\ row_updated_at row = Some 1000
    /\ if 86400 <? 2000 - 1000
       then PrecisionLimitEngine._states restored !! "h" = None
       else exists st',
           PrecisionLimitEngine._states restored !! "h" = Some st'
           /\ (TorrentLimitState.hash st' = TorrentLimitState.hash Tracked.state
               /\ name st' = name Tracked.state
               /\ tracker st' = tracker Tracked.state
               /\ instance_id st' = instance_id Tracked.state
               /\ site_id st' = site_id Tracked.state
               /\ tid st' = tid Tracked.state
               /\ cycle_index st' = cycle_index Tracked.state
               /\ cycle_start st' = cycle_start Tracked.state
               /\ cycle_uploaded_start st' = cycle_uploaded_start Tracked.state
               /\ cycle_synced st' = cycle_synced Tracked.state
               /\ target_speed st' = target_speed Tracked.state
               /\ last_limit st' = last_limit Tracked.state
               /\ reannounce_time st' = reannounce_time Tracked.state
               /\ cached_time_left st' = cached_time_left Tracked.state)
           /\ pid st' = PIDController.init
           /\ kalman st' = KalmanFilter.init.
Proof.
  apply (save_restore_round_trip Tracked.engine Store.empty (fun _ => 1000)
           1000 (fun _ => 2000) "h" Tracked.state).
  - intros h st H. cbn in H.
    apply lookup_singleton_Some in H as [<- <-]. reflexivity.
  - intros h row H. cbn in H. rewrite lookup_empty in H. discriminate H.
  - reflexivity.
Defined.

(** The same table read within the day, and two days later. *)
Example restore_evaluated :
  let store' :=
    snd (PrecisionLimitEngine._save_states_to_db Tracked.engine Store.empty
           (fun _ => 1000) 1000) in
  let rows := Store.get_all_torrent_limit_states store' in
  (cycle_uploaded_start <$>
     (PrecisionLimitEngine._states
        (PrecisionLimitEngine._restore_states_from_db PrecisionLimitEngine.init
           (Returns rows) (fun _ => 87400)) !! "h") = Some 1000000%Z)
  /\ (cycle_uploaded_start <$>
        (PrecisionLimitEngine._states
           (PrecisionLimitEngine._restore_states_from_db PrecisionLimitEngine.init
              (Returns rows) (fun _ => 87401)) !! "h") = None).
Proof. split; vm_compute; reflexivity. Qed.

(* ------------------------------------------------------------------ *)
(** ** The boundary scenarios of the specification, evaluated *)

(** Scenario 1: warmup with a tenth of the target uploaded is uncapped. *)
Example scenario_warmup_uncapped :
  snd (_calculate_limit Scenario.warmup_state 943718400 1000 1800)
  = ((-1)%Z, reason_warmup_idle src_unknown).
Proof. vm_compute. reflexivity. Qed.

(** Scenario 3: the time left jumps from 60 s to 1780 s: one new cycle,
    anchored at the reported count. *)
Example scenario_new_cycle :
  let run :=
    PrecisionLimitEngine._process_torrent
      (Sample.env_qb (Returns (Some 1780))) Scenario.late_engine 1
      (Sample.client (Returns (Some 1780))) (Sample.torrent 7000000 0)
      Sample.rule 2000 in
  (cycle_index <$> Sample.state_of run = Some 1%Z)
  /\ (cycle_uploaded_start <$> Sample.state_of run = Some 7000000%Z)
  /\ (cycle_start <$> Sample.state_of run = Some 2000).
Proof. repeat split; vm_compute; reflexivity. Qed.

(** Scenario 4: the site answers 500, the client 1200, and
    [reannounce_time] is 900 s ahead: the result is [(500, "site")] and
    [reannounce_time] is unchanged. *)
Example scenario_oracle_precedence :
  let result :=
    _get_reannounce_time (Sample.env_site 500 (Returns (Some 1200)))
      (Sample.client (Returns (Some 1200))) "h"
      "https://tracker.example/announce" Scenario.estimated_state
      Scenario.no_stats 1000 in
  snd result = (500, src_site)
  /\ reannounce_time (fst (fst result)) = 1900
  /\ site_success (snd (fst result)) = 1%Z.
Proof. repeat split; vm_compute; reflexivity. Qed.

(** Scenario 5: the AND of [ratio_gt], [completed] and [size_gt]. *)
Example scenario_and_semantics :
  let condition :=
    {| free_space_lt := None; upload_speed_lt := None;
       completed := Some true; seeding_time_gt := None;
       ratio_gt := Some 2.0; size_gt := Some 1000000000;
       no_peers_time_gt := None |} in
  let torrent progress :=
    {| t_hash := "h"; t_name := None; t_state := None; t_tracker := None;
       t_size := Some 2000000000%Z; t_uploaded := None; t_upspeed := None;
       t_progress := Some progress; t_ratio := Some 2.01;
       t_seeding_time := None; t_last_activity := None |} in
  AutoRemoveEngine._check_condition (torrent 1.0) condition 0 0 = true
  /\ AutoRemoveEngine._check_condition (torrent 0.99) condition 0 0 = false.
Proof. split; vm_compute; reflexivity. Qed.

(* ================================================================== *)
(** * Further properties *)

(** ** The estimators *)

Lemma kalman_update_ok (k : KalmanFilter.t) (measured_speed now : Q) :
  kalman_ok k ->
  kalman_ok (fst (KalmanFilter.update k measured_speed now))
  /\ snd (KalmanFilter.update k measured_speed now) = false.
Proof.
  intros [Hs Ha]. unfold KalmanFilter.update.
  destruct (KalmanFilter.last_time k <=? 0); [now split |].
  destruct (leb_reflect (now - KalmanFilter.last_time k) 0) as [Hdt | Hdt];
    [now split |].
  set (dt := now - KalmanFilter.last_time k) in *.
  set (P := KalmanFilter.p_speed k
            + (KalmanFilter.q_speed + KalmanFilter.p_accel k * dt * dt)).
  assert (HP : 0 < P).
  { subst P. unfold KalmanFilter.q_speed.
    assert (0 <= KalmanFilter.p_accel k * dt * dt).
    { rewrite <- Qmult_assoc. apply Qmult_le_0_compat; [lra |].
      assert (0 < dt) by lra. apply Qmult_le_0_compat; lra. }
    lra. }
  assert (Hr : KalmanFilter.r == 0.5) by reflexivity.
  destruct (Qeq_bool (P + KalmanFilter.r) 0) eqn:E0.
  { apply Qeq_bool_eq in E0. lra. }
  split; [| reflexivity]. unfold kalman_ok. cbn [fst KalmanFilter.p_speed
    KalmanFilter.p_accel]. split.
  - apply Qmult_lt_0_compat; [exact HP |].
    assert (P / (P + KalmanFilter.r) < 1).
    { apply Qlt_shift_div_r; lra. }
    lra.
  - unfold KalmanFilter.q_accel. lra.
Qed.

(** X1. Fed any samples, a filter built by [__init__] never divides by
    zero, and its variances stay positive. *)
Theorem kalman_never_raises (samples : list (Q * Q)) :
  snd (kalman_feed KalmanFilter.init samples) = false
  /\ kalman_ok (fst (kalman_feed KalmanFilter.init samples)).
Proof.
  assert (Hgen : forall k, kalman_ok k ->
    snd (kalman_feed k samples) = false /\ kalman_ok (fst (kalman_feed k samples))).
  { induction samples as [| [m t] rest IH]; intros k Hk.
    - now split.
    - cbn [kalman_feed].
      destruct (kalman_update_ok k m t Hk) as [Hok Hno].
      destruct (KalmanFilter.update k m t) as [k1 raised].
      cbn [fst snd] in *. subst raised. now apply IH. }
  apply Hgen. split; reflexivity.
Qed.

(** X2. On a later sample, a filter with positive variances moves its
    speed estimate from the prediction [speed + acceleration * dt] towards
    the measurement without passing it. *)
Theorem kalman_speed_between (k : KalmanFilter.t) (measured_speed now : Q) :
  kalman_ok k ->
  0 < KalmanFilter.last_time k ->
  KalmanFilter.last_time k < now ->
  let dt := now - KalmanFilter.last_time k in
  let predicted := KalmanFilter.speed k + KalmanFilter.acceleration k * dt in
  let speed' :=
    KalmanFilter.speed (fst (KalmanFilter.update k measured_speed now)) in
  Qmin predicted measured_speed <= speed' <= Qmax predicted measured_speed.
Proof.
  intros [Hs Ha] Hlast Hnow dt predicted speed'. subst speed'.
  unfold KalmanFilter.update.
  destruct (leb_reflect (KalmanFilter.last_time k) 0) as [H0 | _]; [lra |].
  fold dt.
  destruct (leb_reflect dt 0) as [Hdt | Hdt]; [subst dt; lra |].
  set (P := KalmanFilter.p_speed k
            + (KalmanFilter.q_speed + KalmanFilter.p_accel k * dt * dt)).
  assert (HP : 0 < P).
  { subst P. unfold KalmanFilter.q_speed.
    assert (0 <= KalmanFilter.p_accel k * dt * dt).
    { rewrite <- Qmult_assoc. apply Qmult_le_0_compat; [lra |].
      assert (0 < dt) by lra. apply Qmult_le_0_compat; lra. }
    lra. }
  assert (Hr : KalmanFilter.r == 0.5) by reflexivity.
  destruct (Qeq_bool (P + KalmanFilter.r) 0) eqn:E0.
  { apply Qeq_bool_eq in E0. lra. }
  cbn [fst KalmanFilter.speed]. fold predicted.
  set (g := P / (P + KalmanFilter.r)).
  assert (Hg : 0 < g < 1).
  { subst g. split.
    - apply Qlt_shift_div_l; lra.
    - apply Qlt_shift_div_r; lra. }
  destruct (Qlt_le_dec predicted measured_speed) as [Hlt | Hge].
  - rewrite Q.min_l, Q.max_r by lra.
    assert (0 <= g * (measured_speed - predicted)
            <= 1 * (measured_speed - predicted)).
    { split.
      - apply Qmult_le_0_compat; lra.
      - apply Qmult_le_compat_r; lra. }
    lra.
  - rewrite Q.min_r, Q.max_l by lra.
    assert (0 <= g * (predicted - measured_speed)
            <= 1 * (predicted - measured_speed)).
    { split.
      - apply Qmult_le_0_compat; lra.
      - apply Qmult_le_compat_r; lra. }
    assert (g * (measured_speed - predicted)
            == - (g * (predicted - measured_speed))) by ring.
    lra.
Qed.

Lemma kalman_speed_between_witness :
  let k :=
    {| KalmanFilter.speed := 100; KalmanFilter.acceleration := 0;
       KalmanFilter.p_speed := 1; KalmanFilter.p_accel := 1;
       KalmanFilter.last_time := 1000 |} in
  Qmin (KalmanFilter.speed k + KalmanFilter.acceleration k * (1005 - 1000)) 200
  <= KalmanFilter.speed (fst (KalmanFilter.update k 200 1005))
  <= Qmax (KalmanFilter.speed k + KalmanFilter.acceleration k * (1005 - 1000))
       200.
Proof.
  intros k.
  apply (kalman_speed_between k 200 1005).
  - split; reflexivity.
  - reflexivity.
  - reflexivity.
Defined.

(** X3. Whatever calls a controller built by [__init__] receives, its
    integral stays within [-0.5, 0.5]. *)
Theorem pid_integral_bounded (cs : list PidCall) :
  -0.5 <= PIDController.integral (pid_calls cs PIDController.init) <= 0.5.
Proof.
  assert (Hgen : forall self,
    -0.5 <= PIDController.integral self <= 0.5 ->
    -0.5 <= PIDController.integral (pid_calls cs self) <= 0.5).
  { induction cs as [| c rest IH]; intros self Hself.
    - exact Hself.
    - cbn [pid_calls foldl]. apply IH.
      destruct c as [target actual now | p |]; cbn [pid_call].
      + unfold PIDController.update. cbn [fst PIDController.integral].
        apply clamp_bounds. lra.
      + unfold PIDController.set_phase.
        destruct (negb (Phase_eqb p (PIDController.phase self)));
          cbn [PIDController.integral]; lra.
      + cbn. lra. }
  apply Hgen. cbn. lra.
Qed.

(* ------------------------------------------------------------------ *)
(** ** Exceptions of a tick *)

(** The Kalman filter a tick leaves in the state is the one of its
    [update], and the tick computes a limit exactly when that update
    returns. *)
Lemma compute_limit_kalman (env : Env) (self : PrecisionLimitEngine.t)
    (instance_id : Z) (client : Client) (torrent : Torrent)
    (rule : SpeedRule) (now : Q) :
  let st := PrecisionLimitEngine.state_for self instance_id torrent rule now in
  let upd :=
    KalmanFilter.update (kalman st)
      (Py.float (default 0%Z (t_upspeed torrent))) now in
  let result :=
    PrecisionLimitEngine.compute_limit env self instance_id client torrent
      rule now in
  kalman (fst (fst result)) = fst upd
  /\ (snd upd = false -> is_Some (snd result))
  /\ (snd upd = true -> snd result = None).
Proof.
  intros st upd result. subst result upd.
  unfold PrecisionLimitEngine.compute_limit. fold st. state_simpl.
  destruct (KalmanFilter.update _ _ _) as [kalman1 raised].
  destruct raised; cbn [fst snd].
  - split; [reflexivity | split; [intros H; discriminate H | reflexivity]].
  - match goal with
    | |- context [_get_reannounce_time ?e ?c ?h ?t ?s ?k ?n] =>
      pose proof (get_reannounce_time_frame e c h t s k n) as Hf;
      destruct (_get_reannounce_time e c h t s k n)
        as [[st2 stats2] [time_left source]]
    end.
    cbn [fst] in Hf.
    destruct Hf as (_ & _ & _ & _ & _ & _ & _ & _ & _ & _ & _ & _ & _ & _ & Hk & _).
    state_simpl.
    match goal with
    | |- context [_calculate_limit ?s ?u ?n ?t] =>
      destruct (calculate_limit_state s u n t) as [p Hp];
      destruct (_calculate_limit s u n t) as [st3 limit_reason]
    end.
    cbn [fst] in Hp. subst st3. cbn [fst snd].
    split; [| split; [intros _; eauto | intros H; discriminate H]].
    repeat match goal with
           | |- context [if ?b then _ else _] => destruct b
           end; state_simpl; exact Hk.
Qed.

Lemma state_for_kalman_ok (self : PrecisionLimitEngine.t) (instance_id : Z)
    (torrent : Torrent) (rule : SpeedRule) (now : Q) :
  kalman_table_ok (PrecisionLimitEngine._states self) ->
  kalman_ok
    (kalman (PrecisionLimitEngine.state_for self instance_id torrent rule now)).
Proof.
  intros Hk. unfold PrecisionLimitEngine.state_for.
  destruct (PrecisionLimitEngine._states self !! t_hash torrent) as [st |] eqn:E.
  - exact (Hk _ _ E).
  - split; reflexivity.
Qed.

Lemma process_torrent_kalman_ok (env : Env) (self : PrecisionLimitEngine.t)
    (instance_id : Z) (client : Client) (torrent : Torrent)
    (rule : SpeedRule) (now : Q) :
  kalman_table_ok (PrecisionLimitEngine._states self) ->
  kalman_table_ok
    (PrecisionLimitEngine._states
       (fst (fst (PrecisionLimitEngine._process_torrent env self
                    instance_id client torrent rule now)))).
Proof.
  intros Hk.
  pose proof (state_for_kalman_ok self instance_id torrent rule now Hk) as H0.
  destruct (kalman_update_ok _ (Py.float (default 0%Z (t_upspeed torrent)))
              now H0) as [Hok Hno].
  destruct (compute_limit_kalman env self instance_id client torrent rule now)
    as (Hkal & Hsome & _).
  specialize (Hsome Hno). rewrite <- Hkal in Hok.
  unfold PrecisionLimitEngine._process_torrent.
  destruct (PrecisionLimitEngine.compute_limit _ _ _ _ _ _ _)
    as [[state stats] res]. cbn [fst snd] in *.
  destruct Hsome as [[new_limit reason] ->].
  pose proof (apply_limit_state env instance_id (t_hash torrent) state
                new_limit reason) as Ha.
  destruct (PrecisionLimitEngine.apply_limit _ _ _ _ _ _) as [state1 calls].
  cbn [fst snd] in *.
  intros h st. cbn. rewrite lookup_insert.
  destruct (decide (t_hash torrent = h)) as [<- | Hne]; [| apply Hk].
  intros [= <-].
  destruct (LimitConfig.LOG_INTERVAL <? now - last_log_time state1);
    destruct Ha as [-> | ->]; exact Hok.
Qed.

(** X4. On every engine reached from its construction each tracked
    Kalman filter has positive variances, and so has the filter a tick
    works on, a new one included: the [update] that [_process_torrent]
    makes on it never divides by zero. *)
Theorem tick_kalman_never_divides_by_zero (str_lower : string -> string)
    (url_hostname : string -> option string) (ops : list Op)
    (store : Store.t) (instance_id : Z) (torrent : Torrent)
    (rule : SpeedRule) (now : Q) :
  let self :=
    fst (run_ops str_lower url_hostname ops (PrecisionLimitEngine.init, store)) in
  let filter :=
    kalman (PrecisionLimitEngine.state_for self instance_id torrent rule now) in
  kalman_table_ok (PrecisionLimitEngine._states self)
  /\ kalman_ok filter
  /\ snd (KalmanFilter.update filter
            (Py.float (default 0%Z (t_upspeed torrent))) now) = false.
Proof.
  intros self filter.
  assert (Hk : kalman_table_ok (PrecisionLimitEngine._states self)).
  { subst self.
    apply (run_ops_inv str_lower url_hostname kalman_table_ok).
    - intros. now apply process_torrent_kalman_ok.
    - intros data states Hk h st. rewrite lookup_insert.
      destruct (decide (row_hash data = h)) as [<- | Hne]; [| apply Hk].
      intros [= <-]. split; reflexivity.
    - intros h st H. cbn in H. rewrite lookup_empty in H. discriminate H. }
  pose proof (state_for_kalman_ok self instance_id torrent rule now Hk) as H0.
  split; [exact Hk |]. split; [exact H0 |].
  now apply kalman_update_ok.
Qed.

(* ------------------------------------------------------------------ *)
(** ** What a tick pushes and records *)

(** The limit a tick computes comes out of [_calculate_limit]. *)
Lemma compute_limit_from_calculate (env : Env) (self : PrecisionLimitEngine.t)
    (instance_id : Z) (client : Client) (torrent : Torrent)
    (rule : SpeedRule) (now : Q) (limit_reason : Z * Reason) :
  snd (PrecisionLimitEngine.compute_limit env self instance_id client torrent
         rule now) = Some limit_reason ->
  exists st time_left,
    (cycle_synced st = true \/ time_left <= 0)
    /\ limit_reason
       = snd (_calculate_limit st (default 0%Z (t_uploaded torrent)) now
                time_left).
Proof.
  unfold PrecisionLimitEngine.compute_limit.
  destruct (KalmanFilter.update _ _ _) as [kalman1 raised].
  destruct raised; [discriminate |].
  destruct (_get_reannounce_time _ _ _ _ _ _ _)
    as [[st2 stats2] [time_left source]].
  match goal with
  | |- context [_calculate_limit ?s ?u ?n ?t] =>
    assert (Hs : cycle_synced s = true \/ t <= 0);
      [| destruct (_calculate_limit s u n t) as [st3 lr] eqn:E;
         cbn [snd]; intros [= <-]; exists s, t;
         split; [exact Hs | now rewrite E] ]
  end.
  destruct (cycle_synced st2) eqn:Hsy.
  - left. repeat (progress (state_simpl; rewrite ?Hsy)).
    destruct (cached_time_left st2 + 30 <? time_left) eqn:Hj;
      repeat (progress (state_simpl; rewrite ?Hsy, ?Hj)); reflexivity.
  - repeat (progress (state_simpl; rewrite ?Hsy)).
    destruct (ltb_reflect 0 time_left) as [Hpos | Hneg];
      repeat (progress (state_simpl; rewrite ?Hsy)).
    + left. reflexivity.
    + right. lra.
Qed.

Lemma calculate_limit_reason (state : TorrentLimitState.t)
    (current_uploaded : Z) (now time_left : Q) :
  cycle_synced state = true \/ time_left <= 0 ->
  warmup_reason
    (snd (snd (_calculate_limit state current_uploaded now time_left)))
  = false.
Proof.
  intros Hs. unfold _calculate_limit.
  destruct (leb_reflect time_left 0) as [Hle | Hgt]; [reflexivity |].
  destruct Hs as [Hsy | Hle]; [| contradiction].
  destruct (PIDController.update _ _ _ _) as [pid1 out].
  unfold TorrentLimitState.get_phase, Util.get_phase. rewrite Hsy.
  cbn [negb].
  repeat match goal with
         | |- context [if ?b then _ else _] => destruct b
         end; reflexivity.
Qed.

(** X5. One [_process_torrent] issues at most one [set_upload_limit]: for
    its own instance and hash, with a limit that differs from the recorded
    [last_limit] and is [-1], [0], or a multiple of 1024 inside
    [MIN_LIMIT .. MAX_LIMIT]. *)
Theorem process_torrent_calls (env : Env) (self : PrecisionLimitEngine.t)
    (instance_id : Z) (client : Client) (torrent : Torrent)
    (rule : SpeedRule) (now : Q) :
  let calls :=
    snd (fst (PrecisionLimitEngine._process_torrent env self instance_id
                client torrent rule now)) in
  let before :=
    last_limit
      (PrecisionLimitEngine.state_for self instance_id torrent rule now) in
  calls = []
  \/ exists limit,
      calls = [{| call_instance := instance_id; call_hash := t_hash torrent;
                  call_limit := limit |}]
      /\ limit <> before
      /\ pushable_limit limit.
Proof.
  intros calls before. subst calls.
  pose proof (compute_limit_last_limit env self instance_id client torrent
                rule now) as (_ & Hll & _).
  fold before in Hll. cbn zeta in Hll.
  pose proof (compute_limit_from_calculate env self instance_id client torrent
                rule now) as Hfrom.
  unfold PrecisionLimitEngine._process_torrent.
  destruct (PrecisionLimitEngine.compute_limit _ _ _ _ _ _ _)
    as [[state stats] [[new_limit reason] |]]; cbn [fst snd] in *;
    [| now left].
  destruct (Hfrom _ eq_refl) as (st & tl & _ & Hlr).
  unfold PrecisionLimitEngine.apply_limit.
  destruct (Z.eqb_spec new_limit (last_limit state)) as [Heq | Hne];
    cbn [negb]; [now left |].
  right. exists new_limit. split.
  { destruct (set_upload_limit _ _ _ _); reflexivity. }
  split; [now rewrite <- Hll |].
  pose proof (calculate_limit_values st (default 0%Z (t_uploaded torrent)) now tl)
    as Hv.
  cbn zeta in Hv. rewrite <- Hlr in Hv. cbn [fst] in Hv.
  unfold pushable_limit.
  destruct Hv as [H | [H | [Hr Hm]]]; [now left | now right; left |].
  right; right. split; [exact Hr |].
  destruct (get_phase st now); cbn [limit_step] in Hm;
    try exact Hm;
    apply Z.mod_divide in Hm; try lia;
    apply Z.mod_divide; try lia;
    destruct Hm as [q ->]; exists (q * 4)%Z; lia.
Qed.

(** X6. The warmup bands of [_calculate_limit] are never what a tick
    applies: by the time it computes the limit the state is synced, or the
    time left is not positive and the result is [(-1, "announcing")]. *)
Theorem tick_never_in_warmup_band (env : Env) (self : PrecisionLimitEngine.t)
    (instance_id : Z) (client : Client) (torrent : Torrent)
    (rule : SpeedRule) (now : Q) :
  match snd (PrecisionLimitEngine.compute_limit env self instance_id client
               torrent rule now) with
  | Some (limit, reason) => warmup_reason reason = false
  | None => True
  end.
Proof.
  pose proof (compute_limit_from_calculate env self instance_id client torrent
                rule now) as Hfrom.
  destruct (snd (PrecisionLimitEngine.compute_limit _ _ _ _ _ _ _))
    as [[limit reason] |]; [| exact I].
  destruct (Hfrom _ eq_refl) as (st & tl & Hs & Hlr).
  pose proof (calculate_limit_reason st (default 0%Z (t_uploaded torrent)) now
                tl Hs) as Hr.
  rewrite <- Hlr in Hr. exact Hr.
Qed.

(** The warmup band does exist in [_calculate_limit] called on its own. *)
Example warmup_band_outside_a_tick :
  warmup_reason
    (snd (snd (_calculate_limit Scenario.warmup_state 943718400 1000 1800)))
  = true.
Proof. vm_compute. reflexivity. Qed.

(* ------------------------------------------------------------------ *)
(** ** Syncing and first sight *)

(** With no [reannounce_time] and a positive cached value, every source
    of the oracle gives a positive time left. *)
Lemma oracle_positive (env : Env) (client : Client) (h trk : string)
    (state : TorrentLimitState.t) (stats : Stats) (now : Q) :
  (0 <? reannounce_time state) = false ->
  0 < cached_time_left state ->
  0 < fst (snd (_get_reannounce_time env client h trk state stats now)).
Proof.
  intros Hrt Hc. unfold _get_reannounce_time.
  pose proof (site_method_yields env h trk state) as Hy.
  pose proof (site_method_state env h trk state) as Hst.
  destruct (site_method env h trk state) as [state1 [v |]]; cbn [fst snd] in *.
  - now destruct (Hy v eq_refl).
  - unfold qb_method.
    destruct (torrents_properties client h) as [props |].
    + destruct (ltb_reflect 0 (default 0 props)) as [Hp | Hp]; cbn [andb].
      * destruct (default 0 props <? 86400); cbn [fst snd]; [exact Hp |].
        assert (Hrt1 : reannounce_time state1 = reannounce_time state)
          by (destruct Hst as [-> | (a & b & ->)]; reflexivity).
        rewrite Hrt1, Hrt. exact Hc.
      * assert (Hrt1 : reannounce_time state1 = reannounce_time state)
          by (destruct Hst as [-> | (a & b & ->)]; reflexivity).
        rewrite Hrt1, Hrt. exact Hc.
    + assert (Hrt1 : reannounce_time state1 = reannounce_time state)
        by (destruct Hst as [-> | (a & b & ->)]; reflexivity).
      rewrite Hrt1, Hrt. exact Hc.
Qed.

(** The sync flag across the first part of a tick that does not raise. *)
Lemma compute_limit_sync (env : Env) (self : PrecisionLimitEngine.t)
    (instance_id : Z) (client : Client) (torrent : Torrent)
    (rule : SpeedRule) (now : Q) :
  let st := PrecisionLimitEngine.state_for self instance_id torrent rule now in
  let result :=
    PrecisionLimitEngine.compute_limit env self instance_id client torrent
      rule now in
  let st' := fst (fst result) in
  match snd result with
  | Some _ =>
    cycle_synced st' = cycle_synced st || (0 <? cached_time_left st')
    /\ ((0 <? reannounce_time st) = false -> 0 < cached_time_left st ->
        0 < cached_time_left st')
  | None =>
    cycle_synced st' = cycle_synced st
    /\ cached_time_left st' = cached_time_left st
  end.
Proof.
  intros st result st'. subst st' result.
  unfold PrecisionLimitEngine.compute_limit. fold st.
  destruct (KalmanFilter.update _ _ _) as [kalman1 raised].
  destruct raised; cbn [fst snd]; [split; reflexivity |].
  match goal with
  | |- context [_get_reannounce_time ?e ?c ?h ?t ?s ?k ?n] =>
    pose proof (get_reannounce_time_frame e c h t s k n) as Hf;
    pose proof (oracle_positive e c h t s k n) as Hpos;
    destruct (_get_reannounce_time e c h t s k n)
      as [[st2 stats2] [time_left source]]
  end.
  cbn [fst snd] in Hf, Hpos.
  destruct Hf as (_ & _ & _ & _ & _ & _ & _ & Hsy & Hct & _).
  match goal with
  | |- context [_calculate_limit ?s ?u ?n ?t] =>
    destruct (calculate_limit_state s u n t) as [p Hp];
    destruct (_calculate_limit s u n t) as [st3 limit_reason]
  end.
  cbn [fst] in Hp. subst st3. cbn [fst snd]. state_simpl.
  split.
  - destruct (cycle_synced st) eqn:Hs0;
      repeat (progress (state_simpl; rewrite ?Hsy)).
    + destruct (cached_time_left st + 30 <? time_left) eqn:Hj;
        repeat (progress (state_simpl; rewrite ?Hsy, ?Hj, ?Hct));
        reflexivity.
    + destruct (0 <? time_left) eqn:Hp0;
        repeat (progress (state_simpl; rewrite ?Hsy, ?Hp0)); reflexivity.
  - intros Hrt Hc. specialize (Hpos Hrt Hc).
    repeat match goal with
           | |- context [if ?b then _ else _] => destruct b
           end; state_simpl; exact Hpos.
Qed.

(** X7. A tick over a tracked torrent never clears [cycle_synced]: when
    it does not raise, the state is synced afterwards exactly when it was
    before or the time left of the tick is positive. *)
Theorem tick_sync_flag (env : Env) (self : PrecisionLimitEngine.t)
    (instance_id : Z) (client : Client) (torrent : Torrent)
    (rule : SpeedRule) (now : Q) (st : TorrentLimitState.t) :
  PrecisionLimitEngine._states self !! t_hash torrent = Some st ->
  let result :=
    PrecisionLimitEngine._process_torrent env self instance_id client torrent
      rule now in
  exists st',
    PrecisionLimitEngine._states (fst (fst result)) !! t_hash torrent = Some st'
    /\ cycle_synced st'
       = if snd result then cycle_synced st
         else cycle_synced st || (0 <? cached_time_left st').
Proof.
  intros Hst result. subst result.
  destruct (process_torrent_state env self instance_id client torrent rule now)
    as (st' & Hlook & _ & _ & _ & Hsy & Hct & _).
  pose proof (compute_limit_sync env self instance_id client torrent rule now)
    as Hsync.
  cbn zeta in Hsync.
  rewrite (state_for_lookup self instance_id torrent rule now st Hst) in Hsync.
  exists st'. split; [exact Hlook |].
  rewrite Hsy, Hct. clear Hlook Hsy Hct.
  unfold PrecisionLimitEngine._process_torrent.
  destruct (PrecisionLimitEngine.compute_limit _ _ _ _ _ _ _)
    as [[state stats] [[new_limit reason] |]]; cbn [fst snd] in *.
  - destruct (PrecisionLimitEngine.apply_limit _ _ _ _ _ _) as [state1 calls].
    cbn [snd]. now destruct Hsync.
  - cbn [snd]. now destruct Hsync.
Qed.

Lemma tick_sync_flag_witness :
  exists st',
    PrecisionLimitEngine._states
      (fst (fst (PrecisionLimitEngine._process_torrent
                   (Sample.env_qb (Returns (Some 1495))) Tracked.engine 1
                   (Sample.client (Returns (Some 1495)))
                   (Sample.torrent 500 0) Sample.rule 1005)))
    !! t_hash (Sample.torrent 500 0) = Some st'
    /\ cycle_synced st'
       = if snd (PrecisionLimitEngine._process_torrent
                   (Sample.env_qb (Returns (Some 1495))) Tracked.engine 1
                   (Sample.client (Returns (Some 1495)))
                   (Sample.torrent 500 0) Sample.rule 1005)
         then cycle_synced Tracked.state
         else cycle_synced Tracked.state || (0 <? cached_time_left st').
Proof.
  apply (tick_sync_flag (Sample.env_qb (Returns (Some 1495))) Tracked.engine 1
           (Sample.client (Returns (Some 1495))) (Sample.torrent 500 0)
           Sample.rule 1005 Tracked.state).
  reflexivity.
Defined.

(** X8. A torrent seen for the first time is tracked from that tick on:
    the call does not raise, and the new state is in cycle 0, anchored at
    [now] and at the reported uploaded count, and synced at once. *)
Theorem first_tick_creates_synced_state (env : Env)
    (self : PrecisionLimitEngine.t) (instance_id : Z) (client : Client)
    (torrent : Torrent) (rule : SpeedRule) (now : Q) :
  PrecisionLimitEngine._states self !! t_hash torrent = None ->
  let result :=
    PrecisionLimitEngine._process_torrent env self instance_id client torrent
      rule now in
  snd result = false
  /\ exists st',
      PrecisionLimitEngine._states (fst (fst result)) !! t_hash torrent
      = Some st'
      /\ cycle_synced st' = true
      /\ cycle_index st' = 0%Z
      /\ cycle_start st' = now
      /\ cycle_uploaded_start st' = default 0%Z (t_uploaded torrent).
Proof.
  intros Hnone result. subst result.
  assert (Hfor : PrecisionLimitEngine.state_for self instance_id torrent rule
                   now
                 = set_target_speed (PrecisionLimitEngine.rule_target_speed rule)
                     (set_cycle_uploaded_start (default 0%Z (t_uploaded torrent))
                       (set_cycle_start now
                         (set_instance_id instance_id
                           (set_tracker (default "" (t_tracker torrent))
                             (set_name
                                (String.substring 0 30
                                   (default "" (t_name torrent)))
                                (TorrentLimitState.make (t_hash torrent)))))))).
  { unfold PrecisionLimitEngine.state_for. now rewrite Hnone. }
  destruct (process_torrent_state env self instance_id client torrent rule now)
    as (st' & Hlook & Hci & Hcs & Hcu & Hsy & Hct & _).
  pose proof (compute_limit_sync env self instance_id client torrent rule now)
    as Hsync.
  pose proof (compute_limit_cycle env self instance_id client torrent rule now)
    as Hcyc.
  destruct (compute_limit_kalman env self instance_id client torrent rule now)
    as (_ & Hsome & _).
  cbn zeta in Hsync, Hcyc, Hsome. rewrite Hfor in Hsync, Hcyc, Hsome.
  state_simpl. cbn [TorrentLimitState.make] in Hsync, Hcyc, Hsome.
  state_simpl.
  specialize (Hsome eq_refl). cbn [andb] in Hcyc.
  destruct Hcyc as (Hci1 & Hcs1 & Hcu1).
  assert (Hraise : snd (PrecisionLimitEngine._process_torrent env self
                          instance_id client torrent rule now) = false).
  { unfold PrecisionLimitEngine._process_torrent.
    destruct (PrecisionLimitEngine.compute_limit _ _ _ _ _ _ _)
      as [[state stats] res]; cbn [snd] in Hsome.
    destruct Hsome as [[new_limit reason] ->].
    destruct (PrecisionLimitEngine.apply_limit _ _ _ _ _ _); reflexivity. }
  split; [exact Hraise |].
  exists st'. split; [exact Hlook |].
  rewrite Hsy, Hci, Hcs, Hcu.
  destruct Hsome as [lr Hlr]. rewrite Hlr in Hsync.
  destruct Hsync as [Hs Hp].
  specialize (Hp eq_refl ltac:(reflexivity)).
  apply ltb_lt in Hp. rewrite Hp in Hs.
  repeat split; assumption.
Qed.

Lemma first_tick_creates_synced_state_witness :
  snd (PrecisionLimitEngine._process_torrent
         (Sample.env_qb Raises) PrecisionLimitEngine.init 1
         (Sample.client Raises) (Sample.torrent 500 0) Sample.rule 1005)
  = false
  /\ exists st',
      PrecisionLimitEngine._states
        (fst (fst (PrecisionLimitEngine._process_torrent
                     (Sample.env_qb Raises) PrecisionLimitEngine.init 1
                     (Sample.client Raises) (Sample.torrent 500 0)
                     Sample.rule 1005)))
      !! t_hash (Sample.torrent 500 0) = Some st'
      /\ cycle_synced st' = true
      /\ cycle_index st' = 0%Z
      /\ cycle_start st' = 1005
      /\ cycle_uploaded_start st' = default 0%Z (t_uploaded (Sample.torrent 500 0)).
Proof.
  apply (first_tick_creates_synced_state (Sample.env_qb Raises)
           PrecisionLimitEngine.init 1 (Sample.client Raises)
           (Sample.torrent 500 0) Sample.rule 1005).
  reflexivity.
Defined.

(* ------------------------------------------------------------------ *)
(** ** The counters of the oracle *)

(** X9. Every call of the oracle adds one to exactly one counter --
    [site_success] for source [site], [qb_api_success] for [qb_api],
    [fallback_count] for [estimated] and [cached] -- and leaves
    [torrents_controlled] alone. *)
Theorem oracle_counts_once (env : Env) (client : Client) (h trk : string)
    (state : TorrentLimitState.t) (stats : Stats) (now : Q) :
  let result := _get_reannounce_time env client h trk state stats now in
  let stats' := snd (fst result) in
  let source := snd (snd result) in
  site_success stats'
  = (site_success stats
     + match source with src_site => 1 | _ => 0 end)%Z
  /\ qb_api_success stats'
     = (qb_api_success stats
        + match source with src_qb_api => 1 | _ => 0 end)%Z
  /\ fallback_count stats'
     = (fallback_count stats
        + match source with src_estimated | src_cached => 1 | _ => 0 end)%Z
  /\ torrents_controlled stats' = torrents_controlled stats
  /\ source <> src_unknown.
Proof.
  unfold _get_reannounce_time.
  destruct (site_method env h trk state) as [state1 [v |]].
  - cbn. repeat split; try lia. discriminate.
  - destruct (qb_method client h) as [v |].
    + cbn. repeat split; try lia. discriminate.
    + destruct (0 <? reannounce_time state1); cbn; repeat split; try lia;
        discriminate.
Qed.

(* ------------------------------------------------------------------ *)
(** ** What [_process_all] touches *)

Lemma process_torrent_other (env : Env) (self : PrecisionLimitEngine.t)
    (instance_id : Z) (client : Client) (torrent : Torrent)
    (rule : SpeedRule) (now : Q) (h : string) :
  h <> t_hash torrent ->
  PrecisionLimitEngine._states
    (fst (fst (PrecisionLimitEngine._process_torrent env self instance_id
                 client torrent rule now))) !! h
  = PrecisionLimitEngine._states self !! h.
Proof.
  intros Hne. unfold PrecisionLimitEngine._process_torrent.
  destruct (PrecisionLimitEngine.compute_limit _ _ _ _ _ _ _)
    as [[state stats] [[new_limit reason] |]].
  - destruct (PrecisionLimitEngine.apply_limit _ _ _ _ _ _) as [state1 calls].
    cbn. now rewrite lookup_insert_ne.
  - cbn. now rewrite lookup_insert_ne.
Qed.

Section Untouched.

Variable str_lower : string -> string.
Variable url_hostname : string -> option string.

Lemma process_torrents_other (env : Env) (inst : Z) (client : Client)
    (rules : gmap (option Z) SpeedRule) (now : Q) (h : string)
    (torrents : list Torrent) :
  forall (self : PrecisionLimitEngine.t) (count : Z),
  Forall (fun torrent => t_hash torrent <> h) torrents ->
  PrecisionLimitEngine._states
    (fst (fst (fst (process_torrents str_lower url_hostname env self inst
                      client rules now count torrents)))) !! h
  = PrecisionLimitEngine._states self !! h.
Proof.
  induction torrents as [| torrent rest IH]; intros self count Hall.
  - reflexivity.
  - apply Forall_cons in Hall as [Hne Hall]. cbn [process_torrents].
    destruct (negb (_should_limit_torrent str_lower torrent));
      [now apply IH |].
    destruct (_find_rule str_lower url_hostname env torrent rules)
      as [[rule |] |]; [| now apply IH | reflexivity].
    pose proof (process_torrent_other env self inst client torrent rule now h
                  (not_eq_sym Hne)) as Hone.
    destruct (PrecisionLimitEngine._process_torrent env self inst client
                torrent rule now) as [[self1 calls1] raised].
    cbn [fst] in Hone. destruct raised; [exact Hone |].
    specialize (IH self1 (count + 1)%Z Hall).
    destruct (process_torrents str_lower url_hostname env self1 inst client
                rules now (count + 1)%Z rest)
      as [[[self2 calls2] count2] raised2].
    cbn [fst] in *. now rewrite IH.
Qed.

Lemma process_instances_other (env : Env) (rules : gmap (option Z) SpeedRule)
    (now : Q) (h : string) (instances : list Instance) :
  forall (self : PrecisionLimitEngine.t) (count : Z),
  (forall inst torrents,
     get_torrents (qb_manager env) inst = Returns torrents ->
     Forall (fun torrent => t_hash torrent <> h) torrents) ->
  PrecisionLimitEngine._states
    (fst (fst (fst (process_instances str_lower url_hostname env self rules
                      now count instances)))) !! h
  = PrecisionLimitEngine._states self !! h.
Proof.
  induction instances as [| instance rest IH]; intros self count Hall.
  - reflexivity.
  - cbn [process_instances].
    destruct (negb (inst_enabled instance)); [now apply IH |].
    destruct (get_client (qb_manager env) (inst_id instance))
      as [[client |] |]; [| now apply IH | reflexivity].
    destruct (get_torrents (qb_manager env) (inst_id instance))
      as [[| torrent torrents] |] eqn:Hget; [now apply IH | | now apply IH].
    pose proof (process_torrents_other env (inst_id instance) client rules now
                  h (torrent :: torrents) self count (Hall _ _ Hget)) as Hone.
    destruct (process_torrents str_lower url_hostname env self
                (inst_id instance) client rules now count (torrent :: torrents))
      as [[[self1 calls1] count1] raised].
    cbn [fst] in Hone. destruct raised; [exact Hone |].
    specialize (IH self1 count1 Hall).
    destruct (process_instances str_lower url_hostname env self1 rules now
                count1 rest) as [[[self2 calls2] count2] raised2].
    cbn [fst] in *. now rewrite IH.
Qed.

End Untouched.

(** X10. [_process_all] reads, creates and writes only the states of the
    torrents the clients list: the entry of any other hash -- a torrent
    that left every listing included -- is exactly as before. *)
Theorem process_all_leaves_unlisted (str_lower : string -> string)
    (url_hostname : string -> option string) (env : Env)
    (self : PrecisionLimitEngine.t) (now : Q) (h : string) :
  (forall inst torrents,
     get_torrents (qb_manager env) inst = Returns torrents ->
     Forall (fun torrent => t_hash torrent <> h) torrents) ->
  PrecisionLimitEngine._states
    (fst (fst (_process_all str_lower url_hostname env self now))) !! h
  = PrecisionLimitEngine._states self !! h.
Proof.
  intros Hall. unfold _process_all.
  destruct (get_speed_rules (db env)) as [rules |]; [| reflexivity].
  destruct (size (enabled_rules_of rules) =? 0)%nat; [reflexivity |].
  destruct (get_qb_instances (db env)) as [[| instance instances] |];
    [reflexivity | | reflexivity].
  pose proof (process_instances_other str_lower url_hostname env
                (enabled_rules_of rules) now h (instance :: instances) self 0%Z
                Hall) as Hone.
  destruct (process_instances str_lower url_hostname env self
              (enabled_rules_of rules) now 0%Z (instance :: instances))
    as [[[self1 calls] controlled_count] raised].
  cbn [fst] in Hone. destruct raised; exact Hone.
Qed.

Lemma process_all_leaves_unlisted_witness :
  PrecisionLimitEngine._states
    (fst (fst (_process_all Fleet.lower Fleet.hostname Fleet.env
                 Tracked.engine 2000))) !! "h"
  = PrecisionLimitEngine._states Tracked.engine !! "h".
Proof.
  apply (process_all_leaves_unlisted Fleet.lower Fleet.hostname Fleet.env
           Tracked.engine 2000 "h").
  intros inst torrents H. cbn in H. injection H as <-.
  repeat constructor; discriminate.
Defined.

(** The fleet of [Fleet], processed: both torrents become tracked, ["a"]
    under the rule of its site and ["b"] under the default rule. *)
Example fleet_processed :
  let result :=
    _process_all Fleet.lower Fleet.hostname Fleet.env
      PrecisionLimitEngine.init 2000 in
  (target_speed <$> (PrecisionLimitEngine._states (fst (fst result)) !! "a")
   = Some 2097152%Z)
  /\ (target_speed <$> (PrecisionLimitEngine._states (fst (fst result)) !! "b")
      = Some 1048576%Z)
  /\ torrents_controlled (PrecisionLimitEngine._stats (fst (fst result))) = 2%Z
  /\ snd result = false.
Proof. repeat split; vm_compute; reflexivity. Qed.

(* ------------------------------------------------------------------ *)
(** ** The rules of a pass *)

(** What the table of enabled rules holds: under each key an enabled rule
    of the list that names that site. *)
Lemma enabled_rules_of_lookup (rules : list SpeedRule) (k : option Z)
    (rule : SpeedRule) :
  enabled_rules_of rules !! k = Some rule ->
  rule_enabled rule = true /\ rule_site_id rule = k /\ rule ∈ rules.
Proof.
  unfold enabled_rules_of.
  assert (Hgen : forall m : gmap (option Z) SpeedRule,
    (forall k r, m !! k = Some r ->
       rule_enabled r = true /\ rule_site_id r = k) ->
    forall k r,
      foldl (fun m rule =>
               if rule_enabled rule then <[rule_site_id rule := rule]> m else m)
        m rules !! k = Some r ->
      (rule_enabled r = true /\ rule_site_id r = k)
      /\ (r ∈ rules \/ m !! k = Some r)).
  { induction rules as [| r0 rest IH]; intros m Hm k0 r Hr.
    - cbn in Hr. split; [now apply Hm | now right].
    - cbn [foldl] in Hr. apply IH in Hr.
      + destruct Hr as [Hok [Hin | Hin]].
        * split; [exact Hok |]. left. now apply list_elem_of_further.
        * split; [exact Hok |].
          destruct (rule_enabled r0) eqn:E; [| now right].
          rewrite lookup_insert in Hin.
          destruct (decide (rule_site_id r0 = k0)) as [Heq | Hne];
            [| now right].
          injection Hin as <-. left. apply list_elem_of_here.
      + intros k1 r1. destruct (rule_enabled r0) eqn:E; [| apply Hm].
        rewrite lookup_insert.
        destruct (decide (rule_site_id r0 = k1)) as [<- | Hne]; [| apply Hm].
        intros [= <-]. now split. }
  intros H. apply Hgen in H.
  - destruct H as [[H1 H2] [Hin | Hin]]; [easy |].
    rewrite lookup_empty in Hin. discriminate Hin.
  - intros k0 r Hr. rewrite lookup_empty in Hr. discriminate Hr.
Qed.

Lemma enabled_rules_of_disabled (rules : list SpeedRule) :
  forallb (fun rule => negb (rule_enabled rule)) rules = true ->
  enabled_rules_of rules = ∅.
Proof.
  unfold enabled_rules_of. generalize (∅ : gmap (option Z) SpeedRule).
  induction rules as [| r0 rest IH]; intros m H.
  - reflexivity.
  - cbn in H. apply andb_true_iff in H as [H0 H].
    cbn [foldl]. apply negb_true_iff in H0. rewrite H0. now apply IH.
Qed.

(** X11. When the read of the rules raises, or no rule is enabled,
    [_process_all] changes nothing, issues no call and does not raise. *)
Theorem process_all_without_rules (str_lower : string -> string)
    (url_hostname : string -> option string) (env : Env)
    (self : PrecisionLimitEngine.t) (now : Q) :
  match get_speed_rules (db env) with
  | Raises =>
    _process_all str_lower url_hostname env self now = (self, [], false)
  | Returns rules =>
    if forallb (fun rule => negb (rule_enabled rule)) rules
    then _process_all str_lower url_hostname env self now = (self, [], false)
    else True
  end.
Proof.
  unfold _process_all.
  destruct (get_speed_rules (db env)) as [rules |]; [| reflexivity].
  destruct (forallb _ rules) eqn:E; [| exact I].
  rewrite (enabled_rules_of_disabled rules E). reflexivity.
Qed.

(** X12. The rule [_find_rule] picks among the enabled rules of a list is
    an enabled rule of that list: the default rule (no site id), or the
    rule of a listed site whose keyword is not empty and occurs in the
    torrent's tracker, or whose URL and host are not empty and whose host
    occurs in it. *)
Theorem find_rule_sound (str_lower : string -> string)
    (url_hostname : string -> option string) (env : Env) (torrent : Torrent)
    (rules : list SpeedRule) :
  match _find_rule str_lower url_hostname env torrent (enabled_rules_of rules)
  with
  | Returns (Some rule) =>
    rule_enabled rule = true /\ rule ∈ rules
    /\ (rule_site_id rule = None
        \/ exists sites site,
            get_pt_sites (db env) = Returns sites /\ site ∈ sites
            /\ rule_site_id rule = site_ident site
            /\ (str_nonempty (default "" (site_tracker_keyword site)) = true
                /\ str_contains
                     (str_lower (default "" (site_tracker_keyword site)))
                     (str_lower (default "" (t_tracker torrent))) = true
                \/ str_nonempty (default "" (site_url site)) = true
                   /\ str_nonempty
                        (str_lower
                           (default ""
                              (url_hostname (default "" (site_url site)))))
                      = true
                   /\ str_contains
                        (str_lower
                           (default ""
                              (url_hostname (default "" (site_url site)))))
                        (str_lower (default "" (t_tracker torrent))) = true))
  | _ => True
  end.
Proof.
  unfold _find_rule.
  destruct (get_pt_sites (db env)) as [sites |]; [| exact I].
  set (trk := str_lower (default "" (t_tracker torrent))).
  set (m := enabled_rules_of rules).
  assert (Hgen : forall l rule,
    find_rule_loop str_lower url_hostname trk m l = Some rule ->
    m !! (None : option Z) = Some rule
    \/ exists site, site ∈ l /\ m !! site_ident site = Some rule
        /\ (str_nonempty (default "" (site_tracker_keyword site)) = true
            /\ str_contains
                 (str_lower (default "" (site_tracker_keyword site))) trk
               = true
            \/ str_nonempty (default "" (site_url site)) = true
               /\ str_nonempty
                    (str_lower
                       (default "" (url_hostname (default "" (site_url site)))))
                  = true
               /\ str_contains
                    (str_lower
                       (default "" (url_hostname (default "" (site_url site)))))
                    trk = true)).
  { induction l as [| site rest IH]; intros rule Hr; cbn [find_rule_loop] in Hr.
    - now left.
    - destruct (m !! site_ident site) as [r |] eqn:Hm.
      + destruct (str_nonempty (default "" (site_tracker_keyword site))
                  && str_contains
                       (str_lower (default "" (site_tracker_keyword site))) trk)
          eqn:Hk.
        * injection Hr as <-. apply andb_true_iff in Hk as [Hk0 Hk].
          right. exists site. split; [apply list_elem_of_here |].
          split; [exact Hm | left; now split].
        * destruct (str_nonempty (default "" (site_url site))
                    && str_nonempty
                         (str_lower
                            (default ""
                               (url_hostname (default "" (site_url site)))))
                    && str_contains
                         (str_lower
                            (default ""
                               (url_hostname (default "" (site_url site)))))
                         trk) eqn:Hu.
          -- injection Hr as <-. apply andb_true_iff in Hu as [Hu0 Hu].
             apply andb_true_iff in Hu0 as [Hu0 Hu1].
             right. exists site. split; [apply list_elem_of_here |].
             split; [exact Hm | right; now repeat split].
          -- destruct (IH _ Hr) as [Hd | (s & Hin & Hs & Hmatch)];
               [now left |].
             right. exists s. split; [now apply list_elem_of_further |].
             now split.
      + destruct (IH _ Hr) as [Hd | (s & Hin & Hs & Hmatch)]; [now left |].
        right. exists s. split; [now apply list_elem_of_further |].
        now split. }
  destruct (find_rule_loop str_lower url_hostname trk m sites) as [rule |]
    eqn:Hfind; [| exact I].
  destruct (Hgen sites rule Hfind) as [Hd | (site & Hin & Hs & Hmatch)].
  - apply enabled_rules_of_lookup in Hd as (He & Hid & Hin).
    repeat split; try assumption. now left.
  - apply enabled_rules_of_lookup in Hs as (He & Hid & Hin').
    repeat split; try assumption. right. exists sites, site.
    repeat split; assumption.
Qed.

(* ------------------------------------------------------------------ *)
(** ** What the engine leaves in the store *)

Lemma save_loop_grows (stamp : nat -> Q)
    (items : list (string * TorrentLimitState.t)) :
  forall (i : nat) (store : Store.t),
  dom (Store.torrent_limit_states store)
    ⊆ dom (Store.torrent_limit_states
             (PrecisionLimitEngine.save_loop stamp i items store))
  /\ Store.config (PrecisionLimitEngine.save_loop stamp i items store)
     = Store.config store.
Proof.
  induction items as [| [key state] rest IH]; intros i store.
  - split; reflexivity.
  - cbn [PrecisionLimitEngine.save_loop].
    destruct (IH (S i)
                (Store.save_torrent_limit_state (stamp i)
                   (PrecisionLimitEngine.dict_of_state state) store))
      as [Hd Hc].
    split; [| rewrite Hc; reflexivity].
    etransitivity; [| exact Hd]. cbn. rewrite dom_insert.
    apply union_subseteq_r.
Qed.

(** X13. Whatever the engine does, it never deletes a row of the
    persisted-state table and never writes the configuration table: the
    hashes with a row only grow over a run, and the configuration is the
    one the run started with. *)
Theorem store_rows_never_deleted (str_lower : string -> string)
    (url_hostname : string -> option string) (ops : list Op)
    (self : PrecisionLimitEngine.t) (store : Store.t) :
  let store' := snd (run_ops str_lower url_hostname ops (self, store)) in
  dom (Store.torrent_limit_states store)
    ⊆ dom (Store.torrent_limit_states store')
  /\ Store.config store' = Store.config store.
Proof.
  cbn zeta. unfold run_ops. revert self store.
  induction ops as [| op rest IH]; intros self store.
  - split; reflexivity.
  - cbn [foldl].
    assert (Hop :
      dom (Store.torrent_limit_states store)
        ⊆ dom (Store.torrent_limit_states
                 (snd (run_op str_lower url_hostname op (self, store))))
      /\ Store.config (snd (run_op str_lower url_hostname op (self, store)))
         = Store.config store).
    { destruct op as [saved clock | | tk | clk | clk]; cbn [run_op snd].
      - split; reflexivity.
      - split; reflexivity.
      - unfold run_loop_body.
        destruct (_process_all str_lower url_hostname (tick_env tk) self
                    (tick_now tk)) as [[self1 calls] raised].
        destruct raised; [split; reflexivity |].
        destruct (PrecisionLimitEngine._save_interval
                  <? tick_check tk - PrecisionLimitEngine._last_save_time self1);
          [| split; reflexivity].
        cbn [PrecisionLimitEngine._save_states_to_db snd].
        apply save_loop_grows.
      - apply save_loop_grows.
      - apply save_loop_grows. }
    destruct (run_op str_lower url_hostname op (self, store))
      as [self1 store1].
    cbn [snd] in Hop. destruct Hop as [Hd Hc].
    destruct (IH self1 store1) as [Hd' Hc'].
    split; [etransitivity; eassumption | now rewrite Hc'].
Qed.

Lemma restore_loop_tracked (clock : nat -> Q) (h : string)
    (rows : list DbRow) :
  forall (i : nat) (states : gmap string TorrentLimitState.t),
  is_Some (PrecisionLimitEngine.restore_loop clock i rows states !! h)
  <-> is_Some (states !! h)
      \/ exists (k : nat) (data : DbRow),
          rows !! k = Some data /\ row_hash data = h
          /\ (86400 <? clock (i + k)%nat - default 0 (row_updated_at data))
             = false.
Proof.
  induction rows as [| d rest IH]; intros i states.
  - cbn. split; [now left |]. intros [H | (k & data & Hk & _)];
      [exact H | discriminate Hk].
  - cbn [PrecisionLimitEngine.restore_loop].
    destruct (86400 <? clock i - default 0 (row_updated_at d)) eqn:Hstale.
    + rewrite IH. split.
      * intros [H | (k & data & Hk & Hh & Hf)]; [now left |].
        right. exists (S k), data. cbn.
        replace (i + S k)%nat with (S i + k)%nat by lia. now repeat split.
      * intros [H | (k & data & Hk & Hh & Hf)]; [now left |].
        destruct k as [| k].
        -- cbn in Hk. injection Hk as ->. rewrite Nat.add_0_r in Hf.
           congruence.
        -- right. exists k, data. cbn in Hk.
           replace (S i + k)%nat with (i + S k)%nat by lia. now repeat split.
    + rewrite IH. split.
      * intros [H | (k & data & Hk & Hh & Hf)].
        -- rewrite lookup_insert in H.
           destruct (decide (row_hash d = h)) as [Heq | Hne].
           ++ right. exists 0%nat, d. rewrite Nat.add_0_r. now repeat split.
           ++ now left.
        -- right. exists (S k), data. cbn.
           replace (i + S k)%nat with (S i + k)%nat by lia. now repeat split.
      * intros [H | (k & data & Hk & Hh & Hf)].
        -- left. rewrite lookup_insert.
           destruct (decide (row_hash d = h)); [now eexists | exact H].
        -- destruct k as [| k].
           ++ cbn in Hk. injection Hk as ->. left. rewrite Hh.
              rewrite lookup_insert_eq. now eexists.
           ++ right. exists k, data. cbn in Hk.
              replace (S i + k)%nat with (i + S k)%nat by lia.
              now repeat split.
Qed.

(** X14. After [_restore_states_from_db] a hash is tracked exactly when it
    was tracked before or the listing holds a row of that hash that is
    no older than 86400 s at its reading of the clock, a row without
    [updated_at] counting as written at time 0; a failing read of the
    table leaves the engine as it is. *)
Theorem restore_tracks_fresh_rows (self : PrecisionLimitEngine.t)
    (saved_states : ext (list DbRow)) (clock : nat -> Q) (h : string) :
  let self' :=
    PrecisionLimitEngine._restore_states_from_db self saved_states clock in
  match saved_states with
  | Raises => self' = self
  | Returns rows =>
    is_Some (PrecisionLimitEngine._states self' !! h)
    <-> is_Some (PrecisionLimitEngine._states self !! h)
        \/ exists (k : nat) (data : DbRow),
            rows !! k = Some data /\ row_hash data = h
            /\ ~ 86400 < clock k - default 0 (row_updated_at data)
  end.
Proof.
  cbn zeta. destruct saved_states as [rows |]; [| reflexivity].
  cbn [PrecisionLimitEngine._restore_states_from_db
       PrecisionLimitEngine.set_states PrecisionLimitEngine._states].
  rewrite restore_loop_tracked. cbn [Nat.add].
  split; (intros [H | (k & data & Hk & Hh & Hf)]; [now left | right]);
    exists k, data; (split; [exact Hk |]); (split; [exact Hh |]).
  - apply ltb_ge in Hf. lra.
  - apply ltb_ge. lra.
Qed.

(* ------------------------------------------------------------------ *)
(** ** Inspection *)

(** X15. [get_state] answers [None] exactly for a hash that is not
    tracked.  In the report of a tracked one the phase is the phase of the
    reported time left and sync flag, and the time left is never negative
    when it comes from an announce time; the uploaded amount of the
    cycle, its average speed and the progress are never negative; the
    distance is the target minus the uploaded amount. *)
Theorem get_state_report (self : PrecisionLimitEngine.t)
    (clients : list (Z * option InfoClient)) (h : string) (now : Q) :
  match get_state self clients h now with
  | None => PrecisionLimitEngine._states self !! h = None
  | Some r =>
    exists state,
      PrecisionLimitEngine._states self !! h = Some state
      /\ r_hash r = TorrentLimitState.hash state
      /\ r_phase r = Util.get_phase (r_time_left r) (r_cycle_synced r)
      /\ (if 0 <? reannounce_time state then 0 <= r_time_left r
          else r_time_left r = cached_time_left state)
      /\ (0 <= r_cycle_uploaded r)%Z
      /\ 0 <= r_cycle_avg_speed r
      /\ 0 <= r_target_progress r
      /\ r_target_distance r
         = r_target_upload r - Py.float (r_cycle_uploaded r)
  end.
Proof.
  unfold get_state.
  destruct (PrecisionLimitEngine._states self !! h) as [state |];
    [| reflexivity].
  destruct (current_upload clients h) as [current_uploaded current_speed].
  exists state. cbn [r_hash r_phase r_time_left r_cycle_synced
    r_cycle_uploaded r_cycle_avg_speed r_target_progress r_target_distance
    r_target_upload].
  assert (Hup : (0 <= TorrentLimitState.get_cycle_uploaded state
                        current_uploaded)%Z).
  { unfold TorrentLimitState.get_cycle_uploaded. rewrite zmax_max. lia. }
  assert (Hupq : 0 <= Py.float (TorrentLimitState.get_cycle_uploaded state
                                  current_uploaded)).
  { unfold Py.float. change 0 with (inject_Z 0). rewrite <- Zle_Qle.
    exact Hup. }
  split; [reflexivity |]. split; [reflexivity |].
  split.
  { unfold TorrentLimitState.get_phase, Util.get_phase.
    destruct (cycle_synced state); reflexivity. }
  split.
  { destruct (0 <? reannounce_time state); [apply py_max_lower | reflexivity]. }
  split; [exact Hup |].
  split.
  { destruct (ltb_reflect 0 (if 0 <? cycle_start state
                             then now - cycle_start state else 0))
      as [Hd | _]; [| lra].
    apply Qle_shift_div_l; [exact Hd | lra]. }
  split; [| reflexivity].
  destruct (ltb_reflect 0 (if 0 <? cached_time_left state
                           then Py.float (target_speed state)
                                * cached_time_left state else 0))
    as [Hd | _]; [| lra].
  apply Qmult_le_0_compat; [| lra].
  apply Qle_shift_div_l; [exact Hd | lra].
Qed.

Lemma all_states_loop_hashes (self : PrecisionLimitEngine.t)
    (clients : nat -> list (Z * option InfoClient)) (clock : nat -> Q)
    (keys : list string) :
  forall i : nat,
  states_keyed (PrecisionLimitEngine._states self) ->
  Forall (fun h => is_Some (PrecisionLimitEngine._states self !! h)) keys ->
  r_hash <$> all_states_loop self clients clock i keys = keys.
Proof.
  intros i Hk. revert i.
  induction keys as [| h rest IH]; intros i Hall.
  - reflexivity.
  - apply Forall_cons in Hall as [[state Hh] Hall].
    cbn [all_states_loop]. unfold get_state at 1. rewrite Hh.
    destruct (current_upload (clients i) h) as [cu cs].
    rewrite fmap_cons. cbn [r_hash]. rewrite (Hk h state Hh).
    f_equal. now apply IH.
Qed.

(** X16. For an engine reached from its construction, [get_all_states]
    reports every tracked torrent once: the hashes of the reports are the
    keys of the state table in their order, and the reports are as many as
    the [states_count] of [get_stats]. *)
Theorem get_all_states_covers (str_lower : string -> string)
    (url_hostname : string -> option string) (ops : list Op)
    (store : Store.t) (clients : nat -> list (Z * option InfoClient))
    (clock : nat -> Q) :
  let self :=
    fst (run_ops str_lower url_hostname ops
           (PrecisionLimitEngine.init, store)) in
  r_hash <$> get_all_states self clients clock
  = fst <$> map_to_list (PrecisionLimitEngine._states self)
  /\ Z.of_nat (length (get_all_states self clients clock))
     = states_count (get_stats self).
Proof.
  intros self.
  assert (H : r_hash <$> get_all_states self clients clock
              = fst <$> map_to_list (PrecisionLimitEngine._states self)).
  { unfold get_all_states. apply all_states_loop_hashes.
    - apply states_keyed_reachable.
    - apply Forall_fmap, Forall_forall. intros [h st] Hin. cbn.
      apply elem_of_map_to_list in Hin. now exists st. }
  split; [exact H |].
  cbn [get_stats states_count]. f_equal.
  rewrite <- (length_fmap r_hash), H, length_fmap.
  apply length_map_to_list.
Qed.

(* ------------------------------------------------------------------ *)
(** ** The removal pass *)

Section RemovalInvariant.

(** A property of the records that [_remove_torrent] keeps is kept by a
    pass and by a run of passes. *)
Variable P : Removals -> Prop.

Hypothesis P_remove_torrent :
  forall driver self rs instance torrent rule now,
  P rs ->
  P (fst (fst (_remove_torrent driver self rs instance torrent rule now))).

Lemma remove_torrents_inv (driver : RemoveDriver.t)
    (self : AutoRemoveEngine.t) (clk : PassClock) (instance : NamedInstance)
    (rules : list RemoveRule) (free_space : Z) (torrents : list Torrent) :
  forall (i : nat) (rs : Removals),
  P rs ->
  P (fst (fst (fst (remove_torrents driver self clk instance rules free_space
                      torrents i rs)))).
Proof.
  induction torrents as [| torrent rest IH]; intros i rs HP.
  - exact HP.
  - cbn [remove_torrents].
    destruct (AutoRemoveEngine._match_rules torrent rules free_space
                (check_time clk i)) as [rule |]; [| now apply IH].
    pose proof (P_remove_torrent driver self rs instance torrent rule
                  (record_time clk i) HP) as Hone.
    destruct (_remove_torrent driver self rs instance torrent rule
                (record_time clk i)) as [[rs1 calls1] raised].
    cbn [fst] in Hone. destruct raised; [exact Hone |].
    destruct (negb (running_after clk i)); [exact Hone |].
    specialize (IH (S i) rs1 Hone).
    destruct (remove_torrents driver self clk instance rules free_space rest
                (S i) rs1) as [[[rs2 calls2] i2] flow].
    exact IH.
Qed.

Lemma remove_instances_inv (driver : RemoveDriver.t)
    (self : AutoRemoveEngine.t) (clk : PassClock) (rules : list RemoveRule)
    (instances : list NamedInstance) :
  forall (i : nat) (rs : Removals),
  P rs ->
  P (fst (fst (remove_instances driver self clk rules instances i rs))).
Proof.
  induction instances as [| instance rest IH]; intros i rs HP.
  - exact HP.
  - cbn [remove_instances].
    destruct (negb (inst_enabled (inst instance))); [now apply IH |].
    destruct (RemoveDriver.is_connected driver (inst_id (inst instance)))
      as [[|] |]; [| now apply IH | exact HP].
    destruct (RemoveDriver.get_free_space driver (inst_id (inst instance)))
      as [free_space |]; [| exact HP].
    destruct (RemoveDriver.get_torrents driver (inst_id (inst instance)))
      as [torrents |]; [| exact HP].
    pose proof (remove_torrents_inv driver self clk instance rules free_space
                  torrents i rs HP) as Hone.
    destruct (remove_torrents driver self clk instance rules free_space
                torrents i rs) as [[[rs1 calls1] i1] flow].
    cbn [fst] in Hone.
    destruct flow; [| exact Hone | exact Hone].
    specialize (IH i1 rs1 Hone).
    destruct (remove_instances driver self clk rules rest i1 rs1)
      as [[rs2 calls2] flow2].
    exact IH.
Qed.

Lemma check_and_remove_inv (rdb : RemoveDb) (driver : RemoveDriver.t)
    (self : AutoRemoveEngine.t) (clk : PassClock) (rs : Removals) :
  P rs -> P (fst (fst (_check_and_remove rdb driver self clk rs))).
Proof.
  intros HP. unfold _check_and_remove.
  destruct (get_enabled_remove_rules rdb) as [[| rule rules] |];
    [exact HP | | exact HP].
  destruct (get_named_instances rdb) as [instances |]; [| exact HP].
  now apply remove_instances_inv.
Qed.

Lemma run_passes_inv (passes : list Pass) :
  forall rs : Removals, P rs -> P (run_passes passes rs).
Proof.
  unfold run_passes.
  induction passes as [| p rest IH]; intros rs HP.
  - exact HP.
  - cbn [foldl]. apply IH. now apply check_and_remove_inv.
Qed.

End RemovalInvariant.

Lemma slice_last_length {A : Type} (n : nat) (l : list A) :
  (n < length l)%nat -> (0 < n)%nat ->
  length (slice_last (Z.of_nat n) l) = n.
Proof.
  intros Hlt Hpos. unfold slice_last.
  destruct (Z.ltb_spec 0 (Z.of_nat n)) as [_ | H]; [| lia].
  rewrite length_drop, Nat2Z.id. lia.
Qed.

Lemma freed_by_app (l : list RemoveRecord.t) (r : RemoveRecord.t) :
  freed_by (l ++ [r]) = (freed_by l + RemoveRecord.size r)%Z.
Proof.
  unfold freed_by. induction l as [| a l IH]; cbn; [lia |].
  cbn in IH. rewrite IH. lia.
Qed.

Lemma remove_torrent_ring (driver : RemoveDriver.t)
    (self : AutoRemoveEngine.t) (rs : Removals) (instance : NamedInstance)
    (torrent : Torrent) (rule : RemoveRule) (now : Q) :
  ring_ok rs ->
  ring_ok (fst (fst (_remove_torrent driver self rs instance torrent rule
                       now))).
Proof.
  intros [Hlen Hsum]. unfold _remove_torrent.
  destruct (RemoveDriver.delete_torrent driver _ _ _) as [[[|] msg] |];
    cbn [fst]; [| now split | now split].
  unfold ring_ok, _max_records in *.
  cbn [_remove_records _total_removed _total_freed].
  rewrite length_app. cbn [length].
  destruct (Z.ltb_spec 500 (Z.of_nat (length (_remove_records rs) + 1)))
    as [Hfull | Hroom].
  - split.
    + change 500%Z with (Z.of_nat 500).
      rewrite slice_last_length; [lia | rewrite length_app; cbn; lia | lia].
    + destruct (Z.leb_spec (_total_removed rs + 1) 500); [lia | exact I].
  - split.
    + rewrite length_app. cbn [length]. lia.
    + destruct (Z.leb_spec (_total_removed rs + 1) 500) as [Hle | _];
        [| exact I].
      destruct (Z.leb_spec (_total_removed rs) 500) as [_ | Hgt]; [| lia].
      rewrite freed_by_app, Hsum. reflexivity.
Qed.

(** X17. Over any run of removal passes from a new engine the ring of
    records holds [min(_total_removed, 500)] entries, and as long as no
    more than 500 torrents have been removed [_total_freed] is the sum of
    the recorded sizes. *)
Theorem records_ring (passes : list Pass) :
  let rs := run_passes passes removals_init in
  Z.of_nat (length (_remove_records rs))
  = Z.min (_total_removed rs) _max_records
  /\ (if (_total_removed rs <=? _max_records)%Z
      then _total_freed rs = freed_by (_remove_records rs) else True).
Proof.
  apply (run_passes_inv ring_ok).
  - intros. now apply remove_torrent_ring.
  - split; reflexivity.
Qed.

Lemma remove_torrents_justified (driver : RemoveDriver.t)
    (self : AutoRemoveEngine.t) (clk : PassClock) (rules : list RemoveRule)
    (instances : list NamedInstance) (instance : NamedInstance)
    (free_space : Z) (all : list Torrent) :
  instance ∈ instances ->
  inst_enabled (inst instance) = true ->
  RemoveDriver.is_connected driver (inst_id (inst instance)) = Returns true ->
  RemoveDriver.get_free_space driver (inst_id (inst instance))
  = Returns free_space ->
  RemoveDriver.get_torrents driver (inst_id (inst instance)) = Returns all ->
  forall (torrents : list Torrent) (i : nat) (rs : Removals),
  torrents ⊆ all ->
  Forall (call_justified driver self clk rules instances)
    (snd (fst (fst (remove_torrents driver self clk instance rules free_space
                      torrents i rs)))).
Proof.
  intros Hin Hen Hconn Hfree Hall.
  induction torrents as [| torrent rest IH]; intros i rs Hsub.
  - constructor.
  - cbn [remove_torrents].
    assert (Hrest : rest ⊆ all).
    { intros x Hx. apply Hsub. now apply list_elem_of_further. }
    destruct (AutoRemoveEngine._match_rules torrent rules free_space
                (check_time clk i)) as [rule |] eqn:Hmatch;
      [| now apply IH].
    assert (Hrule : rule ∈ rules).
    { clear -Hmatch. induction rules as [| r0 rules IHr]; [discriminate |].
      cbn in Hmatch. destruct (rr_condition r0) as [c |].
      - destruct (AutoRemoveEngine._check_condition torrent c free_space
                    (check_time clk i)).
        + injection Hmatch as ->. apply list_elem_of_here.
        + apply list_elem_of_further. now apply IHr.
      - apply list_elem_of_further. now apply IHr. }
    assert (Hwit : exists instance0 free_space0 torrents0 torrent0 rule0 i0,
      instance0 ∈ instances
      /\ inst_enabled (inst instance0) = true
      /\ inst_id (inst instance0) = inst_id (inst instance)
      /\ RemoveDriver.is_connected driver (inst_id (inst instance))
         = Returns true
      /\ RemoveDriver.get_free_space driver (inst_id (inst instance))
         = Returns free_space0
      /\ RemoveDriver.get_torrents driver (inst_id (inst instance))
         = Returns torrents0
      /\ torrent0 ∈ torrents0 /\ t_hash torrent0 = t_hash torrent
      /\ rule0 ∈ rules
      /\ AutoRemoveEngine._match_rules torrent0 rules free_space0
           (check_time clk i0) = Some rule0).
    { exists instance, free_space, all, torrent, rule, i.
      repeat split; try assumption; try reflexivity.
      apply Hsub, list_elem_of_here. }
    assert (Hone : Forall (call_justified driver self clk rules instances)
              (snd (fst (_remove_torrent driver self rs instance torrent rule
                           (record_time clk i))))).
    { assert (Hcalls : snd (fst (_remove_torrent driver self rs instance
                                   torrent rule (record_time clk i)))
        = (if AutoRemoveEngine._reannounce_before_delete self
           then [call_reannounce (inst_id (inst instance)) (t_hash torrent)]
           else [])
          ++ [call_delete (inst_id (inst instance)) (t_hash torrent)
                (AutoRemoveEngine._delete_files self)]).
      { unfold _remove_torrent.
        destruct (RemoveDriver.delete_torrent driver _ _ _)
          as [[[|] msg] |]; reflexivity. }
      rewrite Hcalls. apply Forall_app. split.
      - destruct (AutoRemoveEngine._reannounce_before_delete self) eqn:Hre;
          [| constructor].
        constructor; [| constructor]. split; [exact Hre | exact Hwit].
      - constructor; [| constructor]. split; [reflexivity | exact Hwit]. }
    destruct (_remove_torrent driver self rs instance torrent rule
                (record_time clk i)) as [[rs1 calls1] raised].
    cbn [fst snd] in Hone. destruct raised; [exact Hone |].
    destruct (negb (running_after clk i)); [exact Hone |].
    specialize (IH (S i) rs1 Hrest).
    destruct (remove_torrents driver self clk instance rules free_space rest
                (S i) rs1) as [[[rs2 calls2] i2] flow].
    cbn [fst snd] in IH |- *. apply Forall_app. now split.
Qed.

Lemma remove_instances_justified (driver : RemoveDriver.t)
    (self : AutoRemoveEngine.t) (clk : PassClock) (rules : list RemoveRule)
    (all : list NamedInstance) :
  forall (instances : list NamedInstance) (i : nat) (rs : Removals),
  instances ⊆ all ->
  Forall (call_justified driver self clk rules all)
    (snd (fst (remove_instances driver self clk rules instances i rs))).
Proof.
  induction instances as [| instance rest IH]; intros i rs Hsub.
  - constructor.
  - cbn [remove_instances].
    assert (Hrest : rest ⊆ all).
    { intros x Hx. apply Hsub. now apply list_elem_of_further. }
    destruct (inst_enabled (inst instance)) eqn:Hen; cbn [negb];
      [| now apply IH].
    destruct (RemoveDriver.is_connected driver (inst_id (inst instance)))
      as [[|] |] eqn:Hconn; [| now apply IH | constructor].
    destruct (RemoveDriver.get_free_space driver (inst_id (inst instance)))
      as [free_space |] eqn:Hfree; [| constructor].
    destruct (RemoveDriver.get_torrents driver (inst_id (inst instance)))
      as [torrents |] eqn:Hlist; [| constructor].
    pose proof (remove_torrents_justified driver self clk rules all instance
                  free_space torrents (Hsub _ (list_elem_of_here _ _)) Hen
                  Hconn Hfree Hlist torrents i rs (reflexivity _)) as Hone.
    destruct (remove_torrents driver self clk instance rules free_space
                torrents i rs) as [[[rs1 calls1] i1] flow].
    cbn [fst snd] in Hone.
    destruct flow; [| exact Hone | exact Hone].
    specialize (IH i1 rs1 Hrest).
    destruct (remove_instances driver self clk rules rest i1 rs1)
      as [[rs2 calls2] flow2].
    cbn [fst snd] in IH |- *. apply Forall_app. now split.
Qed.

(** X18. A removal pass touches only what a rule matches: every call it
    issues addresses a torrent listed by an enabled, connected instance
    and matched by one of the enabled rules at the free space of that
    instance; its delete calls carry the engine's [_delete_files], its
    reannounce calls are issued only under [_reannounce_before_delete];
    and when the read of the rules or of the instances raises, no call is
    issued. *)
Theorem pass_calls_justified (rdb : RemoveDb) (driver : RemoveDriver.t)
    (self : AutoRemoveEngine.t) (clk : PassClock) (rs : Removals) :
  let calls := snd (fst (_check_and_remove rdb driver self clk rs)) in
  match get_enabled_remove_rules rdb, get_named_instances rdb with
  | Returns rules, Returns instances =>
    Forall (call_justified driver self clk rules instances) calls
  | _, _ => calls = []
  end.
Proof.
  cbn zeta. unfold _check_and_remove.
  destruct (get_enabled_remove_rules rdb) as [[| rule rules] |].
  - destruct (get_named_instances rdb); [constructor | reflexivity].
  - destruct (get_named_instances rdb) as [instances |]; [| reflexivity].
    now apply remove_instances_justified.
  - reflexivity.
Qed.

Section PassTrace.

(** A relation between the records before a stretch of a pass, the calls
    of the stretch and the records after it, that holds of every
    [_remove_torrent] and composes, holds of the pass. *)
Variable driver : RemoveDriver.t.
Variable self : AutoRemoveEngine.t.
Variable R : Removals -> list DriverCall -> Removals -> Prop.

Hypothesis R_nil : forall rs, R rs [] rs.

Hypothesis R_app :
  forall rs1 calls1 rs2 calls2 rs3,
  R rs1 calls1 rs2 -> R rs2 calls2 rs3 -> R rs1 (calls1 ++ calls2) rs3.

Hypothesis R_remove_torrent :
  forall rs instance torrent rule now,
  R rs
    (snd (fst (_remove_torrent driver self rs instance torrent rule now)))
    (fst (fst (_remove_torrent driver self rs instance torrent rule now))).

Lemma remove_torrents_trace (clk : PassClock) (instance : NamedInstance)
    (rules : list RemoveRule) (free_space : Z) (torrents : list Torrent) :
  forall (i : nat) (rs : Removals),
  R rs
    (snd (fst (fst (remove_torrents driver self clk instance rules free_space
                      torrents i rs))))
    (fst (fst (fst (remove_torrents driver self clk instance rules free_space
                      torrents i rs)))).
Proof.
  induction torrents as [| torrent rest IH]; intros i rs.
  - apply R_nil.
  - cbn [remove_torrents].
    destruct (AutoRemoveEngine._match_rules torrent rules free_space
                (check_time clk i)) as [rule |]; [| apply IH].
    pose proof (R_remove_torrent rs instance torrent rule (record_time clk i))
      as Hone.
    destruct (_remove_torrent driver self rs instance torrent rule
                (record_time clk i)) as [[rs1 calls1] raised].
    cbn [fst snd] in Hone. destruct raised; [exact Hone |].
    destruct (negb (running_after clk i)); [exact Hone |].
    specialize (IH (S i) rs1).
    destruct (remove_torrents driver self clk instance rules free_space rest
                (S i) rs1) as [[[rs2 calls2] i2] flow].
    cbn [fst snd] in IH |- *. eapply R_app; eassumption.
Qed.

Lemma remove_instances_trace (clk : PassClock) (rules : list RemoveRule)
    (instances : list NamedInstance) :
  forall (i : nat) (rs : Removals),
  R rs
    (snd (fst (remove_instances driver self clk rules instances i rs)))
    (fst (fst (remove_instances driver self clk rules instances i rs))).
Proof.
  induction instances as [| instance rest IH]; intros i rs.
  - apply R_nil.
  - cbn [remove_instances].
    destruct (negb (inst_enabled (inst instance))); [apply IH |].
    destruct (RemoveDriver.is_connected driver (inst_id (inst instance)))
      as [[|] |]; [| apply IH | apply R_nil].
    destruct (RemoveDriver.get_free_space driver (inst_id (inst instance)))
      as [free_space |]; [| apply R_nil].
    destruct (RemoveDriver.get_torrents driver (inst_id (inst instance)))
      as [torrents |]; [| apply R_nil].
    pose proof (remove_torrents_trace clk instance rules free_space torrents
                  i rs) as Hone.
    destruct (remove_torrents driver self clk instance rules free_space
                torrents i rs) as [[[rs1 calls1] i1] flow].
    cbn [fst snd] in Hone.
    destruct flow; [| exact Hone | exact Hone].
    specialize (IH i1 rs1).
    destruct (remove_instances driver self clk rules rest i1 rs1)
      as [[rs2 calls2] flow2].
    cbn [fst snd] in IH |- *. eapply R_app; eassumption.
Qed.

Lemma check_and_remove_trace (rdb : RemoveDb) (clk : PassClock)
    (rs : Removals) :
  R rs
    (snd (fst (_check_and_remove rdb driver self clk rs)))
    (fst (fst (_check_and_remove rdb driver self clk rs))).
Proof.
  unfold _check_and_remove.
  destruct (get_enabled_remove_rules rdb) as [[| rule rules] |];
    [apply R_nil | | apply R_nil].
  destruct (get_named_instances rdb) as [instances |]; [| apply R_nil].
  apply remove_instances_trace.
Qed.

End PassTrace.

(** X19. In the calls of a removal pass the reannounce calls mirror the
    delete calls: under [_reannounce_before_delete] the torrents
    reannounced are, in order, the torrents whose deletion is requested,
    and without it no torrent is reannounced. *)
Theorem reannounce_mirrors_delete (rdb : RemoveDb) (driver : RemoveDriver.t)
    (self : AutoRemoveEngine.t) (clk : PassClock) (rs : Removals) :
  let calls := snd (fst (_check_and_remove rdb driver self clk rs)) in
  omap reannounce_target calls
  = if AutoRemoveEngine._reannounce_before_delete self
    then omap delete_target calls else [].
Proof.
  apply (check_and_remove_trace driver self
           (fun _ calls _ =>
              omap reannounce_target calls
              = if AutoRemoveEngine._reannounce_before_delete self
                then omap delete_target calls else [])).
  - intros _. now destruct (AutoRemoveEngine._reannounce_before_delete self).
  - intros _ calls1 _ calls2 _ H1 H2. rewrite !omap_app, H1, H2.
    now destruct (AutoRemoveEngine._reannounce_before_delete self).
  - intros rs0 instance torrent rule now. unfold _remove_torrent.
    destruct (RemoveDriver.delete_torrent driver _ _ _) as [[[|] msg] |];
      cbn [fst snd];
      now destruct (AutoRemoveEngine._reannounce_before_delete self).
Qed.

(** X20. A pass counts a torrent as removed exactly when the driver
    answers its delete call with success: [_total_removed] grows by the
    number of such calls, and a refused delete changes neither the
    records nor the totals. *)
Theorem removed_counts_successes (rdb : RemoveDb) (driver : RemoveDriver.t)
    (self : AutoRemoveEngine.t) (clk : PassClock) (rs : Removals) :
  let result := _check_and_remove rdb driver self clk rs in
  let successes := List.filter (delete_succeeds driver) (snd (fst result)) in
  _total_removed (fst (fst result))
  = (_total_removed rs + Z.of_nat (length successes))%Z
  /\ match successes with
     | [] => fst (fst result) = rs
     | _ :: _ => True
     end.
Proof.
  cbn zeta.
  assert (H : _total_removed
                (fst (fst (_check_and_remove rdb driver self clk rs)))
              = (_total_removed rs
                 + Z.of_nat
                     (length
                        (List.filter (delete_succeeds driver)
                           (snd (fst (_check_and_remove rdb driver self clk
                                        rs))))))%Z
              /\ (List.filter (delete_succeeds driver)
                    (snd (fst (_check_and_remove rdb driver self clk rs)))
                  = []
                  -> fst (fst (_check_and_remove rdb driver self clk rs))
                     = rs));
    [| destruct H as [H1 H2]; split; [exact H1 |];
       destruct (List.filter _ _); [now apply H2 | exact I]].
  apply (check_and_remove_trace driver self
           (fun rs calls rs' =>
              _total_removed rs'
              = (_total_removed rs
                 + Z.of_nat (length (List.filter (delete_succeeds driver)
                                       calls)))%Z
              /\ (List.filter (delete_succeeds driver) calls = []
                  -> rs' = rs))).
  - intros rs0. cbn. split; [lia | reflexivity].
  - intros rs1 calls1 rs2 calls2 rs3 [H1 E1] [H2 E2].
    rewrite List.filter_app, length_app. split; [lia |].
    intros Hnil. apply app_eq_nil in Hnil as [N1 N2].
    rewrite (E2 N2). exact (E1 N1).
  - intros rs0 instance torrent rule now. unfold _remove_torrent.
    assert (Hre : List.filter (delete_succeeds driver)
                    (if AutoRemoveEngine._reannounce_before_delete self
                     then [call_reannounce (inst_id (inst instance))
                             (t_hash torrent)]
                     else []) = []).
    { now destruct (AutoRemoveEngine._reannounce_before_delete self). }
    destruct (RemoveDriver.delete_torrent driver _ _ _)
      as [[[|] msg] |] eqn:Hdel; cbn [fst snd];
      rewrite List.filter_app, Hre;
      cbn [app List.filter delete_succeeds]; rewrite Hdel;
      cbn [length _total_removed].
    + split; [lia | discriminate].
    + split; [lia | reflexivity].
    + split; [lia | reflexivity].
Qed.

Lemma substring_length_le (n : nat) (s : string) :
  (String.length (String.substring 0 n s) <= n)%nat.
Proof.
  revert s. induction n as [| n IH]; intros [| a s]; cbn; try lia.
  specialize (IH s). lia.
Qed.

Lemma append_length (s1 s2 : string) :
  String.length (s1 +:+ s2) = (String.length s1 + String.length s2)%nat.
Proof.
  induction s1 as [| a s1 IH]; [reflexivity |]. simpl. f_equal. exact IH.
Qed.

(** X21. [get_records(limit)] lists the newest records first: for a
    positive [limit] the [limit] newest ones, for [limit = 0] all of them
    (the slice [[-0:]] is the whole list), for a negative [limit] all but
    the [-limit] oldest; and no listed name is longer than 53
    characters. *)
Theorem get_records_newest_first (strftime : Q -> string) (rs : Removals)
    (limit : Z) :
  let newest_first := record_dict strftime <$> reverse (_remove_records rs) in
  get_records strftime rs limit
  = (if (0 <? limit)%Z then take (Z.to_nat limit) newest_first
     else take (length newest_first - Z.to_nat (- limit)) newest_first)
  /\ get_records strftime rs 0 = newest_first
  /\ Forall (fun r => (String.length (rec_name r) <= 53)%nat)
       (get_records strftime rs limit).
Proof.
  cbn zeta. unfold get_records, slice_last.
  split; [| split].
  - rewrite length_fmap, length_reverse.
    destruct (0 <? limit)%Z; rewrite reverse_drop, fmap_take.
    + destruct (Nat.le_gt_cases (Z.to_nat limit)
                  (length (_remove_records rs))) as [Hle | Hgt].
      * f_equal. lia.
      * rewrite !take_ge; [reflexivity | | ];
          rewrite ?length_fmap, length_reverse; lia.
    + reflexivity.
  - reflexivity.
  - apply Forall_fmap, Forall_forall. intros r _.
    unfold compose, record_dict. cbn [rec_name].
    destruct (Nat.ltb_spec 50 (String.length (RemoveRecord.torrent_name r)))
      as [Hlong | Hshort].
    + rewrite append_length.
      pose proof (substring_length_le 50 (RemoveRecord.torrent_name r)).
      cbn [String.length]. lia.
    + lia.
Qed.

(* ------------------------------------------------------------------ *)
(** ** Rule matching *)

(** X24. [_match_rules] answers the first rule of the list whose
    condition parses and holds for the torrent: every rule before it has
    a condition that does not parse or does not hold, and [None] means
    that this is so for every rule. *)
Theorem match_rules_first (torrent : Torrent) (rules : list RemoveRule)
    (free_space : Z) (now : Q) :
  let fails (rule : RemoveRule) :=
    match rr_condition rule with
    | Returns condition =>
      AutoRemoveEngine._check_condition torrent condition free_space now
      = false
    | Raises => True
    end in
  match AutoRemoveEngine._match_rules torrent rules free_space now with
  | Some rule =>
    exists before after condition,
      rules = before ++ rule :: after
      /\ Forall fails before
      /\ rr_condition rule = Returns condition
      /\ AutoRemoveEngine._check_condition torrent condition free_space now
         = true
  | None => Forall fails rules
  end.
Proof.
  cbn zeta. induction rules as [| r0 rest IH].
  - constructor.
  - cbn [AutoRemoveEngine._match_rules].
    destruct (rr_condition r0) as [c |] eqn:Hc.
    + destruct (AutoRemoveEngine._check_condition torrent c free_space now)
        eqn:Hcheck.
      * exists [], rest, c. repeat split; [constructor | assumption..].
      * destruct (AutoRemoveEngine._match_rules torrent rest free_space now)
          as [rule |].
        -- destruct IH as (before & after & c' & -> & Hb & Hr & Hh).
           exists (r0 :: before), after, c'.
           repeat split; try assumption.
           constructor; [now rewrite Hc | exact Hb].
        -- constructor; [now rewrite Hc | exact IH].
    + destruct (AutoRemoveEngine._match_rules torrent rest free_space now)
        as [rule |].
      * destruct IH as (before & after & c' & -> & Hb & Hr & Hh).
        exists (r0 :: before), after, c'.
        repeat split; try assumption.
        constructor; [now rewrite Hc | exact Hb].
      * constructor; [now rewrite Hc | exact IH].
Qed.

(** X23. The keys of a condition are joined by "and": a torrent that
    passes a condition passes every condition that asks no more, so
    dropping a key never stops a rule from matching. *)
Theorem check_condition_weaker (torrent : Torrent) (c' c : Condition)
    (free_space : Z) (now : Q) :
  asks_no_more c' c ->
  AutoRemoveEngine._check_condition torrent c free_space now = true ->
  AutoRemoveEngine._check_condition torrent c' free_space now = true.
Proof.
  intros (H1 & H2 & H3 & H4 & H5 & H6 & H7) Hc.
  unfold AutoRemoveEngine._check_condition in *.
  repeat match type of Hc with
         | (if ?t then false else _) = true =>
           destruct t eqn:?; [discriminate Hc |]
         end.
  clear Hc.
  destruct H1 as [-> | ->], H2 as [-> | ->], H3 as [-> | [-> | ->]],
    H4 as [-> | ->], H5 as [-> | ->], H6 as [-> | ->], H7 as [-> | ->];
    cbv beta iota;
    repeat match goal with
           | H : _ = false |- _ => rewrite H; clear H
           end;
    reflexivity.
Qed.

Lemma check_condition_weaker_witness :
  AutoRemoveEngine._check_condition (Fleet.torrent "a" "t" 0) empty_condition
    0 1000 = true.
Proof.
  apply (check_condition_weaker (Fleet.torrent "a" "t" 0) empty_condition
           {| free_space_lt := Some 100; upload_speed_lt := Some 10;
              completed := Some true; seeding_time_gt := Some 50;
              ratio_gt := None; size_gt := None;
              no_peers_time_gt := None |} 0 1000).
  - unfold asks_no_more. cbn. repeat split; now left.
  - vm_compute. reflexivity.
Defined.

(* ------------------------------------------------------------------ *)
(** ** Configuration strings *)












(** X25. Disabling takes effect at the next iteration of the worker: after
    [set_config(enabled=False)], whatever else it sets, the iteration
    issues no call and leaves the records as they are. *)
Theorem disabled_worker_removes_nothing (rdb : RemoveDb)
    (driver : RemoveDriver.t) (self : AutoRemoveEngine.t) (store : Store.t)
    (interval sleep_between : option Z) (reannounce delete_files : option bool)
    (clk : PassClock) (rs : Removals) :
  let result :=
    AutoRemoveEngine.set_config self store interval sleep_between reannounce
      (Some false) delete_files in
  let iteration :=
    worker_iteration rdb driver (fst result) (snd result) clk rs in
  snd (fst iteration) = rs /\ snd iteration = [].
Proof.
  cbn zeta. unfold worker_iteration.
  assert (H : AutoRemoveEngine._enabled
                (AutoRemoveEngine._load_config
                   (fst (AutoRemoveEngine.set_config self store interval
                           sleep_between reannounce (Some false) delete_files))
                   (snd (AutoRemoveEngine.set_config self store interval
                           sleep_between reannounce (Some false) delete_files)))
              = false).
  { unfold AutoRemoveEngine.set_config, AutoRemoveEngine._load_config,
      Store.get_config, Store.set_config.
    destruct interval, sleep_between, reannounce, delete_files;
      cbn [fst snd Store.config AutoRemoveEngine._enabled];
      repeat (rewrite lookup_insert_ne by discriminate);
      rewrite lookup_insert_eq; reflexivity. }
  rewrite H. split; reflexivity.
Qed.

(* ------------------------------------------------------------------ *)
(** ** What a pass of the governor pushes *)

Lemma process_torrent_call_target (env : Env)
    (self : PrecisionLimitEngine.t) (instance_id : Z) (client : Client)
    (torrent : Torrent) (rule : SpeedRule) (now : Q) :
  Forall (fun c => call_instance c = instance_id
                   /\ call_hash c = t_hash torrent)
    (snd (fst (PrecisionLimitEngine._process_torrent env self instance_id
                 client torrent rule now))).
Proof.
  unfold PrecisionLimitEngine._process_torrent.
  destruct (PrecisionLimitEngine.compute_limit _ _ _ _ _ _ _)
    as [[state stats] [[new_limit reason] |]]; cbn [fst snd];
    [| constructor].
  unfold PrecisionLimitEngine.apply_limit.
  destruct (negb (new_limit =? last_limit state)%Z); [| constructor].
  destruct (set_upload_limit _ _ _ _); cbn [fst snd];
    (constructor; [now split | constructor]).
Qed.

Section PassCalls.

Variable str_lower : string -> string.
Variable url_hostname : string -> option string.

Lemma process_torrents_justified (env : Env)
    (rules : gmap (option Z) SpeedRule) (instances : list Instance)
    (instance : Instance) (client : Client) (all : list Torrent) (now : Q) :
  instance ∈ instances ->
  inst_enabled instance = true ->
  get_client (qb_manager env) (inst_id instance) = Returns (Some client) ->
  get_torrents (qb_manager env) (inst_id instance) = Returns all ->
  forall (torrents : list Torrent) (self : PrecisionLimitEngine.t)
         (count : Z),
  torrents ⊆ all ->
  Forall (limit_call_justified str_lower url_hostname env rules instances)
    (snd (fst (fst (process_torrents str_lower url_hostname env self
                      (inst_id instance) client rules now count torrents)))).
Proof.
  intros Hin Hen Hclient Hall.
  induction torrents as [| torrent rest IH]; intros self count Hsub.
  - constructor.
  - cbn [process_torrents].
    assert (Hrest : rest ⊆ all).
    { intros x Hx. apply Hsub. now apply list_elem_of_further. }
    destruct (_should_limit_torrent str_lower torrent) eqn:Hshould;
      cbn [negb]; [| now apply IH].
    destruct (_find_rule str_lower url_hostname env torrent rules)
      as [[rule |] |] eqn:Hrule; [| now apply IH | constructor].
    pose proof (process_torrent_call_target env self (inst_id instance)
                  client torrent rule now) as Hone.
    destruct (PrecisionLimitEngine._process_torrent env self
                (inst_id instance) client torrent rule now)
      as [[self1 calls1] raised].
    cbn [fst snd] in Hone.
    assert (Hjust : Forall (limit_call_justified str_lower url_hostname env
                              rules instances) calls1).
    { eapply Forall_impl; [exact Hone |]. intros c [Hi Hh].
      exists instance, client, all, torrent, rule.
      repeat split; try assumption; try (symmetry; assumption).
      apply Hsub, list_elem_of_here. }
    destruct raised; [exact Hjust |].
    specialize (IH self1 (count + 1)%Z Hrest).
    destruct (process_torrents str_lower url_hostname env self1
                (inst_id instance) client rules now (count + 1)%Z rest)
      as [[[self2 calls2] count2] raised2].
    cbn [fst snd] in IH |- *. apply Forall_app. now split.
Qed.

Lemma process_instances_justified (env : Env)
    (rules : gmap (option Z) SpeedRule) (all : list Instance) (now : Q) :
  forall (instances : list Instance) (self : PrecisionLimitEngine.t)
         (count : Z),
  instances ⊆ all ->
  Forall (limit_call_justified str_lower url_hostname env rules all)
    (snd (fst (fst (process_instances str_lower url_hostname env self rules
                      now count instances)))).
Proof.
  induction instances as [| instance rest IH]; intros self count Hsub.
  - constructor.
  - cbn [process_instances].
    assert (Hrest : rest ⊆ all).
    { intros x Hx. apply Hsub. now apply list_elem_of_further. }
    destruct (inst_enabled instance) eqn:Hen; cbn [negb]; [| now apply IH].
    destruct (get_client (qb_manager env) (inst_id instance))
      as [[client |] |] eqn:Hclient; [| now apply IH | constructor].
    destruct (get_torrents (qb_manager env) (inst_id instance))
      as [[| torrent torrents] |] eqn:Hlist;
      [now apply IH | | now apply IH].
    pose proof (process_torrents_justified env rules all instance client
                  (torrent :: torrents) now (Hsub _ (list_elem_of_here _ _))
                  Hen Hclient Hlist (torrent :: torrents) self count
                  (reflexivity _)) as Hone.
    destruct (process_torrents str_lower url_hostname env self
                (inst_id instance) client rules now count
                (torrent :: torrents)) as [[[self1 calls1] count1] raised].
    cbn [fst snd] in Hone. destruct raised; [exact Hone |].
    specialize (IH self1 count1 Hrest).
    destruct (process_instances str_lower url_hostname env self1 rules now
                count1 rest) as [[[self2 calls2] count2] raised2].
    cbn [fst snd] in IH |- *. apply Forall_app. now split.
Qed.

End PassCalls.

(** X27. A pass of the governor limits only what it should: every
    [set_upload_limit] it issues addresses a torrent listed by an enabled
    instance that has a client, that [_should_limit_torrent] accepts and
    for which [_find_rule] finds an enabled rule; when the read of the
    rules or of the instances raises, no limit is pushed. *)
Theorem limit_calls_justified (str_lower : string -> string)
    (url_hostname : string -> option string) (env : Env)
    (self : PrecisionLimitEngine.t) (now : Q) :
  let calls := snd (fst (_process_all str_lower url_hostname env self now)) in
  match get_speed_rules (db env), get_qb_instances (db env) with
  | Returns rules, Returns instances =>
    Forall (limit_call_justified str_lower url_hostname env
              (enabled_rules_of rules) instances) calls
  | _, _ => calls = []
  end.
Proof.
  cbn zeta. unfold _process_all.
  destruct (get_speed_rules (db env)) as [rules |]; [| reflexivity].
  destruct (size (enabled_rules_of rules) =? 0)%nat.
  { destruct (get_qb_instances (db env)); [constructor | reflexivity]. }
  destruct (get_qb_instances (db env)) as [[| instance instances] |];
    [constructor | | reflexivity].
  pose proof (process_instances_justified str_lower url_hostname env
                (enabled_rules_of rules) (instance :: instances) now
                (instance :: instances) self 0%Z (reflexivity _)) as Hall.
  destruct (process_instances str_lower url_hostname env self
              (enabled_rules_of rules) now 0%Z (instance :: instances))
    as [[[self1 calls] controlled_count] raised].
  cbn [fst snd] in Hall. destruct raised; exact Hall.
Qed.

Lemma remove_torrent_flags (driver : RemoveDriver.t)
    (self self' : AutoRemoveEngine.t) :
  AutoRemoveEngine._reannounce_before_delete self
  = AutoRemoveEngine._reannounce_before_delete self' ->
  AutoRemoveEngine._delete_files self = AutoRemoveEngine._delete_files self' ->
  forall rs instance torrent rule now,
  _remove_torrent driver self rs instance torrent rule now
  = _remove_torrent driver self' rs instance torrent rule now.
Proof.
  intros Hre Hdel rs instance torrent rule now.
  unfold _remove_torrent. rewrite Hre, Hdel. reflexivity.
Qed.

Lemma remove_torrents_flags (driver : RemoveDriver.t)
    (self self' : AutoRemoveEngine.t) (clk : PassClock)
    (instance : NamedInstance) (rules : list RemoveRule) (free_space : Z)
    (torrents : list Torrent) :
  (forall rs instance torrent rule now,
     _remove_torrent driver self rs instance torrent rule now
     = _remove_torrent driver self' rs instance torrent rule now) ->
  forall (i : nat) (rs : Removals),
  remove_torrents driver self clk instance rules free_space torrents i rs
  = remove_torrents driver self' clk instance rules free_space torrents i rs.
Proof.
  intros Hone. induction torrents as [| torrent rest IH]; intros i rs.
  - reflexivity.
  - cbn [remove_torrents].
    destruct (AutoRemoveEngine._match_rules torrent rules free_space
                (check_time clk i)) as [rule |]; [| apply IH].
    rewrite Hone.
    destruct (_remove_torrent driver self' rs instance torrent rule
                (record_time clk i)) as [[rs1 calls1] raised].
    destruct raised; [reflexivity |].
    destruct (negb (running_after clk i)); [reflexivity |].
    now rewrite IH.
Qed.

Lemma remove_instances_flags (driver : RemoveDriver.t)
    (self self' : AutoRemoveEngine.t) (clk : PassClock)
    (rules : list RemoveRule) (instances : list NamedInstance) :
  (forall rs instance torrent rule now,
     _remove_torrent driver self rs instance torrent rule now
     = _remove_torrent driver self' rs instance torrent rule now) ->
  forall (i : nat) (rs : Removals),
  remove_instances driver self clk rules instances i rs
  = remove_instances driver self' clk rules instances i rs.
Proof.
  intros Hone. induction instances as [| instance rest IH]; intros i rs.
  - reflexivity.
  - cbn [remove_instances].
    destruct (negb (inst_enabled (inst instance))); [apply IH |].
    destruct (RemoveDriver.is_connected driver (inst_id (inst instance)))
      as [[|] |]; [| apply IH | reflexivity].
    destruct (RemoveDriver.get_free_space driver (inst_id (inst instance)))
      as [free_space |]; [| reflexivity].
    destruct (RemoveDriver.get_torrents driver (inst_id (inst instance)))
      as [torrents |]; [| reflexivity].
    rewrite (remove_torrents_flags driver self self' clk instance rules
               free_space torrents Hone).
    destruct (remove_torrents driver self' clk instance rules free_space
                torrents i rs) as [[[rs1 calls1] i1] flow].
    destruct flow; [| reflexivity | reflexivity].
    now rewrite IH.
Qed.

(** X26. [manual_check] reads three fields of the engine: [_running],
    [_reannounce_before_delete] and [_delete_files].  Two engines that
    agree on them get the same removals, calls and answer, so a running
    engine removes on a manual check whether or not [_enabled] is set. *)
Theorem manual_check_reads_three_fields (rdb : RemoveDb)
    (driver : RemoveDriver.t) (self self' : AutoRemoveEngine.t)
    (clk : PassClock) (rs : Removals) :
  AutoRemoveEngine._running self = AutoRemoveEngine._running self' ->
  AutoRemoveEngine._reannounce_before_delete self
  = AutoRemoveEngine._reannounce_before_delete self' ->
  AutoRemoveEngine._delete_files self = AutoRemoveEngine._delete_files self' ->
  manual_check rdb driver self clk rs = manual_check rdb driver self' clk rs.
Proof.
  intros Hrun Hre Hdel. unfold manual_check, _check_and_remove.
  rewrite Hrun.
  destruct (negb (AutoRemoveEngine._running self')); [reflexivity |].
  destruct (get_enabled_remove_rules rdb) as [[| rule rules] |];
    [reflexivity | | reflexivity].
  destruct (get_named_instances rdb) as [instances |]; [| reflexivity].
  rewrite (remove_instances_flags driver self self' clk (rule :: rules)
             instances (remove_torrent_flags driver self self' Hre Hdel)).
  reflexivity.
Qed.

Lemma manual_check_reads_three_fields_witness :
  manual_check RemovalFleet.database RemovalFleet.driver RemovalFleet.engine
    RemovalFleet.clock removals_init
  = manual_check RemovalFleet.database RemovalFleet.driver
      (AutoRemoveEngine._load_config RemovalFleet.engine
         (Store.set_config "auto_remove_enabled" "true" Store.empty))
      RemovalFleet.clock removals_init.
Proof.
  apply (manual_check_reads_three_fields RemovalFleet.database
           RemovalFleet.driver RemovalFleet.engine
           (AutoRemoveEngine._load_config RemovalFleet.engine
              (Store.set_config "auto_remove_enabled" "true" Store.empty))
           RemovalFleet.clock removals_init); reflexivity.
Defined.

(** The sample removal, evaluated: the rule that does not parse is
    skipped, the slow torrent is reannounced and deleted with its files,
    the other one is left alone. *)
Example removal_fleet_checked :
  let '(rs, calls, success) :=
    manual_check RemovalFleet.database RemovalFleet.driver RemovalFleet.engine
      RemovalFleet.clock removals_init in
  calls = [call_reannounce 1 "b"; call_delete 1 "b" true]
  /\ RemoveRecord.rule_name <$> _remove_records rs = ["slow"]
  /\ _total_removed rs = 1%Z
  /\ _total_freed rs = 1000000000%Z
  /\ success = true.
Proof. vm_compute. repeat split. Qed.

(** X28. [start()] follows the stored flag: after a [set_config] that sets
    [enabled], an engine that was not running runs exactly when the flag
    set is true, and a running engine stays running; on any store without
    the flag an engine that is not running does not start. *)
Theorem start_follows_stored_flag (self : AutoRemoveEngine.t)
    (store unset : Store.t) (interval sleep_between : option Z)
    (reannounce delete_files : option bool) (enabled : bool) :
  let result :=
    AutoRemoveEngine.set_config self store interval sleep_between reannounce
      (Some enabled) delete_files in
  AutoRemoveEngine._running (auto_remove_start (fst result) (snd result))
  = AutoRemoveEngine._running self || enabled
  /\ match Store.config unset !! "auto_remove_enabled" with
     | None =>
       AutoRemoveEngine._running (auto_remove_start self unset)
       = AutoRemoveEngine._running self
     | Some _ => True
     end.
Proof.
  cbn zeta. split.
  - assert (Hrun : AutoRemoveEngine._running
                     (fst (AutoRemoveEngine.set_config self store interval
                             sleep_between reannounce (Some enabled)
                             delete_files))
                   = AutoRemoveEngine._running self).
    { unfold AutoRemoveEngine.set_config.
      destruct interval, sleep_between, reannounce, delete_files;
        reflexivity. }
    assert (Hen : AutoRemoveEngine._enabled
                    (AutoRemoveEngine._load_config
                       (fst (AutoRemoveEngine.set_config self store interval
                               sleep_between reannounce (Some enabled)
                               delete_files))
                       (snd (AutoRemoveEngine.set_config self store interval
                               sleep_between reannounce (Some enabled)
                               delete_files)))
                  = enabled).
    { unfold AutoRemoveEngine.set_config, AutoRemoveEngine._load_config,
        Store.get_config, Store.set_config.
      destruct interval, sleep_between, reannounce, delete_files;
        cbn [fst snd Store.config AutoRemoveEngine._enabled];
        repeat (rewrite lookup_insert_ne by discriminate);
        rewrite lookup_insert_eq; now destruct enabled. }
    unfold auto_remove_start. rewrite Hrun.
    destruct (AutoRemoveEngine._running self) eqn:Hr.
    + rewrite Hrun. reflexivity.
    + rewrite Hen. destruct enabled; cbn [negb orb].
      * reflexivity.
      * cbn [AutoRemoveEngine._load_config AutoRemoveEngine._running].
        rewrite Hrun. reflexivity.
  - destruct (Store.config unset !! "auto_remove_enabled") as [flag |] eqn:Hf;
      [exact I |].
    unfold auto_remove_start.
    destruct (AutoRemoveEngine._running self) eqn:Hr; [exact Hr |].
    unfold AutoRemoveEngine._load_config at 1 2.
    cbn [AutoRemoveEngine._enabled]. unfold Store.get_config at 1.
    rewrite Hf. cbn [default negb String.eqb].
    cbn [AutoRemoveEngine._load_config AutoRemoveEngine._running].
    exact Hr.
Qed.
